(** * RoomChecker: availability of the A29 rooms

    A shallow embedding of [room_checker.py] (the command-line checker) and
    of [celcat_flask_app.py] (the web front end), with the properties of the
    availability evaluator and of the report assembler. *)

From Stdlib Require Import ZArith QArith List String Bool Lia.
From Stdlib Require Import Sorting.Sorted Sorting.Permutation OrderedTypeEx.
From Stdlib Require Import QArith.Qround.
Import ListNotations.

Open Scope Z_scope.

(** ** The Python values the programs compute with *)

(** A naive [datetime]: the number of microseconds since midnight of day 0.
    Python compares two naive datetimes field by field, which is the order
    of this count. *)
Definition datetime : Type := Z.

Definition us_per_day : Z := 86400000000.
Definition us_per_minute : Z := 60000000.

(** [d.date()], as the number of the day. *)
Definition date (d : datetime) : Z := d / us_per_day.

(** A Python float as the programs use it: a number of minutes, or one of
    the two infinities ([float('inf')] and its negation in the sort keys). *)
Inductive pyfloat : Type :=
| NegInf
| Fin (q : Q)
| PosInf.

Definition fneg (x : pyfloat) : pyfloat :=
  match x with
  | NegInf => PosInf
  | Fin q => Fin (- q)
  | PosInf => NegInf
  end.

Definition feqb (x y : pyfloat) : bool :=
  match x, y with
  | NegInf, NegInf => true
  | Fin a, Fin b => Qeq_bool a b
  | PosInf, PosInf => true
  | _, _ => false
  end.

Definition fltb (x y : pyfloat) : bool :=
  match x, y with
  | NegInf, NegInf => false
  | NegInf, _ => true
  | Fin _, NegInf => false
  | Fin a, Fin b => match (a ?= b)%Q with Lt => true | _ => false end
  | Fin _, PosInf => true
  | PosInf, _ => false
  end.

(** [(a - b).total_seconds() / 60], as the exact quotient.  The programs
    take it between two instants of one day only, where two different
    quotients are two different floats in the same order. *)
Definition total_minutes (a b : datetime) : pyfloat :=
  Fin (Qmake (a - b) 60000000).

(** An event object of the calendar service, with its ['start'] and ['end']
    already read by [datetime.fromisoformat]; [description] stands for the
    other keys of the object, which the programs carry along unread. *)
Record event : Type := mkEvent {
  start : datetime;
  end_ : datetime;
  description : string
}.

(** [start <= t <= end] *)
Definition covers (e : event) (t : datetime) : bool :=
  (start e <=? t) && (t <=? end_ e).

(** Python's [min(x :: l, key=key)]: the first element whose key is minimal. *)
Fixpoint min_from {A : Type} (key : A -> Z) (best : A) (l : list A) : A :=
  match l with
  | [] => best
  | x :: l' => min_from key (if key x <? key best then x else best) l'
  end.

(** Python's [list.sort(key=...)]: a stable sort that compares keys with [<]
    only.  An element goes in front of the already sorted later elements,
    past those whose key is strictly smaller than its own. *)
Section PySort.
Context {A K : Type} (key : A -> K) (klt : K -> K -> bool).

Fixpoint insert_stable (x : A) (l : list A) : list A :=
  match l with
  | [] => [x]
  | y :: l' => if klt (key y) (key x) then y :: insert_stable x l'
               else x :: y :: l'
  end.

Fixpoint sort_by_key (l : list A) : list A :=
  match l with
  | [] => []
  | x :: l' => insert_stable x (sort_by_key l')
  end.
End PySort.

(** Python's [<] on the tuples used as sort keys: the first components that
    are not [==] decide. *)
Definition tuple2_lt (k1 k2 : pyfloat * string) : bool :=
  if feqb (fst k1) (fst k2) then (snd k1 <? snd k2)%string
  else fltb (fst k1) (fst k2).

Definition tuple3_lt (k1 k2 : datetime * pyfloat * string) : bool :=
  let '(t1, d1, r1) := k1 in
  let '(t2, d2, r2) := k2 in
  if t1 =? t2 then tuple2_lt (d1, r1) (d2, r2) else t1 <? t2.

(** The [requests.exceptions.RequestException]s of a fetch: those of the
    transport ([ConnectionError], [Timeout], ...), the [HTTPError] of
    [raise_for_status] on a non-success status, and the [JSONDecodeError] of
    [response.json()] on a payload that does not decode. *)
Inductive request_exception : Type :=
| TransportError
| NonSuccessStatus
| MalformedPayload.

(** What [requests.post], [raise_for_status] and [response.json()] can do
    inside the [try] of [get_room_schedule]: raise a [RequestException],
    raise an exception of another class, or yield the decoded list.  The
    list is one of events whose times have been read and are naive;
    [RawChecker] below takes the body as it arrives. *)
Inductive http_outcome : Type :=
| RequestException (e : request_exception)
| OtherException
| Payload (events : list event).

(** A call that returns a value or lets an exception escape. *)
Inductive result (A : Type) : Type :=
| Returns (a : A)
| Raises.

Arguments Returns {A} a.
Arguments Raises {A}.

(** The calendar service: room name, start date and end date to outcome. *)
Definition network : Type := string -> Z -> Z -> http_outcome.

(** ** room_checker.py *)
Module RoomChecker.

Definition A29_ROOMS : list string :=
  [ "A29/ Amphithéâtre A"; "A29/ Amphithéâtre B"; "A29/ Amphithéâtre C";
    "A29/ Amphithéâtre D"; "A29/ Amphithéâtre E"; "A29/ Amphithéâtre F";
    "A29/ Amphithéâtre G"; "A29/ Salle 001"; "A29/ Salle 101";
    "A29/ Salle 102"; "A29/ Salle 103"; "A29/ Salle 104";
    "A29/ Salle 105"; "A29/ Salle 106"; "A29/ Salle 107" ]%string.

(** Returns the events, or [None] with a line on stderr after a
    [RequestException]; [except requests.exceptions.RequestException] lets
    any other exception through. *)
Definition get_room_schedule (net : network) (room_name : string)
    (start_date end_date : Z) : result (option (list event)) :=
  match net room_name start_date end_date with
  | Payload events => Returns (Some events)
  | RequestException _ => Returns None
  | OtherException => Raises
  end.

Fixpoint is_room_available_loop (events : list event)
    (current_time : datetime) : bool :=
  match events with
  | [] => true
  | e :: rest =>
      if covers e current_time then false
      else is_room_available_loop rest current_time
  end.

Definition is_room_available_now (events : list event)
    (current_time : datetime) : bool :=
  match events with
  | [] => true
  | _ => is_room_available_loop events current_time
  end.

Definition get_next_event (events : list event) (current_time : datetime)
    : option event :=
  match events with
  | [] => None
  | _ =>
      let current_date := date current_time in
      let future_events :=
        fold_left
          (fun acc e =>
             if (current_time <? start e) && (date (start e) =? current_date)
             then acc ++ [e] else acc)
          events [] in
      match future_events with
      | [] => None
      | e :: rest => Some (min_from start e rest)
      end
  end.

Definition get_available_duration (events : list event)
    (current_time : datetime) : pyfloat :=
  match get_next_event events current_time with
  | Some next_event => total_minutes (start next_event) current_time
  | None => PosInf
  end.

(** The first loop of [get_next_availability], left by [break]. *)
Fixpoint current_event_end (events : list event) (current_time : datetime)
    : option datetime :=
  match events with
  | [] => None
  | e :: rest =>
      if covers e current_time then Some (end_ e)
      else current_event_end rest current_time
  end.

Definition get_next_availability (events : list event)
    (current_time : datetime) : option (datetime * pyfloat) :=
  let current_date := date current_time in
  match current_event_end events current_time with
  | None => None
  | Some cur_end =>
      if negb (date cur_end =? current_date) then None
      else
        let next_event_after :=
          fold_left
            (fun (acc : option event) e =>
               if (cur_end <=? start e) && (date (start e) =? current_date)
               then match acc with
                    | None => Some e
                    | Some n => if start e <? start n then Some e else acc
                    end
               else acc)
            events None in
        let duration :=
          match next_event_after with
          | Some n => total_minutes (start n) cur_end
          | None => PosInf
          end in
        Some (cur_end, duration)
  end.

(** The entries of [available_rooms] and [occupied_rooms]. *)
Definition available_entry : Type := string * list event * pyfloat.
Definition occupied_entry : Type := string * list event * datetime * pyfloat.

(** The state of the loop over the rooms; [could_not_fetch] lists the
    rooms for which the "Could not fetch data" line was printed. *)
Record loop_state : Type := mkState {
  available_rooms : list available_entry;
  occupied_rooms : list occupied_entry;
  could_not_fetch : list string
}.

(** The body of [for room in A29_ROOMS], once the schedule is there. *)
Definition record_room (now : datetime) (st : loop_state) (room : string)
    (schedule : option (list event)) : loop_state :=
  match schedule with
  | None =>
      mkState (available_rooms st) (occupied_rooms st)
              (could_not_fetch st ++ [room])
  | Some events =>
      if is_room_available_now events now then
        let duration := get_available_duration events now in
        mkState (available_rooms st ++ [(room, events, duration)])
                (occupied_rooms st) (could_not_fetch st)
      else
        match get_next_availability events now with
        | Some next_avail =>
            mkState (available_rooms st)
                    (occupied_rooms st
                       ++ [(room, events, fst next_avail, snd next_avail)])
                    (could_not_fetch st)
        | None => st
        end
  end.

(** One iteration of [for room in A29_ROOMS]. *)
Definition visit_room (net : network) (now : datetime) (st : loop_state)
    (room : string) : result loop_state :=
  let today := date now in
  let tomorrow := date (now + us_per_day) in
  match get_room_schedule net room today tomorrow with
  | Raises => Raises
  | Returns schedule => Returns (record_room now st room schedule)
  end.

(** The loop from the state [st] on; an exception ends it. *)
Fixpoint visit_from (net : network) (now : datetime) (rooms : list string)
    (st : loop_state) : result loop_state :=
  match rooms with
  | [] => Returns st
  | room :: rest =>
      match visit_room net now st room with
      | Raises => Raises
      | Returns st' => visit_from net now rest st'
      end
  end.

Definition visit_rooms (net : network) (now : datetime)
    (rooms : list string) : result loop_state :=
  visit_from net now rooms (mkState [] [] []).

(** [key=lambda x: (-x[2], x[0])] *)
Definition available_key (x : available_entry) : pyfloat * string :=
  let '(room, _, duration) := x in (fneg duration, room).

(** [key=lambda x: (x[2], -x[3], x[0])] *)
Definition occupied_key (x : occupied_entry) : datetime * pyfloat * string :=
  let '(room, _, avail_time, duration) := x in
  (avail_time, fneg duration, room).

(** What a run prints: the warnings, the rooms under AVAILABLE ROOMS in
    their order, the block NEXT ROOMS TO BECOME AVAILABLE when it is
    printed, and the two counts of the summary line. *)
Record report : Type := mkReport {
  warned : list string;
  available : list available_entry;
  next_to_become_available : option (list occupied_entry);
  summary : nat * nat
}.

(** The part of [check_all_rooms] that follows the loop. *)
Definition print_report (st : loop_state) : report :=
  let available_rooms := sort_by_key available_key tuple2_lt (available_rooms st) in
  let occupied_rooms := occupied_rooms st in
  if (List.length available_rooms <=? 2)%nat
     && negb (match occupied_rooms with [] => true | _ => false end)
  then
    let occupied_rooms := sort_by_key occupied_key tuple3_lt occupied_rooms in
    mkReport (could_not_fetch st) available_rooms
             (Some (firstn 2 occupied_rooms))
             (List.length available_rooms, List.length occupied_rooms)
  else
    mkReport (could_not_fetch st) available_rooms None
             (List.length available_rooms, List.length occupied_rooms).

Definition report_rooms (net : network) (now : datetime)
    (rooms : list string) : result report :=
  match visit_rooms net now rooms with
  | Raises => Raises
  | Returns st => Returns (print_report st)
  end.

(** [check_all_rooms()], with the clock and the service as arguments. *)
Definition check_all_rooms (net : network) (now : datetime) : result report :=
  report_rooms net now A29_ROOMS.

End RoomChecker.

(** ** celcat_flask_app.py *)
Module FlaskApp.

Definition A29_ROOMS : list string :=
  [ "A29/ Amphithéâtre A"; "A29/ Amphithéâtre B"; "A29/ Amphithéâtre C";
    "A29/ Amphithéâtre D"; "A29/ Amphithéâtre E"; "A29/ Amphithéâtre F";
    "A29/ Amphithéâtre G"; "A29/ Salle 001"; "A29/ Salle 101";
    "A29/ Salle 102"; "A29/ Salle 103"; "A29/ Salle 104";
    "A29/ Salle 105"; "A29/ Salle 106"; "A29/ Salle 107" ]%string.

(** The bare [except:] turns every exception into [None], silently. *)
Definition get_room_schedule (net : network) (room_name : string)
    (start_date end_date : Z) : option (list event) :=
  match net room_name start_date end_date with
  | Payload events => Some events
  | _ => None
  end.

Fixpoint is_room_available_loop (events : list event)
    (check_time : datetime) : bool :=
  match events with
  | [] => true
  | e :: rest =>
      if covers e check_time then false
      else is_room_available_loop rest check_time
  end.

Definition is_room_available (events : list event) (check_time : datetime)
    : bool :=
  match events with
  | [] => true
  | _ => is_room_available_loop events check_time
  end.

Definition get_next_event_today (events : list event)
    (check_time : datetime) : option event :=
  match events with
  | [] => None
  | _ =>
      let check_date := date check_time in
      let future :=
        filter (fun e => (check_time <? start e)
                         && (date (start e) =? check_date)) events in
      match future with
      | e :: rest => Some (min_from start e rest)
      | [] => None
      end
  end.

Definition get_available_duration (events : list event)
    (check_time : datetime) : pyfloat :=
  match get_next_event_today events check_time with
  | None => PosInf
  | Some next_event => total_minutes (start next_event) check_time
  end.

(** The dict [{'avail_time': ..., 'duration': ...}]. *)
Record next_avail : Type := mkNextAvail {
  avail_time : datetime;
  duration : pyfloat
}.

Fixpoint current_end (events : list event) (check_time : datetime)
    : option datetime :=
  match events with
  | [] => None
  | e :: rest =>
      if covers e check_time then Some (end_ e)
      else current_end rest check_time
  end.

Definition get_next_availability (events : list event)
    (check_time : datetime) : option next_avail :=
  match events with
  | [] => None
  | _ =>
      let check_date := date check_time in
      match current_end events check_time with
      | None => None
      | Some cur_end =>
          if negb (date cur_end =? check_date) then None
          else
            let future :=
              filter (fun e => (cur_end <=? start e)
                               && (date (start e) =? check_date)) events in
            let duration :=
              match future with
              | e :: rest =>
                  let next_event := min_from start e rest in
                  total_minutes (start next_event) cur_end
              | [] => PosInf
              end in
            Some (mkNextAvail cur_end duration)
      end
  end.

(** The dicts appended to [available_rooms] and [occupied_rooms]. *)
Record available_item : Type := mkAvailable {
  a_room : string;
  a_events : list event;
  a_duration : pyfloat
}.

Record occupied_item : Type := mkOccupied {
  o_room : string;
  o_avail_time : datetime;
  o_duration : pyfloat
}.

Definition visit_room (net : network) (check_time : datetime)
    (st : list available_item * list occupied_item) (room : string)
    : list available_item * list occupied_item :=
  let today := date check_time in
  let tomorrow := date (check_time + us_per_day) in
  match get_room_schedule net room today tomorrow with
  | None => st
  | Some events =>
      if is_room_available events check_time then
        let duration := get_available_duration events check_time in
        (fst st ++ [mkAvailable room events duration], snd st)
      else
        match get_next_availability events check_time with
        | Some na =>
            (fst st, snd st ++ [mkOccupied room (avail_time na) (duration na)])
        | None => st
        end
  end.

Definition visit_rooms (net : network) (check_time : datetime)
    (rooms : list string) : list available_item * list occupied_item :=
  fold_left (visit_room net check_time) rooms ([], []).

(** [key=lambda x: (-x['duration'], x['room'])] *)
Definition available_key (x : available_item) : pyfloat * string :=
  (fneg (a_duration x), a_room x).

(** [key=lambda x: (x['avail_time'], -x['duration'], x['room'])] *)
Definition occupied_key (x : occupied_item) : datetime * pyfloat * string :=
  (o_avail_time x, fneg (o_duration x), o_room x).

(** The JSON answer, with the data of each [info] text in place of the
    text: the start of the next event of an available room ([None] for
    "rest of day"), and the time and duration of an occupied one. *)
Record result : Type := mkResult {
  available : list (string * option datetime);
  next_available : list (string * datetime * pyfloat);
  summary : nat * nat
}.

Definition sorted_rooms (net : network) (check_time : datetime)
    (rooms : list string) : list available_item * list occupied_item :=
  let st := visit_rooms net check_time rooms in
  (sort_by_key available_key tuple2_lt (fst st),
   sort_by_key occupied_key tuple3_lt (snd st)).

Definition result_rooms (net : network) (check_time : datetime)
    (rooms : list string) : result :=
  let '(available_rooms, occupied_rooms) := sorted_rooms net check_time rooms in
  mkResult
    (map (fun item =>
            (a_room item,
             option_map start (get_next_event_today (a_events item) check_time)))
         available_rooms)
    (if (List.length available_rooms <=? 2)%nat
     then map (fun item => (o_room item, o_avail_time item, o_duration item))
              (firstn 2 occupied_rooms)
     else [])
    (List.length available_rooms, List.length occupied_rooms).

(** [check_availability()], with the posted time and the service as
    arguments. *)
Definition check_availability (net : network) (check_time : datetime)
    : result :=
  result_rooms net check_time A29_ROOMS.

End FlaskApp.

(** ** room_checker.py on the bodies as they arrive *)

(** What the program makes of ['start'] or ['end'] of an element of the
    body: a naive datetime; a datetime with an offset, which
    [datetime.fromisoformat] reads but whose comparison with the naive time
    of the query raises [TypeError]; or nothing, when the element is no
    object, the key is missing, or the value is null, a number or a text
    that is no ISO time, and reading it raises. *)
Inductive field : Type :=
| Naive (d : datetime)
| Aware
| Unreadable.

Record raw_event : Type := mkRaw {
  raw_start : field;
  raw_end : field;
  raw_description : string
}.

(** What [response.json()] returns: [None]; an empty object or string; a
    zero or [False]; a non-empty object or string, a number other than zero
    or [True]; a list. *)
Inductive body : Type :=
| JsonNull
| JsonEmpty
| JsonZero
| JsonTruthy
| JsonList (events : list raw_event).

Inductive wire_outcome : Type :=
| WireRequestException (e : request_exception)
| WireOtherException
| WireBody (b : body).

(** The calendar service again, with the body as it arrives. *)
Definition wire : Type := string -> Z -> Z -> wire_outcome.

(** The command-line program on these bodies: every call that reads an
    event can raise, and nothing catches it before the end of
    [check_all_rooms].  Writing to the terminal is taken to succeed. *)
Module RawChecker.

Definition get_room_schedule (net : wire) (room_name : string)
    (start_date end_date : Z) : result (option body) :=
  match net room_name start_date end_date with
  | WireBody JsonNull => Returns None
  | WireBody events => Returns (Some events)
  | WireRequestException _ => Returns None
  | WireOtherException => Raises
  end.

(** [not events] *)
Definition falsy (events : body) : bool :=
  match events with
  | JsonNull | JsonEmpty | JsonZero | JsonList [] => true
  | JsonTruthy | JsonList (_ :: _) => false
  end.

(** The elements that [for event in events] goes through.  [None], a
    number and a boolean are not iterable; a non-empty object or string
    gives a key or a character, on which [event['start']], the first thing
    that every loop of the program does, raises [TypeError]. *)
Definition iterate (events : body) : result (list raw_event) :=
  match events with
  | JsonNull | JsonZero | JsonTruthy => Raises
  | JsonEmpty => Returns []
  | JsonList l => Returns l
  end.

(** One turn of a loop that reads [start] and [end] and tests
    [start <= current_time <= end]: the end of the event when it contains
    the time.  The second comparison is made only when the first holds. *)
Definition covering_end (e : raw_event) (current_time : datetime)
    : result (option datetime) :=
  match raw_start e, raw_end e with
  | Unreadable, _ => Raises
  | _, Unreadable => Raises
  | Aware, _ => Raises
  | Naive s, Naive en =>
      Returns (if (s <=? current_time) && (current_time <=? en)
               then Some en else None)
  | Naive s, Aware => if s <=? current_time then Raises else Returns None
  end.

Fixpoint is_room_available_loop (events : list raw_event)
    (current_time : datetime) : result bool :=
  match events with
  | [] => Returns true
  | e :: rest =>
      match covering_end e current_time with
      | Raises => Raises
      | Returns (Some _) => Returns false
      | Returns None => is_room_available_loop rest current_time
      end
  end.

Definition is_room_available_now (events : body) (current_time : datetime)
    : result bool :=
  if falsy events then Returns true
  else match iterate events with
       | Raises => Raises
       | Returns l => is_room_available_loop l current_time
       end.

(** The loop of [get_next_event], from the list [acc] on. *)
Fixpoint future_events (events : list raw_event) (current_time : datetime)
    (acc : list raw_event) : result (list raw_event) :=
  match events with
  | [] => Returns acc
  | e :: rest =>
      match raw_start e with
      | Naive s =>
          future_events rest current_time
            (if (current_time <? s) && (date s =? date current_time)
             then acc ++ [e] else acc)
      | _ => Raises
      end
  end.

(** [datetime.fromisoformat(e['start'])] for an event whose start the
    program has read and compared before. *)
Definition naive_start (e : raw_event) : datetime :=
  match raw_start e with
  | Naive s => s
  | _ => 0
  end.

Definition get_next_event (events : body) (current_time : datetime)
    : result (option raw_event) :=
  if falsy events then Returns None
  else match iterate events with
       | Raises => Raises
       | Returns l =>
           match future_events l current_time [] with
           | Raises => Raises
           | Returns [] => Returns None
           | Returns (e :: rest) => Returns (Some (min_from naive_start e rest))
           end
       end.

Definition get_available_duration (events : body) (current_time : datetime)
    : result pyfloat :=
  match get_next_event events current_time with
  | Raises => Raises
  | Returns (Some next_event) =>
      match raw_start next_event with
      | Naive next_start => Returns (total_minutes next_start current_time)
      | _ => Raises
      end
  | Returns None => Returns PosInf
  end.

(** The first loop of [get_next_availability], left by [break]. *)
Fixpoint current_event_end (events : list raw_event)
    (current_time : datetime) : result (option datetime) :=
  match events with
  | [] => Returns None
  | e :: rest =>
      match covering_end e current_time with
      | Raises => Raises
      | Returns (Some en) => Returns (Some en)
      | Returns None => current_event_end rest current_time
      end
  end.

(** Its second loop, from [next_event_after] on. *)
Fixpoint next_event_after (events : list raw_event) (cur_end : datetime)
    (current_date : Z) (acc : option raw_event) : result (option raw_event) :=
  match events with
  | [] => Returns acc
  | e :: rest =>
      match raw_start e with
      | Naive s =>
          next_event_after rest cur_end current_date
            (if (cur_end <=? s) && (date s =? current_date)
             then match acc with
                  | None => Some e
                  | Some n => if s <? naive_start n then Some e else acc
                  end
             else acc)
      | _ => Raises
      end
  end.

Definition get_next_availability (events : body) (current_time : datetime)
    : result (option (datetime * pyfloat)) :=
  let current_date := date current_time in
  match iterate events with
  | Raises => Raises
  | Returns l =>
      match current_event_end l current_time with
      | Raises => Raises
      | Returns None => Returns None
      | Returns (Some cur_end) =>
          if negb (date cur_end =? current_date) then Returns None
          else
            match next_event_after l cur_end current_date None with
            | Raises => Raises
            | Returns next =>
                let duration :=
                  match next with
                  | Some n => total_minutes (naive_start n) cur_end
                  | None => PosInf
                  end in
                Returns (Some (cur_end, duration))
            end
      end
  end.

Definition available_entry : Type := string * body * pyfloat.
Definition occupied_entry : Type := string * body * datetime * pyfloat.

Record loop_state : Type := mkState {
  available_rooms : list available_entry;
  occupied_rooms : list occupied_entry;
  could_not_fetch : list string
}.

(** The body of [for room in A29_ROOMS], once the schedule is there. *)
Definition record_room (now : datetime) (st : loop_state) (room : string)
    (schedule : option body) : result loop_state :=
  match schedule with
  | None =>
      Returns (mkState (available_rooms st) (occupied_rooms st)
                       (could_not_fetch st ++ [room]))
  | Some events =>
      match is_room_available_now events now with
      | Raises => Raises
      | Returns true =>
          match get_available_duration events now with
          | Raises => Raises
          | Returns duration =>
              Returns (mkState (available_rooms st ++ [(room, events, duration)])
                               (occupied_rooms st) (could_not_fetch st))
          end
      | Returns false =>
          match get_next_availability events now with
          | Raises => Raises
          | Returns (Some next_avail) =>
              Returns (mkState (available_rooms st)
                               (occupied_rooms st
                                  ++ [(room, events, fst next_avail,
                                       snd next_avail)])
                               (could_not_fetch st))
          | Returns None => Returns st
          end
      end
  end.

Definition visit_room (net : wire) (now : datetime) (st : loop_state)
    (room : string) : result loop_state :=
  let today := date now in
  let tomorrow := date (now + us_per_day) in
  match get_room_schedule net room today tomorrow with
  | Raises => Raises
  | Returns schedule => record_room now st room schedule
  end.

Fixpoint visit_from (net : wire) (now : datetime) (rooms : list string)
    (st : loop_state) : result loop_state :=
  match rooms with
  | [] => Returns st
  | room :: rest =>
      match visit_room net now st room with
      | Raises => Raises
      | Returns st' => visit_from net now rest st'
      end
  end.

Definition visit_rooms (net : wire) (now : datetime) (rooms : list string)
    : result loop_state :=
  visit_from net now rooms (mkState [] [] []).

Definition available_key (x : available_entry) : pyfloat * string :=
  let '(room, _, duration) := x in (fneg duration, room).

Definition occupied_key (x : occupied_entry) : datetime * pyfloat * string :=
  let '(room, _, avail_time, duration) := x in
  (avail_time, fneg duration, room).

Record report : Type := mkReport {
  warned : list string;
  available : list available_entry;
  next_to_become_available : option (list occupied_entry);
  summary : nat * nat
}.

(** The part of [check_all_rooms] that follows the loop. *)
Definition print_report (st : loop_state) : report :=
  let available_rooms := sort_by_key available_key tuple2_lt (available_rooms st) in
  let occupied_rooms := occupied_rooms st in
  if (List.length available_rooms <=? 2)%nat
     && negb (match occupied_rooms with [] => true | _ => false end)
  then
    let occupied_rooms := sort_by_key occupied_key tuple3_lt occupied_rooms in
    mkReport (could_not_fetch st) available_rooms
             (Some (firstn 2 occupied_rooms))
             (List.length available_rooms, List.length occupied_rooms)
  else
    mkReport (could_not_fetch st) available_rooms None
             (List.length available_rooms, List.length occupied_rooms).

Definition report_rooms (net : wire) (now : datetime) (rooms : list string)
    : result report :=
  match visit_rooms net now rooms with
  | Raises => Raises
  | Returns st => Returns (print_report st)
  end.

Definition check_all_rooms (net : wire) (now : datetime) : result report :=
  report_rooms net now RoomChecker.A29_ROOMS.

End RawChecker.

(** ** The vocabulary of the properties *)

(** [e] is the first event of [events], in iteration order, whose interval
    contains [t]. *)
Definition first_covering (events : list event) (t : datetime) (e : event)
    : Prop :=
  exists pre post,
    events = pre ++ e :: post
    /\ start e <= t <= end_ e
    /\ forall x, In x pre -> ~ (start x <= t <= end_ x).

(** [x] starts at or after [E], on the date of [t]. *)
Definition follows_same_day (t E : datetime) (x : event) : Prop :=
  E <= start x /\ date (start x) = date t.

(** [d] is the free window after [E]: the minutes up to the earliest event
    that follows on the same day, or infinite when none does. *)
Definition free_window_after (events : list event) (t E : datetime)
    (d : pyfloat) : Prop :=
  (exists n,
      In n events /\ follows_same_day t E n
      /\ (forall x, In x events -> follows_same_day t E x -> start n <= start x)
      /\ d = Fin (Qmake (start n - E) 60000000))
  \/ ((forall x, In x events -> ~ follows_same_day t E x) /\ d = PosInf).

Definition next_availability_spec (events : list event) (t : datetime)
    (r : option (datetime * pyfloat)) : Prop :=
  exists e,
    first_covering events t e
    /\ (date (end_ e) <> date t -> r = None)
    /\ (date (end_ e) = date t ->
        exists d, r = Some (end_ e, d)
                  /\ free_window_after events t (end_ e) d).

(** [x] starts strictly after [t], on the date of [t]. *)
Definition upcoming_today (t : datetime) (x : event) : Prop :=
  t < start x /\ date (start x) = date t.

Definition next_event_today_spec (events : list event) (t : datetime)
    (r : option event) : Prop :=
  match r with
  | Some e =>
      In e events /\ upcoming_today t e
      /\ forall x, In x events -> upcoming_today t x -> start e <= start x
  | None => forall x, In x events -> ~ upcoming_today t x
  end.

(** A duration is infinite, or finite and not negative. *)
Definition nonnegative (d : pyfloat) : Prop :=
  match d with
  | NegInf => False
  | Fin q => (0 <= q)%Q
  | PosInf => True
  end.

(** The order of durations: [PosInf] above every finite value. *)
Definition dur_lt (x y : pyfloat) : Prop :=
  match x, y with
  | NegInf, NegInf => False
  | NegInf, _ => True
  | Fin a, Fin b => (a < b)%Q
  | Fin _, PosInf => True
  | _, _ => False
  end.

Definition dur_eq (x y : pyfloat) : Prop :=
  match x, y with
  | NegInf, NegInf => True
  | Fin a, Fin b => (a == b)%Q
  | PosInf, PosInf => True
  | _, _ => False
  end.

(** Longer duration first, then the smaller room name. *)
Definition longest_then_name (d1 : pyfloat) (r1 : string)
    (d2 : pyfloat) (r2 : string) : Prop :=
  dur_lt d2 d1 \/ (dur_eq d1 d2 /\ (r1 <=? r2)%string = true).

(** Sooner time first, then longer duration, then the smaller room name. *)
Definition soonest_then_longest_then_name (t1 : datetime) (d1 : pyfloat)
    (r1 : string) (t2 : datetime) (d2 : pyfloat) (r2 : string) : Prop :=
  t1 < t2 \/ (t1 = t2 /\ longest_then_name d1 r1 d2 r2).

(** The two orders, on the entries of the lists of both programs. *)
Definition cli_available_order (x y : RoomChecker.available_entry) : Prop :=
  let '(r1, _, d1) := x in
  let '(r2, _, d2) := y in
  longest_then_name d1 r1 d2 r2.

Definition cli_occupied_order (x y : RoomChecker.occupied_entry) : Prop :=
  let '(r1, _, t1, d1) := x in
  let '(r2, _, t2, d2) := y in
  soonest_then_longest_then_name t1 d1 r1 t2 d2 r2.

Definition flask_available_order (x y : FlaskApp.available_item) : Prop :=
  longest_then_name (FlaskApp.a_duration x) (FlaskApp.a_room x)
                    (FlaskApp.a_duration y) (FlaskApp.a_room y).

Definition flask_occupied_order (x y : FlaskApp.occupied_item) : Prop :=
  soonest_then_longest_then_name
    (FlaskApp.o_avail_time x) (FlaskApp.o_duration x) (FlaskApp.o_room x)
    (FlaskApp.o_avail_time y) (FlaskApp.o_duration y) (FlaskApp.o_room y).

Definition cli_available_room (x : RoomChecker.available_entry) : string :=
  fst (fst x).

Definition cli_occupied_room (x : RoomChecker.occupied_entry) : string :=
  fst (fst (fst x)).

(** The fetch of a room fails: a transport error, a non-success status or a
    payload that does not decode. *)
Definition is_failure (o : http_outcome) : Prop :=
  o = RequestException TransportError
  \/ o = RequestException NonSuccessStatus
  \/ o = RequestException MalformedPayload.

Definition fetch_fails (net : network) (now : datetime) (room : string) : Prop :=
  is_failure (net room (date now) (date (now + us_per_day))).

(** The rows of the web answer made from the sorted lists. *)
Definition flask_available_row (check_time : datetime)
    (item : FlaskApp.available_item) : string * option datetime :=
  (FlaskApp.a_room item,
   option_map start
     (FlaskApp.get_next_event_today (FlaskApp.a_events item) check_time)).

Definition flask_next_row (item : FlaskApp.occupied_item)
    : string * datetime * pyfloat :=
  (FlaskApp.o_room item, FlaskApp.o_avail_time item, FlaskApp.o_duration item).

(** *** A day of examples *)

(** [clock h m] is [h:m] on some day. *)
Definition clock (h m : Z) : datetime :=
  739000 * us_per_day + (h * 60 + m) * us_per_minute.

Definition lecture (h1 m1 h2 m2 : Z) : event :=
  mkEvent (clock h1 m1) (clock h2 m2) "lecture".

(** Rooms A and C have a lecture at 10:30, room B has none, room D cannot be
    fetched, rooms E and F are busy until 11:00 and 10:15; asking for any
    other room raises an exception that is not a [RequestException]. *)
Definition example_service : network :=
  fun room _ _ =>
    if (room =? "A")%string then Payload [lecture 8 0 9 0; lecture 10 30 12 0]
    else if (room =? "B")%string then Payload []
    else if (room =? "C")%string then Payload [lecture 10 30 11 30]
    else if (room =? "E")%string then Payload [lecture 9 0 11 0; lecture 14 0 15 0]
    else if (room =? "F")%string then Payload [lecture 9 0 10 15]
    else if (room =? "D")%string then RequestException TransportError
    else OtherException.

(** Four occupied rooms: E and G until 11:00 with a lecture at 14:00, F
    until 10:15 with nothing after, H until 10:15 with a lecture at 11:00. *)
Definition busy_service : network :=
  fun room _ _ =>
    if (room =? "E")%string then Payload [lecture 9 0 11 0; lecture 14 0 15 0]
    else if (room =? "G")%string then Payload [lecture 9 0 11 0; lecture 14 0 15 0]
    else if (room =? "F")%string then Payload [lecture 9 0 10 15]
    else if (room =? "H")%string then Payload [lecture 9 0 10 15; lecture 11 0 12 0]
    else RequestException NonSuccessStatus.

(** The tests of the two comprehensions, and the non-strict orders that
    [tuple2_lt] and [tuple3_lt] decide. *)
Definition upcomingb (t : datetime) (e : event) : bool :=
  (t <? start e) && (date (start e) =? date t).

Definition followsb (t E : datetime) (e : event) : bool :=
  (E <=? start e) && (date (start e) =? date t).

Definition tuple2_le (k1 k2 : pyfloat * string) : Prop :=
  dur_lt (fst k1) (fst k2)
  \/ (dur_eq (fst k1) (fst k2) /\ (snd k1 <=? snd k2)%string = true).

Definition tuple3_le (k1 k2 : datetime * pyfloat * string) : Prop :=
  fst (fst k1) < fst (fst k2)
  \/ (fst (fst k1) = fst (fst k2)
      /\ tuple2_le (snd (fst k1), snd k1) (snd (fst k2), snd k2)).

(** Two elements compared through their keys. *)
Definition by_key {A K : Type} (key : A -> K) (kle : K -> K -> Prop)
    (x y : A) : Prop :=
  kle (key x) (key y).

(** Two states of the loop with the same two lists, and two runs that both
    end, in such states, or both raise. *)
Definition same_lists (st1 st2 : RoomChecker.loop_state) : Prop :=
  RoomChecker.available_rooms st1 = RoomChecker.available_rooms st2
  /\ RoomChecker.occupied_rooms st1 = RoomChecker.occupied_rooms st2.

Definition alike {A : Type} (R : A -> A -> Prop) (r1 r2 : result A) : Prop :=
  match r1, r2 with
  | Returns a1, Returns a2 => R a1 a2
  | Raises, Raises => True
  | _, _ => False
  end.

(** No entry of the two lists bears the name [room]. *)
Definition absent (room : string) (st : RoomChecker.loop_state) : Prop :=
  (forall x, In x (RoomChecker.available_rooms st) -> cli_available_room x <> room)
  /\ (forall x, In x (RoomChecker.occupied_rooms st) -> cli_occupied_room x <> room).

(** The service answers for [room] without an exception that escapes the
    [except] clause of the command-line program. *)
Definition no_other_exception (net : network) (now : datetime)
    (room : string) : Prop :=
  net room (date now) (date (now + us_per_day)) <> OtherException.

(** The dict of the web version, read as the tuple of the other. *)
Definition as_tuple (r : FlaskApp.next_avail) : datetime * pyfloat :=
  (FlaskApp.avail_time r, FlaskApp.duration r).

(** *** What the programs print *)

(** The integer nearest to [x], a half going to the even side. *)
Definition round_half_even (x : Q) : Z :=
  let f := Qfloor x in
  match (x - inject_Z f ?= 1 # 2)%Q with
  | Lt => f
  | Gt => f + 1
  | Eq => if Z.even f then f else f + 1
  end.

(** [timedelta(minutes=q)], in microseconds. *)
Definition timedelta_minutes (q : Q) : Z :=
  round_half_even (q * 60000000).

(** The end of the free window that both programs show for an occupied
    room: nothing for "end of day", and otherwise
    [avail_time + timedelta(minutes=duration)]; [timedelta] raises
    [OverflowError] on an infinite number of minutes. *)
Definition until_time (avail_time : datetime) (duration : pyfloat)
    : result (option datetime) :=
  match duration with
  | PosInf => Returns None
  | Fin q => Returns (Some (avail_time + timedelta_minutes q))
  | NegInf => Raises
  end.

(** What the command-line program prints for an available room: the room
    and the start of its next event, or nothing for "the rest of the
    day". *)
Definition cli_available_row (now : datetime)
    (x : RoomChecker.available_entry) : string * option datetime :=
  let '(room, events, _) := x in
  (room, option_map start (RoomChecker.get_next_event events now)).

Definition cli_next_row (x : RoomChecker.occupied_entry)
    : string * datetime * pyfloat :=
  let '(room, _, avail_time, duration) := x in (room, avail_time, duration).

(** The rooms that a state of the loop accounts for. *)
Definition listed_rooms (st : RoomChecker.loop_state) : list string :=
  map cli_available_room (RoomChecker.available_rooms st)
  ++ map cli_occupied_room (RoomChecker.occupied_rooms st)
  ++ RoomChecker.could_not_fetch st.

(** The entries of the web program that stand for those of the other. *)
Definition as_available_item (x : RoomChecker.available_entry)
    : FlaskApp.available_item :=
  let '(room, events, duration) := x in
  FlaskApp.mkAvailable room events duration.

Definition as_occupied_item (x : RoomChecker.occupied_entry)
    : FlaskApp.occupied_item :=
  let '(room, _, avail_time, duration) := x in
  FlaskApp.mkOccupied room avail_time duration.

(** All the events of the list that contain [t] end at the same time: so
    it is when at most one event contains [t]. *)
Definition one_current_end (events : list event) (t : datetime) : Prop :=
  forall e e',
    In e events -> In e' events ->
    start e <= t <= end_ e -> start e' <= t <= end_ e' ->
    end_ e = end_ e'.

Definition cli_available_duration (x : RoomChecker.available_entry) : pyfloat :=
  snd x.

Definition cli_occupied_time (x : RoomChecker.occupied_entry) : datetime :=
  snd (fst x).

(** The dates that both programs ask the service for. *)
Definition asked (net : network) (now : datetime) (room : string)
    : http_outcome :=
  net room (date now) (date (now + us_per_day)).

(** *** The bodies as they arrive *)

Definition raw_asked (net : wire) (now : datetime) (room : string)
    : wire_outcome :=
  net room (date now) (date (now + us_per_day)).

(** The fetch of a room fails: [get_room_schedule] catches a
    [RequestException] (a transport error, a non-success status, a body
    that does not decode), or the body decodes to [None]. *)
Definition raw_fetch_fails (net : wire) (now : datetime) (room : string)
    : Prop :=
  (exists e, raw_asked net now room = WireRequestException e)
  \/ raw_asked net now room = WireBody JsonNull.

(** The room is fetched, and found available for [d]. *)
Definition evaluates_free (net : wire) (now : datetime) (room : string)
    (events : body) (d : pyfloat) : Prop :=
  raw_asked net now room = WireBody events
  /\ events <> JsonNull
  /\ RawChecker.is_room_available_now events now = Returns true
  /\ RawChecker.get_available_duration events now = Returns d.

(** The room is fetched, and found occupied until [E], then free for [d]. *)
Definition evaluates_busy (net : wire) (now : datetime) (room : string)
    (events : body) (E : datetime) (d : pyfloat) : Prop :=
  raw_asked net now room = WireBody events
  /\ events <> JsonNull
  /\ RawChecker.is_room_available_now events now = Returns false
  /\ RawChecker.get_next_availability events now = Returns (Some (E, d)).

(** One of the calls that the loop makes on the body raises. *)
Definition evaluation_raises (events : body) (now : datetime) : Prop :=
  RawChecker.is_room_available_now events now = Raises
  \/ (RawChecker.is_room_available_now events now = Returns true
      /\ RawChecker.get_available_duration events now = Raises)
  \/ (RawChecker.is_room_available_now events now = Returns false
      /\ RawChecker.get_next_availability events now = Raises).

(** The turn of the loop for [room] is left by an exception: one that
    [get_room_schedule] does not catch, or one of the evaluation of the
    body. *)
Definition room_raises (net : wire) (now : datetime) (room : string) : Prop :=
  raw_asked net now room = WireOtherException
  \/ exists events,
       raw_asked net now room = WireBody events
       /\ events <> JsonNull
       /\ evaluation_raises events now.

Definition raw_same_lists (st1 st2 : RawChecker.loop_state) : Prop :=
  RawChecker.available_rooms st1 = RawChecker.available_rooms st2
  /\ RawChecker.occupied_rooms st1 = RawChecker.occupied_rooms st2.

Definition raw_available_room (x : RawChecker.available_entry) : string :=
  fst (fst x).

Definition raw_occupied_room (x : RawChecker.occupied_entry) : string :=
  fst (fst (fst x)).

(** An event of the list of a payload, as it arrives, and the service that
    sends such lists. *)
Definition raw (e : event) : raw_event :=
  mkRaw (Naive (start e)) (Naive (end_ e)) (description e).

Definition raw_service (net : network) : wire :=
  fun room start_date end_date =>
    match net room start_date end_date with
    | RequestException e => WireRequestException e
    | OtherException => WireOtherException
    | Payload events => WireBody (JsonList (map raw events))
    end.

Definition raw_available_entry (x : RoomChecker.available_entry)
    : RawChecker.available_entry :=
  let '(room, events, duration) := x in
  (room, JsonList (map raw events), duration).

Definition raw_occupied_entry (x : RoomChecker.occupied_entry)
    : RawChecker.occupied_entry :=
  let '(room, events, avail_time, duration) := x in
  (room, JsonList (map raw events), avail_time, duration).

Definition raw_state (st : RoomChecker.loop_state) : RawChecker.loop_state :=
  RawChecker.mkState
    (map raw_available_entry (RoomChecker.available_rooms st))
    (map raw_occupied_entry (RoomChecker.occupied_rooms st))
    (RoomChecker.could_not_fetch st).

(** Room M answers with an empty object, room N with a list whose second
    event has a null end, room P with an object that reports an error;
    the other rooms are those of [example_service]. *)
Definition raw_example_service : wire :=
  fun room start_date end_date =>
    if (room =? "M")%string then WireBody JsonEmpty
    else if (room =? "N")%string then
      WireBody (JsonList [raw (lecture 8 0 9 0);
                          mkRaw (Naive (clock 9 30)) Unreadable "no end"])
    else if (room =? "P")%string then WireBody JsonTruthy
    else raw_service example_service room start_date end_date.

(** ** The availability evaluator *)

Section Evaluator.

Lemma covers_iff (e : event) (t : datetime) :
  covers e t = true <-> start e <= t <= end_ e.
Proof. unfold covers. rewrite andb_true_iff, !Z.leb_le. tauto. Qed.

Lemma covers_false_iff (e : event) (t : datetime) :
  covers e t = false <-> ~ (start e <= t <= end_ e).
Proof. rewrite <- covers_iff. destruct (covers e t); intuition congruence. Qed.

(** The [for] loop with its early [return False]. *)
Lemma cli_loop_true_iff (events : list event) (t : datetime) :
  RoomChecker.is_room_available_loop events t = true
  <-> forall e, In e events -> covers e t = false.
Proof.
  induction events as [|e rest IH]; simpl.
  - split; [intros _ x []|reflexivity].
  - destruct (covers e t) eqn:Hc.
    + split; [discriminate|]. intros H. rewrite <- Hc. symmetry. apply H. now left.
    + rewrite IH. split.
      * intros H x [<-|Hx]; auto.
      * intros H x Hx. apply H. now right.
Qed.

Lemma cli_available_is_loop (events : list event) (t : datetime) :
  RoomChecker.is_room_available_now events t
  = RoomChecker.is_room_available_loop events t.
Proof. destruct events; reflexivity. Qed.

Lemma flask_loop_eq (events : list event) (t : datetime) :
  FlaskApp.is_room_available_loop events t
  = RoomChecker.is_room_available_loop events t.
Proof. induction events as [|e rest IH]; simpl; [|rewrite IH]; reflexivity. Qed.

Lemma flask_available_eq (events : list event) (t : datetime) :
  FlaskApp.is_room_available events t
  = RoomChecker.is_room_available_now events t.
Proof. destruct events; [reflexivity|]. apply flask_loop_eq. Qed.

Lemma cli_available_true_iff (events : list event) (t : datetime) :
  RoomChecker.is_room_available_now events t = true
  <-> forall e, In e events -> ~ (start e <= t <= end_ e).
Proof.
  rewrite cli_available_is_loop, cli_loop_true_iff.
  split; intros H e He; apply covers_false_iff; auto.
Qed.

Lemma cli_available_false (events : list event) (t : datetime) (e : event) :
  In e events -> start e <= t <= end_ e ->
  RoomChecker.is_room_available_now events t = false.
Proof.
  intros He Hc.
  destruct (RoomChecker.is_room_available_now events t) eqn:Ha; [|reflexivity].
  rewrite cli_available_true_iff in Ha. now apply Ha in He.
Qed.

(** *** [min] with a key *)

Lemma min_from_In {A : Type} (key : A -> Z) (l : list A) :
  forall best, In (min_from key best l) (best :: l).
Proof.
  induction l as [|x l IH]; intros best; simpl; [now left|].
  destruct (IH (if key x <? key best then x else best)) as [H|H].
  - destruct (key x <? key best); rewrite <- H; auto.
  - auto.
Qed.

Lemma min_from_le {A : Type} (key : A -> Z) (l : list A) :
  forall best x, In x (best :: l) -> key (min_from key best l) <= key x.
Proof.
  induction l as [|y l IH]; intros best x Hx; simpl.
  - destruct Hx as [<-|[]]. lia.
  - set (b := if key y <? key best then y else best).
    assert (Hb : key b <= key best /\ key b <= key y).
    { unfold b. destruct (key y <? key best) eqn:E;
        [apply Z.ltb_lt in E|apply Z.ltb_ge in E]; lia. }
    pose proof (IH b b (or_introl eq_refl)) as Hmin.
    destruct Hx as [<-|[<-|Hx]]; try lia.
    apply IH. now right.
Qed.

(** The loop that appends to [future_events] is the comprehension. *)
Lemma fold_append_filter {A : Type} (p : A -> bool) (l : list A) :
  forall acc,
    fold_left (fun acc e => if p e then acc ++ [e] else acc) l acc
    = acc ++ filter p l.
Proof.
  induction l as [|x l IH]; intros acc; simpl.
  - now rewrite app_nil_r.
  - rewrite IH. destruct (p x); [|reflexivity].
    now rewrite <- app_assoc.
Qed.

(** The loop that keeps [next_event_after] is [min] over the matching
    events. *)
Lemma fold_keep_min (p : event -> bool) (l : list event) :
  forall acc,
    fold_left
      (fun (acc : option event) e =>
         if p e
         then match acc with
              | None => Some e
              | Some n => if start e <? start n then Some e else acc
              end
         else acc) l acc
    = match acc with
      | Some n => Some (min_from start n (filter p l))
      | None => match filter p l with
                | [] => None
                | e :: rest => Some (min_from start e rest)
                end
      end.
Proof.
  induction l as [|x l IH]; intros acc; simpl.
  - destruct acc; reflexivity.
  - rewrite IH. destruct (p x); [|reflexivity].
    destruct acc as [n|]; simpl; [|reflexivity].
    destruct (start x <? start n); reflexivity.
Qed.

Lemma flask_next_event_eq (events : list event) (t : datetime) :
  FlaskApp.get_next_event_today events t = RoomChecker.get_next_event events t.
Proof.
  unfold FlaskApp.get_next_event_today, RoomChecker.get_next_event.
  destruct events as [|e rest]; [reflexivity|].
  rewrite fold_append_filter. reflexivity.
Qed.

Lemma flask_duration_eq (events : list event) (t : datetime) :
  FlaskApp.get_available_duration events t
  = RoomChecker.get_available_duration events t.
Proof.
  unfold FlaskApp.get_available_duration, RoomChecker.get_available_duration.
  rewrite flask_next_event_eq.
  destruct (RoomChecker.get_next_event events t); reflexivity.
Qed.

Lemma flask_current_end_eq (events : list event) (t : datetime) :
  FlaskApp.current_end events t = RoomChecker.current_event_end events t.
Proof. induction events as [|e rest IH]; simpl; [|rewrite IH]; reflexivity. Qed.

Lemma flask_next_availability_eq (events : list event) (t : datetime) :
  option_map as_tuple (FlaskApp.get_next_availability events t)
  = RoomChecker.get_next_availability events t.
Proof.
  unfold FlaskApp.get_next_availability, RoomChecker.get_next_availability.
  destruct events as [|e0 rest]; [reflexivity|].
  rewrite flask_current_end_eq.
  destruct (RoomChecker.current_event_end (e0 :: rest) t) as [E|]; [|reflexivity].
  destruct (negb (date E =? date t)); [reflexivity|].
  rewrite fold_keep_min. cbn [option_map as_tuple FlaskApp.avail_time FlaskApp.duration].
  destruct (filter _ (e0 :: rest)); reflexivity.
Qed.

(** *** The next event of the day *)

Lemma upcomingb_iff (t : datetime) (e : event) :
  upcomingb t e = true <-> upcoming_today t e.
Proof.
  unfold upcomingb, upcoming_today.
  rewrite andb_true_iff, Z.ltb_lt, Z.eqb_eq. tauto.
Qed.

Lemma cli_next_event_filter (events : list event) (t : datetime) :
  RoomChecker.get_next_event events t
  = match filter (upcomingb t) events with
    | [] => None
    | e :: rest => Some (min_from start e rest)
    end.
Proof.
  unfold RoomChecker.get_next_event.
  destruct events as [|e0 rest]; [reflexivity|].
  rewrite fold_append_filter. reflexivity.
Qed.

Lemma cli_next_event_spec (events : list event) (t : datetime) :
  next_event_today_spec events t (RoomChecker.get_next_event events t).
Proof.
  rewrite cli_next_event_filter.
  destruct (filter (upcomingb t) events) as [|e rest] eqn:Hf; simpl.
  - intros x Hx Hup. apply upcomingb_iff in Hup.
    assert (Hin : In x (filter (upcomingb t) events)) by (apply filter_In; auto).
    rewrite Hf in Hin. exact Hin.
  - pose proof (min_from_In start rest e) as Hin.
    rewrite <- Hf in Hin. apply filter_In in Hin. destruct Hin as [Hin Hup].
    apply upcomingb_iff in Hup. split; [exact Hin|]. split; [exact Hup|].
    intros x Hx Hux. apply min_from_le. rewrite <- Hf.
    apply filter_In. split; [exact Hx|]. now apply upcomingb_iff.
Qed.

Lemma cli_duration_no_upcoming (events : list event) (t : datetime) :
  (forall e, In e events -> ~ upcoming_today t e) ->
  RoomChecker.get_available_duration events t = PosInf.
Proof.
  intros H. unfold RoomChecker.get_available_duration.
  pose proof (cli_next_event_spec events t) as Hs.
  destruct (RoomChecker.get_next_event events t) as [e|]; [|reflexivity].
  destruct Hs as (Hin & Hup & _). now apply H in Hin.
Qed.

(** *** The end of the current event *)

Lemma current_event_end_spec (events : list event) (t : datetime) :
  match RoomChecker.current_event_end events t with
  | Some E => exists e, first_covering events t e /\ E = end_ e
  | None => forall x, In x events -> ~ (start x <= t <= end_ x)
  end.
Proof.
  induction events as [|e0 rest IH]; simpl.
  - intros x [].
  - destruct (covers e0 t) eqn:Hc.
    + exists e0. split; [|reflexivity].
      exists [], rest. split; [reflexivity|]. split; [now apply covers_iff|].
      intros x [].
    + apply covers_false_iff in Hc.
      destruct (RoomChecker.current_event_end rest t) as [E|].
      * destruct IH as (e & (pre & post & -> & Hcov & Hpre) & ->).
        exists e. split; [|reflexivity].
        exists (e0 :: pre), post. split; [reflexivity|]. split; [exact Hcov|].
        intros x [<-|Hx]; auto.
      * intros x [<-|Hx]; auto.
Qed.

Lemma followsb_iff (t E : datetime) (e : event) :
  followsb t E e = true <-> follows_same_day t E e.
Proof.
  unfold followsb, follows_same_day.
  rewrite andb_true_iff, Z.leb_le, Z.eqb_eq. tauto.
Qed.

(** The result of [get_next_availability] once the current event is
    known to end today. *)
Lemma cli_next_availability_filter (events : list event) (t : datetime) :
  RoomChecker.get_next_availability events t
  = match RoomChecker.current_event_end events t with
    | None => None
    | Some E =>
        if date E =? date t
        then Some (E, match filter (followsb t E) events with
                      | [] => PosInf
                      | e :: rest => total_minutes (start (min_from start e rest)) E
                      end)
        else None
    end.
Proof.
  unfold RoomChecker.get_next_availability.
  destruct (RoomChecker.current_event_end events t) as [E|]; [|reflexivity].
  destruct (date E =? date t); [|reflexivity]. simpl.
  rewrite fold_keep_min. fold (followsb t E).
  destruct (filter (followsb t E) events); reflexivity.
Qed.

Lemma free_window_filter (events : list event) (t E : datetime) :
  free_window_after events t E
    match filter (followsb t E) events with
    | [] => PosInf
    | e :: rest => total_minutes (start (min_from start e rest)) E
    end.
Proof.
  destruct (filter (followsb t E) events) as [|e rest] eqn:Hf.
  - right. split; [|reflexivity]. intros x Hx Hfo.
    apply followsb_iff in Hfo.
    assert (Hin : In x (filter (followsb t E) events)) by (apply filter_In; auto).
    rewrite Hf in Hin. exact Hin.
  - left. exists (min_from start e rest).
    pose proof (min_from_In start rest e) as Hin.
    rewrite <- Hf in Hin. apply filter_In in Hin. destruct Hin as [Hin Hfo].
    apply followsb_iff in Hfo. split; [exact Hin|]. split; [exact Hfo|].
    split; [|reflexivity].
    intros x Hx Hfx. apply min_from_le. rewrite <- Hf.
    apply filter_In. split; [exact Hx|]. now apply followsb_iff.
Qed.

Lemma cli_next_availability_spec (events : list event) (t : datetime) :
  RoomChecker.is_room_available_now events t = false ->
  next_availability_spec events t (RoomChecker.get_next_availability events t).
Proof.
  intros Hocc. rewrite cli_next_availability_filter.
  pose proof (current_event_end_spec events t) as Hcur.
  destruct (RoomChecker.current_event_end events t) as [E|].
  - destruct Hcur as (e & Hfirst & ->). exists e. split; [exact Hfirst|].
    destruct (date (end_ e) =? date t) eqn:Hd.
    + apply Z.eqb_eq in Hd. split; [intros Hne; now elim Hne|].
      intros _. eexists. split; [reflexivity|]. apply free_window_filter.
    + apply Z.eqb_neq in Hd. split; [reflexivity|]. intros He. now elim Hd.
  - apply cli_available_true_iff in Hcur. congruence.
Qed.

End Evaluator.

(** ** Orders of the sort keys *)

Section KeyOrder.

Lemma fltb_iff (x y : pyfloat) : fltb x y = true <-> dur_lt x y.
Proof.
  destruct x as [|a|], y as [|b|]; simpl; try tauto; try (split; [discriminate|tauto]).
  rewrite Qlt_alt. destruct (a ?= b)%Q; split; congruence.
Qed.

Lemma feqb_iff (x y : pyfloat) : feqb x y = true <-> dur_eq x y.
Proof.
  destruct x as [|a|], y as [|b|]; simpl; try tauto; try (split; [discriminate|tauto]).
  apply Qeq_bool_iff.
Qed.

Lemma dur_eq_sym (x y : pyfloat) : dur_eq x y -> dur_eq y x.
Proof. destruct x, y; simpl; auto. apply Qeq_sym. Qed.

Lemma dur_eq_trans (x y z : pyfloat) : dur_eq x y -> dur_eq y z -> dur_eq x z.
Proof. destruct x, y, z; simpl; try tauto. apply Qeq_trans. Qed.

Lemma dur_lt_trans (x y z : pyfloat) : dur_lt x y -> dur_lt y z -> dur_lt x z.
Proof. destruct x, y, z; simpl; try tauto. apply Qlt_trans. Qed.

Lemma dur_lt_eq_trans (x y z : pyfloat) : dur_lt x y -> dur_eq y z -> dur_lt x z.
Proof.
  destruct x, y, z; simpl; try tauto.
  intros H1 H2. now rewrite <- H2.
Qed.

Lemma dur_eq_lt_trans (x y z : pyfloat) : dur_eq x y -> dur_lt y z -> dur_lt x z.
Proof.
  destruct x, y, z; simpl; try tauto.
  intros H1 H2. now rewrite H1.
Qed.

Lemma dur_total (x y : pyfloat) : dur_lt x y \/ dur_eq x y \/ dur_lt y x.
Proof.
  destruct x as [|a|], y as [|b|]; simpl; try tauto.
  destruct (Qcompare_spec a b); tauto.
Qed.

Lemma dur_lt_fneg (x y : pyfloat) : dur_lt (fneg x) (fneg y) <-> dur_lt y x.
Proof.
  destruct x as [|a|], y as [|b|]; simpl; try tauto.
  split; intros H.
  - apply Qopp_lt_compat in H. now rewrite !Qopp_involutive in H.
  - now apply Qopp_lt_compat.
Qed.

Lemma dur_eq_fneg (x y : pyfloat) : dur_eq (fneg x) (fneg y) <-> dur_eq x y.
Proof.
  destruct x as [|a|], y as [|b|]; simpl; try tauto.
  split; intros H.
  - rewrite <- (Qopp_involutive a), <- (Qopp_involutive b). now rewrite H.
  - now rewrite H.
Qed.

(** Room names, in the order of [String.compare]. *)

Lemma string_ltb_leb (a b : string) : (a <? b)%string = true -> (a <=? b)%string = true.
Proof. unfold String.ltb, String.leb. destruct (a ?= b)%string; congruence. Qed.

Lemma string_nltb_leb (a b : string) : (a <? b)%string = false -> (b <=? a)%string = true.
Proof.
  unfold String.ltb, String.leb. rewrite (String.compare_antisym b a).
  destruct (a ?= b)%string; simpl; congruence.
Qed.

Lemma string_leb_iff (a b : string) :
  (a <=? b)%string = true <-> a = b \/ String_as_OT.lt a b.
Proof.
  unfold String.leb.
  pose proof (String_as_OT.cmp_eq a b) as He.
  pose proof (String_as_OT.cmp_lt a b) as Hl.
  pose proof (String_as_OT.cmp_lt b a) as Hg.
  unfold String_as_OT.cmp in *.
  rewrite (String.compare_antisym b a) in Hg.
  destruct (a ?= b)%string eqn:Hc; simpl in *.
  - split; [intros _; left; now apply He|reflexivity].
  - split; [intros _; right; now apply Hl|reflexivity].
  - split; [discriminate|]. intros [H|H].
    + apply He in H. discriminate.
    + apply Hl in H. discriminate.
Qed.

Lemma string_leb_trans (a b c : string) :
  (a <=? b)%string = true -> (b <=? c)%string = true -> (a <=? c)%string = true.
Proof.
  rewrite !string_leb_iff. intros [->|H1] [->|H2]; auto.
  right. eapply String_as_OT.lt_trans; eassumption.
Qed.

Lemma tuple2_lt_le (a b : pyfloat * string) : tuple2_lt a b = true -> tuple2_le a b.
Proof.
  unfold tuple2_lt, tuple2_le. destruct (feqb (fst a) (fst b)) eqn:E.
  - intros H. right. split; [now apply feqb_iff|now apply string_ltb_leb].
  - intros H. left. now apply fltb_iff.
Qed.

Lemma tuple2_nlt_le (a b : pyfloat * string) : tuple2_lt a b = false -> tuple2_le b a.
Proof.
  unfold tuple2_lt, tuple2_le. destruct (feqb (fst a) (fst b)) eqn:E.
  - intros H. right. apply feqb_iff in E.
    split; [now apply dur_eq_sym|now apply string_nltb_leb].
  - intros H. left.
    destruct (dur_total (fst a) (fst b)) as [Hl|[He|Hg]]; [| |exact Hg].
    + apply fltb_iff in Hl. congruence.
    + apply feqb_iff in He. congruence.
Qed.

Lemma tuple2_le_trans (a b c : pyfloat * string) :
  tuple2_le a b -> tuple2_le b c -> tuple2_le a c.
Proof.
  unfold tuple2_le. intros [H1|[H1 S1]] [H2|[H2 S2]].
  - left. eapply dur_lt_trans; eassumption.
  - left. eapply dur_lt_eq_trans; eassumption.
  - left. eapply dur_eq_lt_trans; eassumption.
  - right. split; [eapply dur_eq_trans|eapply string_leb_trans]; eassumption.
Qed.

Lemma tuple3_lt_le (a b : datetime * pyfloat * string) :
  tuple3_lt a b = true -> tuple3_le a b.
Proof.
  destruct a as [[t1 d1] r1], b as [[t2 d2] r2]. unfold tuple3_lt, tuple3_le. simpl.
  destruct (t1 =? t2) eqn:E.
  - apply Z.eqb_eq in E. intros H. right. split; [exact E|now apply tuple2_lt_le].
  - intros H. left. now apply Z.ltb_lt.
Qed.

Lemma tuple3_nlt_le (a b : datetime * pyfloat * string) :
  tuple3_lt a b = false -> tuple3_le b a.
Proof.
  destruct a as [[t1 d1] r1], b as [[t2 d2] r2]. unfold tuple3_lt, tuple3_le. simpl.
  destruct (t1 =? t2) eqn:E.
  - apply Z.eqb_eq in E. intros H. right. split; [now symmetry|].
    now apply (tuple2_nlt_le (d1, r1) (d2, r2)).
  - apply Z.eqb_neq in E. intros H. apply Z.ltb_ge in H. left. lia.
Qed.

Lemma tuple3_le_trans (a b c : datetime * pyfloat * string) :
  tuple3_le a b -> tuple3_le b c -> tuple3_le a c.
Proof.
  unfold tuple3_le. intros [H1|[H1 S1]] [H2|[H2 S2]].
  - left. lia.
  - left. lia.
  - left. lia.
  - right. split; [congruence|]. eapply tuple2_le_trans; eassumption.
Qed.

End KeyOrder.

(** ** The stable sort *)

Section SortFacts.
Context {A K : Type} (key : A -> K) (klt : K -> K -> bool).
Variable kle : K -> K -> Prop.
Hypothesis klt_le : forall a b, klt a b = true -> kle a b.
Hypothesis knlt_le : forall a b, klt a b = false -> kle b a.
Hypothesis kle_trans : forall a b c, kle a b -> kle b c -> kle a c.

Lemma insert_stable_perm (x : A) (l : list A) :
  Permutation (x :: l) (insert_stable key klt x l).
Proof.
  induction l as [|y l IH]; simpl; [reflexivity|].
  destruct (klt (key y) (key x)); [|reflexivity].
  rewrite perm_swap. now constructor.
Qed.

Lemma sort_by_key_perm (l : list A) : Permutation l (sort_by_key key klt l).
Proof.
  induction l as [|x l IH]; simpl; [constructor|].
  rewrite <- insert_stable_perm. now constructor.
Qed.

Lemma sort_by_key_length (l : list A) :
  List.length (sort_by_key key klt l) = List.length l.
Proof. symmetry. apply Permutation_length, sort_by_key_perm. Qed.

Lemma insert_stable_sorted (x : A) (l : list A) :
  StronglySorted (by_key key kle) l -> StronglySorted (by_key key kle) (insert_stable key klt x l).
Proof.
  induction 1 as [|y l Hs IH Hy]; simpl.
  - repeat constructor.
  - destruct (klt (key y) (key x)) eqn:E.
    + constructor; [exact IH|].
      apply (Permutation_Forall (insert_stable_perm x l)).
      constructor; [now apply klt_le|exact Hy].
    + assert (Hxy : by_key key kle x y) by now apply knlt_le.
      constructor; [now constructor|].
      constructor; [exact Hxy|].
      eapply Forall_impl; [|exact Hy].
      intros z Hz. eapply kle_trans; eassumption.
Qed.

Lemma sort_by_key_sorted (l : list A) :
  StronglySorted (by_key key kle) (sort_by_key key klt l).
Proof.
  induction l as [|x l IH]; simpl; [constructor|].
  now apply insert_stable_sorted.
Qed.

End SortFacts.

Lemma some_eq {A : Type} (x y : A) : Some x = Some y -> x = y.
Proof. congruence. Qed.

Lemma some_result {A : Type} (x y : A) : Returns x = Returns y -> x = y.
Proof. congruence. Qed.

Lemma StronglySorted_weaken {A : Type} (R R' : A -> A -> Prop) (l : list A) :
  (forall x y, R x y -> R' x y) -> StronglySorted R l -> StronglySorted R' l.
Proof.
  intros HR. induction 1 as [|x l Hs IH Hx]; constructor; [exact IH|].
  eapply Forall_impl; [|exact Hx]. intros y. apply HR.
Qed.

Lemma firstn_In {A : Type} (x : A) (n : nat) (l : list A) :
  In x (firstn n l) -> In x l.
Proof.
  intros H. rewrite <- (firstn_skipn n l). apply in_or_app. now left.
Qed.

Lemma StronglySorted_firstn {A : Type} (R : A -> A -> Prop) (l : list A) :
  StronglySorted R l -> forall n, StronglySorted R (firstn n l).
Proof.
  induction 1 as [|x l Hs IH Hx]; intros [|n]; simpl; try constructor.
  - apply IH.
  - rewrite Forall_forall in *. intros y Hy. apply Hx.
    now apply firstn_In in Hy.
Qed.

(** ** The loop over the rooms *)

Section Assembler.
Import RoomChecker.

Variable net : network.
Variable now : datetime.

Lemma failure_returns_None (room : string) :
  fetch_fails net now room ->
  get_room_schedule net room (date now) (date (now + us_per_day))
  = Returns None.
Proof.
  unfold fetch_fails, is_failure, get_room_schedule.
  intros [H|[H|H]]; rewrite H; reflexivity.
Qed.

Lemma visit_failed_room (st : loop_state) (room : string) :
  fetch_fails net now room ->
  visit_room net now st room
  = Returns (mkState (available_rooms st) (occupied_rooms st)
                     (could_not_fetch st ++ [room])).
Proof.
  intros H. unfold visit_room. now rewrite (failure_returns_None room H).
Qed.

(** A room adds at most itself to one list, and only with a schedule;
    without one it adds itself to the warnings. *)
Lemma record_room_cases (st : loop_state) (x : string)
    (schedule : option (list event)) :
  let st' := record_room now st x schedule in
  match schedule with
  | Some events =>
      could_not_fetch st' = could_not_fetch st
      /\ ((exists d, available_rooms st' = available_rooms st ++ [(x, events, d)]
                     /\ occupied_rooms st' = occupied_rooms st)
          \/ (exists E d, available_rooms st' = available_rooms st
                          /\ occupied_rooms st'
                             = occupied_rooms st ++ [(x, events, E, d)])
          \/ (available_rooms st' = available_rooms st
              /\ occupied_rooms st' = occupied_rooms st))
  | None =>
      available_rooms st' = available_rooms st
      /\ occupied_rooms st' = occupied_rooms st
      /\ could_not_fetch st' = could_not_fetch st ++ [x]
  end.
Proof.
  destruct schedule as [events|]; simpl; [|auto].
  destruct (is_room_available_now events now).
  - split; [reflexivity|]. left. eexists. split; reflexivity.
  - destruct (get_next_availability events now) as [[E d]|].
    + split; [reflexivity|]. right. left. exists E, d. split; reflexivity.
    + split; [reflexivity|]. right. right. split; reflexivity.
Qed.

(** The two lists after a room depend on the two lists before it only. *)
Lemma record_room_lists (st1 st2 : loop_state) (x : string)
    (schedule : option (list event)) :
  same_lists st1 st2 ->
  same_lists (record_room now st1 x schedule) (record_room now st2 x schedule).
Proof.
  intros [Ha Ho]. unfold same_lists, record_room.
  destruct schedule as [events|]; simpl; [|auto].
  destruct (is_room_available_now events now); simpl; [now rewrite Ha|].
  destruct (get_next_availability events now); simpl; [now rewrite Ho|auto].
Qed.

Lemma visit_from_lists (rooms : list string) :
  forall st1 st2,
    same_lists st1 st2 ->
    alike same_lists (visit_from net now rooms st1) (visit_from net now rooms st2).
Proof.
  induction rooms as [|x rooms IH]; intros st1 st2 Hs; simpl; [exact Hs|].
  unfold visit_room.
  destruct (get_room_schedule net x (date now) (date (now + us_per_day)))
    as [schedule|]; [|exact I].
  apply IH. now apply record_room_lists.
Qed.

(** Leaving the failed room out of the list changes neither list, nor
    whether the loop ends. *)
Lemma visit_from_remove (room : string) (rooms : list string) :
  fetch_fails net now room ->
  forall st,
    alike same_lists (visit_from net now rooms st)
          (visit_from net now (remove string_dec room rooms) st).
Proof.
  intros Hf. induction rooms as [|x rooms IH]; intros st; simpl.
  - split; reflexivity.
  - destruct (string_dec room x) as [<-|Hne].
    + rewrite (visit_failed_room st room Hf).
      pose proof (IH st) as Hst.
      pose proof (visit_from_lists rooms
                    (mkState (available_rooms st) (occupied_rooms st)
                             (could_not_fetch st ++ [room])) st
                    (conj eq_refl eq_refl)) as Hl.
      destruct (visit_from net now rooms
                  (mkState (available_rooms st) (occupied_rooms st)
                           (could_not_fetch st ++ [room]))) as [a|],
               (visit_from net now rooms st) as [b|],
               (visit_from net now (remove string_dec room rooms) st) as [c|];
        simpl in *; try tauto.
      destruct Hl as [H1 H2], Hst as [H3 H4]. split; congruence.
    + simpl. destruct (visit_room net now st x) as [st'|]; [apply IH|exact I].
Qed.

Lemma warned_stay (room : string) (rooms : list string) :
  forall st st',
    In room (could_not_fetch st) ->
    visit_from net now rooms st = Returns st' ->
    In room (could_not_fetch st').
Proof.
  induction rooms as [|x rooms IH]; intros st st' Hin; simpl.
  - intros H. apply some_result in H. now subst.
  - unfold visit_room.
    destruct (get_room_schedule net x (date now) (date (now + us_per_day)))
      as [schedule|]; [|discriminate].
    apply IH. pose proof (record_room_cases st x schedule) as Hc.
    destruct schedule as [events|]; cbv zeta in Hc.
    + destruct Hc as [-> _]. exact Hin.
    + destruct Hc as (_ & _ & ->). apply in_or_app. now left.
Qed.

Lemma failed_room_warned (room : string) (rooms : list string) :
  fetch_fails net now room ->
  In room rooms ->
  forall st st',
    visit_from net now rooms st = Returns st' ->
    In room (could_not_fetch st').
Proof.
  intros Hf. induction rooms as [|x rooms IH]; intros Hin st st'; simpl;
    [elim Hin|].
  destruct Hin as [->|Hin].
  - rewrite (visit_failed_room st room Hf). apply warned_stay. simpl.
    apply in_or_app. right. now left.
  - destruct (visit_room net now st x) as [st1|]; [|discriminate].
    now apply IH.
Qed.

(** No entry of either list bears the name of a room whose fetch failed. *)
Lemma failed_room_absent (room : string) (rooms : list string) :
  fetch_fails net now room ->
  forall st st',
    absent room st ->
    visit_from net now rooms st = Returns st' ->
    absent room st'.
Proof.
  intros Hf. pose proof (failure_returns_None room Hf) as Hnone.
  induction rooms as [|y rooms IH]; intros st st' [Ha Ho]; simpl.
  - intros H. apply some_result in H. subst. now split.
  - unfold visit_room.
    destruct (get_room_schedule net y (date now) (date (now + us_per_day)))
      as [schedule|] eqn:Hy; [|discriminate].
    apply IH. pose proof (record_room_cases st y schedule) as Hc.
    destruct schedule as [events|]; cbv zeta in Hc.
    + assert (Hne : y <> room) by (intros ->; congruence).
      destruct Hc as (_ & [(d & Ea & Eo)|[(E & d & Ea & Eo)|(Ea & Eo)]]);
        split; rewrite ?Ea, ?Eo; try assumption;
        intros x Hx; apply in_app_or in Hx;
        destruct Hx as [Hx|[<-|[]]]; auto.
    + destruct Hc as (Ea & Eo & _). split; rewrite ?Ea, ?Eo; assumption.
Qed.

(** Without an exception of another class the loop ends. *)
Lemma visit_from_returns (rooms : list string) :
  (forall x, In x rooms -> no_other_exception net now x) ->
  forall st, exists st', visit_from net now rooms st = Returns st'.
Proof.
  induction rooms as [|x rooms IH]; intros Hno st; simpl; [now exists st|].
  assert (Hx : no_other_exception net now x) by (apply Hno; now left).
  unfold visit_room, get_room_schedule. unfold no_other_exception in Hx.
  destruct (net x (date now) (date (now + us_per_day))); [| now elim Hx |];
    apply IH; intros y Hy; apply Hno; now right.
Qed.

End Assembler.

(** ** Properties of the availability evaluator *)

(** C1.  A room is available at [t] exactly when no event of its list has
    [start <= t <= end], both ends included, in both programs.  An event
    that ends exactly at [t] still occupies the room, and so do two events
    that touch at [t]. *)
Theorem available_iff_no_event_covers :
  forall (events : list event) (t : datetime),
    (RoomChecker.is_room_available_now events t = true
     <-> forall e, In e events -> ~ (start e <= t <= end_ e))
    /\ (FlaskApp.is_room_available events t = true
        <-> forall e, In e events -> ~ (start e <= t <= end_ e))
    /\ (forall e, In e events -> start e <= end_ e -> end_ e = t ->
        RoomChecker.is_room_available_now events t = false
        /\ FlaskApp.is_room_available events t = false)
    /\ (forall e1 e2, In e1 events -> In e2 events ->
        end_ e1 = t -> start e2 = t -> start e2 <= end_ e2 ->
        RoomChecker.is_room_available_now events t = false
        /\ FlaskApp.is_room_available events t = false).
Proof.
  intros events t. rewrite (flask_available_eq events t).
  split; [apply cli_available_true_iff|].
  split; [apply cli_available_true_iff|].
  split.
  - intros e He Hwf Hend.
    assert (H : RoomChecker.is_room_available_now events t = false)
      by (apply (cli_available_false events t e He); lia).
    now rewrite H.
  - intros e1 e2 _ He2 _ Hstart Hwf.
    assert (H : RoomChecker.is_room_available_now events t = false)
      by (apply (cli_available_false events t e2 He2); lia).
    now rewrite H.
Qed.

(** At 10:00, between a lecture that ends at 10:00 and one that starts at
    10:00, the room is occupied. *)
Lemma available_iff_no_event_covers_witness :
  RoomChecker.is_room_available_now
    [lecture 9 0 10 0; lecture 10 0 11 0] (clock 10 0) = false
  /\ FlaskApp.is_room_available
       [lecture 9 0 10 0; lecture 10 0 11 0] (clock 10 0) = false.
Proof.
  destruct (available_iff_no_event_covers
              [lecture 9 0 10 0; lecture 10 0 11 0] (clock 10 0))
    as (_ & _ & _ & H).
  apply (H (lecture 9 0 10 0) (lecture 10 0 11 0)).
  - simpl. auto.
  - simpl. auto.
  - reflexivity.
  - reflexivity.
  - vm_compute. discriminate.
Defined.

(** C2.  For an occupied room, [get_next_availability] takes the end [E] of
    the first event that contains [t]; it answers [None] when [E] is on
    another date than [t], and otherwise [E] with the minutes from [E] to
    the earliest event that starts at or after [E] on that date, or with
    infinity when there is none.  Both programs do so. *)
Theorem next_availability_of_occupied_room :
  forall (events : list event) (t : datetime),
    RoomChecker.is_room_available_now events t = false ->
    next_availability_spec events t
      (RoomChecker.get_next_availability events t)
    /\ next_availability_spec events t
         (option_map as_tuple (FlaskApp.get_next_availability events t)).
Proof.
  intros events t Hocc. rewrite flask_next_availability_eq.
  split; now apply cli_next_availability_spec.
Qed.

(** Occupied from 9:00 to 11:00, with a lecture at 14:00 and, earlier in
    the list, one at 16:00. *)
Lemma next_availability_of_occupied_room_witness :
  next_availability_spec
    [lecture 16 0 17 0; lecture 9 0 11 0; lecture 14 0 15 0] (clock 10 0)
    (RoomChecker.get_next_availability
       [lecture 16 0 17 0; lecture 9 0 11 0; lecture 14 0 15 0] (clock 10 0))
  /\ RoomChecker.get_next_availability
       [lecture 16 0 17 0; lecture 9 0 11 0; lecture 14 0 15 0] (clock 10 0)
     = Some (clock 11 0, Fin (Qmake 10800000000 60000000)).
Proof.
  split.
  - apply (next_availability_of_occupied_room
             [lecture 16 0 17 0; lecture 9 0 11 0; lecture 14 0 15 0]
             (clock 10 0)).
    reflexivity.
  - reflexivity.
Defined.

(** C3.  [get_next_event] and [get_next_event_today] return, among the
    events that start strictly after [t] on the date of [t], one of minimal
    start, and [None] when there is no such event. *)
Theorem next_event_today_is_earliest :
  forall (events : list event) (t : datetime),
    next_event_today_spec events t (RoomChecker.get_next_event events t)
    /\ next_event_today_spec events t
         (FlaskApp.get_next_event_today events t).
Proof.
  intros events t. rewrite flask_next_event_eq.
  split; apply cli_next_event_spec.
Qed.

(** C4.  A room without events, and a room whose events all lie before the
    query instant, is available, for an infinite duration. *)
Theorem no_event_ahead_available_forever :
  forall (events : list event) (t : datetime),
    (events = [] \/ forall e, In e events -> start e < t /\ end_ e < t) ->
    RoomChecker.is_room_available_now events t = true
    /\ RoomChecker.get_available_duration events t = PosInf.
Proof.
  intros events t H.
  assert (Hpast : forall e, In e events -> start e < t /\ end_ e < t).
  { destruct H as [->|H]; [intros e []|exact H]. }
  split.
  - apply cli_available_true_iff. intros e He. apply Hpast in He. lia.
  - apply cli_duration_no_upcoming. intros e He [Hlt _]. apply Hpast in He. lia.
Qed.

Lemma no_event_ahead_available_forever_witness :
  (RoomChecker.is_room_available_now [] (clock 10 0) = true
   /\ RoomChecker.get_available_duration [] (clock 10 0) = PosInf)
  /\ (RoomChecker.is_room_available_now
        [lecture 8 0 9 0; lecture 9 15 9 45] (clock 10 0) = true
      /\ RoomChecker.get_available_duration
           [lecture 8 0 9 0; lecture 9 15 9 45] (clock 10 0) = PosInf).
Proof.
  split.
  - apply (no_event_ahead_available_forever [] (clock 10 0)). left. reflexivity.
  - apply (no_event_ahead_available_forever
             [lecture 8 0 9 0; lecture 9 15 9 45] (clock 10 0)).
    right. intros e [<-|[<-|[]]]; vm_compute; split; reflexivity.
Defined.

Lemma free_window_nonnegative (events : list event) (t E : datetime)
    (d : pyfloat) :
  free_window_after events t E d -> nonnegative d.
Proof.
  intros [(n & _ & [Hge _] & _ & ->)|[_ ->]]; simpl; [|exact I].
  unfold Qle. simpl. lia.
Qed.

(** C9.  The durations are never negative: the free duration of a room is
    infinite or a positive number of minutes, and the free window after the
    current event is infinite or a number of minutes that is not negative. *)
Theorem durations_nonnegative :
  forall (events : list event) (t : datetime),
    nonnegative (RoomChecker.get_available_duration events t)
    /\ (forall q, RoomChecker.get_available_duration events t = Fin q ->
                  (0 < q)%Q)
    /\ match RoomChecker.get_next_availability events t with
       | Some (_, d) => nonnegative d
       | None => True
       end.
Proof.
  intros events t.
  assert (Hpos : forall q, RoomChecker.get_available_duration events t = Fin q ->
                           (0 < q)%Q).
  { unfold RoomChecker.get_available_duration.
    pose proof (cli_next_event_spec events t) as Hs.
    destruct (RoomChecker.get_next_event events t) as [e|]; [|discriminate].
    destruct Hs as (_ & [Hlt _] & _).
    intros q Hq. injection Hq as <-. unfold Qlt. simpl. lia. }
  split; [|split; [exact Hpos|]].
  - destruct (RoomChecker.get_available_duration events t) as [|q|] eqn:Hd;
      simpl; [|apply Qlt_le_weak; now apply Hpos|exact I].
    unfold RoomChecker.get_available_duration in Hd.
    destruct (RoomChecker.get_next_event events t); discriminate.
  - rewrite cli_next_availability_filter.
    destruct (RoomChecker.current_event_end events t) as [E|]; [|exact I].
    destruct (date E =? date t); [|exact I].
    eapply free_window_nonnegative. apply free_window_filter.
Qed.

(** C10.  The evaluator of the web program computes what the evaluator of
    the command-line program computes: the same availability, the same next
    event, the same free duration, and the same next availability, the dict
    of the one read as the tuple of the other; on the empty list both
    answer [None]. *)
Theorem evaluators_agree :
  forall (events : list event) (t : datetime),
    FlaskApp.is_room_available events t
    = RoomChecker.is_room_available_now events t
    /\ FlaskApp.get_next_event_today events t
       = RoomChecker.get_next_event events t
    /\ FlaskApp.get_available_duration events t
       = RoomChecker.get_available_duration events t
    /\ option_map as_tuple (FlaskApp.get_next_availability events t)
       = RoomChecker.get_next_availability events t
    /\ (FlaskApp.get_next_availability [] t = None
        /\ RoomChecker.get_next_availability [] t = None).
Proof.
  intros events t.
  split; [apply flask_available_eq|].
  split; [apply flask_next_event_eq|].
  split; [apply flask_duration_eq|].
  split; [apply flask_next_availability_eq|].
  split; reflexivity.
Qed.

(** ** Properties of the report *)

Section Report.

Lemma tuple2_le_available (d1 d2 : pyfloat) (r1 r2 : string) :
  tuple2_le (fneg d1, r1) (fneg d2, r2) -> longest_then_name d1 r1 d2 r2.
Proof.
  unfold tuple2_le, longest_then_name. simpl.
  rewrite dur_lt_fneg, dur_eq_fneg. tauto.
Qed.

Lemma tuple3_le_occupied (t1 t2 : datetime) (d1 d2 : pyfloat) (r1 r2 : string) :
  tuple3_le (t1, fneg d1, r1) (t2, fneg d2, r2) ->
  soonest_then_longest_then_name t1 d1 r1 t2 d2 r2.
Proof.
  unfold tuple3_le, soonest_then_longest_then_name. simpl.
  intros [H|[H1 H2]]; [now left|right].
  split; [exact H1|now apply tuple2_le_available].
Qed.

Lemma cli_sort_available_sorted (l : list RoomChecker.available_entry) :
  StronglySorted cli_available_order
    (sort_by_key RoomChecker.available_key tuple2_lt l).
Proof.
  eapply StronglySorted_weaken;
    [|apply (sort_by_key_sorted RoomChecker.available_key tuple2_lt tuple2_le
               tuple2_lt_le tuple2_nlt_le tuple2_le_trans)].
  intros [[r1 e1] d1] [[r2 e2] d2]. apply tuple2_le_available.
Qed.

Lemma cli_sort_occupied_sorted (l : list RoomChecker.occupied_entry) :
  StronglySorted cli_occupied_order
    (sort_by_key RoomChecker.occupied_key tuple3_lt l).
Proof.
  eapply StronglySorted_weaken;
    [|apply (sort_by_key_sorted RoomChecker.occupied_key tuple3_lt tuple3_le
               tuple3_lt_le tuple3_nlt_le tuple3_le_trans)].
  intros [[[r1 e1] t1] d1] [[[r2 e2] t2] d2]. apply tuple3_le_occupied.
Qed.

Lemma flask_sort_available_sorted (l : list FlaskApp.available_item) :
  StronglySorted flask_available_order
    (sort_by_key FlaskApp.available_key tuple2_lt l).
Proof.
  eapply StronglySorted_weaken;
    [|apply (sort_by_key_sorted FlaskApp.available_key tuple2_lt tuple2_le
               tuple2_lt_le tuple2_nlt_le tuple2_le_trans)].
  intros x y. apply tuple2_le_available.
Qed.

Lemma flask_sort_occupied_sorted (l : list FlaskApp.occupied_item) :
  StronglySorted flask_occupied_order
    (sort_by_key FlaskApp.occupied_key tuple3_lt l).
Proof.
  eapply StronglySorted_weaken;
    [|apply (sort_by_key_sorted FlaskApp.occupied_key tuple3_lt tuple3_le
               tuple3_lt_le tuple3_nlt_le tuple3_le_trans)].
  intros x y. apply tuple3_le_occupied.
Qed.

(** The fields of the printed report, from the state the loop ends in. *)
Lemma cli_report_available (st : RoomChecker.loop_state) :
  RoomChecker.available (RoomChecker.print_report st)
  = sort_by_key RoomChecker.available_key tuple2_lt
      (RoomChecker.available_rooms st).
Proof.
  unfold RoomChecker.print_report.
  destruct (_ && _); reflexivity.
Qed.

Lemma cli_report_summary (st : RoomChecker.loop_state) :
  RoomChecker.summary (RoomChecker.print_report st)
  = (List.length (RoomChecker.available_rooms st),
     List.length (RoomChecker.occupied_rooms st)).
Proof.
  unfold RoomChecker.print_report.
  destruct (_ && _); simpl; now rewrite !sort_by_key_length.
Qed.

Lemma cli_report_next (st : RoomChecker.loop_state) :
  RoomChecker.next_to_become_available (RoomChecker.print_report st)
  = if (List.length (RoomChecker.available_rooms st) <=? 2)%nat
       && negb (match RoomChecker.occupied_rooms st with
                | [] => true
                | _ => false
                end)
    then Some (firstn 2
                 (sort_by_key RoomChecker.occupied_key tuple3_lt
                    (RoomChecker.occupied_rooms st)))
    else None.
Proof.
  unfold RoomChecker.print_report. rewrite sort_by_key_length.
  destruct (_ && _); reflexivity.
Qed.

Lemma cli_report_warned (st : RoomChecker.loop_state) :
  RoomChecker.warned (RoomChecker.print_report st)
  = RoomChecker.could_not_fetch st.
Proof.
  unfold RoomChecker.print_report.
  destruct (_ && _); reflexivity.
Qed.

Lemma flask_result_available (net : network) (t : datetime)
    (rooms : list string) :
  FlaskApp.available (FlaskApp.result_rooms net t rooms)
  = map (flask_available_row t) (fst (FlaskApp.sorted_rooms net t rooms)).
Proof. reflexivity. Qed.

Lemma flask_result_next (net : network) (t : datetime) (rooms : list string) :
  FlaskApp.next_available (FlaskApp.result_rooms net t rooms)
  = if (List.length (fst (FlaskApp.sorted_rooms net t rooms)) <=? 2)%nat
    then map flask_next_row (firstn 2 (snd (FlaskApp.sorted_rooms net t rooms)))
    else [].
Proof. reflexivity. Qed.

End Report.

(** C5.  The available rooms are listed by descending free duration, an
    infinite duration above every finite one, and by ascending room name
    among equal durations: in the report that the command-line program
    prints from the state its loop ends in, and in the answer of the web
    program; the listed rooms are the available rooms of the loop.  Rooms A
    (30 minutes), B (infinite) and C (30 minutes) come out as B, A, C. *)
Theorem available_rooms_sorted :
  forall (st : RoomChecker.loop_state) (net : network) (t : datetime)
         (rooms : list string),
    (StronglySorted cli_available_order
       (RoomChecker.available (RoomChecker.print_report st))
     /\ Permutation (RoomChecker.available_rooms st)
                    (RoomChecker.available (RoomChecker.print_report st)))
    /\ (StronglySorted flask_available_order
          (fst (FlaskApp.sorted_rooms net t rooms))
        /\ Permutation (fst (FlaskApp.visit_rooms net t rooms))
                       (fst (FlaskApp.sorted_rooms net t rooms))
        /\ FlaskApp.available (FlaskApp.result_rooms net t rooms)
           = map (flask_available_row t)
                 (fst (FlaskApp.sorted_rooms net t rooms)))
    /\ (sort_by_key RoomChecker.available_key tuple2_lt
          [("A", [], Fin 30); ("B", [], PosInf); ("C", [], Fin 30)]%string
        = [("B", [], PosInf); ("A", [], Fin 30); ("C", [], Fin 30)]%string
        /\ match RoomChecker.report_rooms example_service (clock 10 0)
                   ["A"; "B"; "C"]%string with
           | Returns r =>
               map cli_available_room (RoomChecker.available r)
               = ["B"; "A"; "C"]%string
           | Raises => False
           end
        /\ map fst
             (FlaskApp.available
                (FlaskApp.result_rooms example_service (clock 10 0)
                   ["A"; "B"; "C"]%string))
           = ["B"; "A"; "C"]%string).
Proof.
  intros st net t rooms. split; [|split].
  - rewrite cli_report_available. split.
    + apply cli_sort_available_sorted.
    + apply sort_by_key_perm.
  - split; [apply flask_sort_available_sorted|].
    split; [apply sort_by_key_perm|reflexivity].
  - split; [|split]; vm_compute; reflexivity.
Qed.

(** C6.  The occupied rooms with a next slot today are sorted by ascending
    time of becoming available, then by descending duration of the free
    window, infinite first, then by ascending room name: the sort of either
    program yields such a list, the web program takes its rows from it, and
    the block printed by the command-line program is its beginning, and is
    printed whenever at most two rooms are available and a room is
    occupied.  Rooms E and G, free again at 11:00 for three hours, and F
    and H, free again at 10:15 for the rest of the day and for 45 minutes,
    come out as F, H, E, G, of which the command-line program shows F
    and H. *)
Theorem occupied_rooms_sorted :
  forall (st : RoomChecker.loop_state) (net : network) (t : datetime)
         (rooms : list string),
    (StronglySorted cli_occupied_order
       (sort_by_key RoomChecker.occupied_key tuple3_lt
          (RoomChecker.occupied_rooms st))
     /\ Permutation (RoomChecker.occupied_rooms st)
          (sort_by_key RoomChecker.occupied_key tuple3_lt
             (RoomChecker.occupied_rooms st)))
    /\ (forall shown,
          RoomChecker.next_to_become_available (RoomChecker.print_report st)
          = Some shown ->
          StronglySorted cli_occupied_order shown
          /\ shown
             = firstn 2
                 (sort_by_key RoomChecker.occupied_key tuple3_lt
                    (RoomChecker.occupied_rooms st)))
    /\ (StronglySorted flask_occupied_order
          (snd (FlaskApp.sorted_rooms net t rooms))
        /\ Permutation (snd (FlaskApp.visit_rooms net t rooms))
                       (snd (FlaskApp.sorted_rooms net t rooms)))
    /\ ((List.length (RoomChecker.available_rooms st) <= 2)%nat ->
        RoomChecker.occupied_rooms st <> [] ->
        RoomChecker.next_to_become_available (RoomChecker.print_report st)
        = Some (firstn 2
                  (sort_by_key RoomChecker.occupied_key tuple3_lt
                     (RoomChecker.occupied_rooms st))))
    /\ match RoomChecker.report_rooms busy_service (clock 10 0)
                ["G"; "E"; "H"; "F"]%string with
        | Returns r =>
            option_map (map cli_next_row)
              (RoomChecker.next_to_become_available r)
            = Some [("F"%string, clock 10 15, PosInf);
                    ("H"%string, clock 10 15, Fin (Qmake 2700000000 60000000))]
        | Raises => False
        end
    /\ map flask_next_row
          (snd (FlaskApp.sorted_rooms busy_service (clock 10 0)
                  ["G"; "E"; "H"; "F"]%string))
        = [("F"%string, clock 10 15, PosInf);
           ("H"%string, clock 10 15, Fin (Qmake 2700000000 60000000));
           ("E"%string, clock 11 0, Fin (Qmake 10800000000 60000000));
           ("G"%string, clock 11 0, Fin (Qmake 10800000000 60000000))].
Proof.
  intros st net t rooms. split; [|split; [|split; [|split; [|split]]]].
  - split; [apply cli_sort_occupied_sorted|apply sort_by_key_perm].
  - intros shown. rewrite cli_report_next.
    destruct (_ && _); [|discriminate].
    intros H. apply some_eq in H. subst shown. split; [|reflexivity].
    apply StronglySorted_firstn, cli_sort_occupied_sorted.
  - split; [apply flask_sort_occupied_sorted|apply sort_by_key_perm].
  - intros Hn Hne. rewrite cli_report_next.
    apply Nat.leb_le in Hn. rewrite Hn. cbn [andb].
    destruct (RoomChecker.occupied_rooms st); [now elim Hne|reflexivity].
  - vm_compute. reflexivity.
  - vm_compute. reflexivity.
Qed.

(** C7.  The rooms next to become available are shown only when at most
    two rooms are available, and then they are the first two entries of the
    sorted list of occupied rooms, or fewer when the list is shorter; with
    more than two available rooms nothing is shown. *)
Theorem next_section_only_when_few_available :
  forall (st : RoomChecker.loop_state) (net : network) (t : datetime)
         (rooms : list string),
    (let r := RoomChecker.print_report st in
     let occupied := RoomChecker.occupied_rooms st in
     let sorted := sort_by_key RoomChecker.occupied_key tuple3_lt occupied in
     (forall shown,
         RoomChecker.next_to_become_available r = Some shown ->
         (List.length (RoomChecker.available r) <= 2)%nat
         /\ shown = firstn 2 sorted
         /\ (List.length shown <= 2)%nat)
     /\ ((List.length (RoomChecker.available r) <= 2)%nat ->
         occupied <> [] ->
         RoomChecker.next_to_become_available r = Some (firstn 2 sorted))
     /\ ((2 < List.length (RoomChecker.available r))%nat ->
         RoomChecker.next_to_become_available r = None))
    /\ (let r := FlaskApp.result_rooms net t rooms in
        let sorted := snd (FlaskApp.sorted_rooms net t rooms) in
        (FlaskApp.next_available r <> [] ->
         (List.length (FlaskApp.available r) <= 2)%nat)
        /\ ((List.length (FlaskApp.available r) <= 2)%nat ->
            FlaskApp.next_available r = map flask_next_row (firstn 2 sorted))
        /\ ((2 < List.length (FlaskApp.available r))%nat ->
            FlaskApp.next_available r = [])
        /\ (List.length (FlaskApp.next_available r) <= 2)%nat).
Proof.
  intros st net t rooms. split.
  - cbv zeta. rewrite cli_report_next, cli_report_available, sort_by_key_length.
    destruct (List.length (RoomChecker.available_rooms st) <=? 2)%nat eqn:Hn;
      [apply Nat.leb_le in Hn|apply Nat.leb_gt in Hn]; cbn [andb].
    + split; [|split].
      * intros shown H.
        destruct (RoomChecker.occupied_rooms st); [discriminate|].
        apply some_eq in H. subst shown.
        split; [exact Hn|]. split; [reflexivity|]. apply firstn_le_length.
      * intros _ Hne.
        destruct (RoomChecker.occupied_rooms st); [now elim Hne|reflexivity].
      * intros Hgt. lia.
    + split; [|split].
      * intros shown H. discriminate.
      * intros Hle. lia.
      * reflexivity.
  - cbv zeta. rewrite flask_result_next, flask_result_available, length_map.
    destruct (List.length (fst (FlaskApp.sorted_rooms net t rooms)) <=? 2)%nat
      eqn:Hn; [apply Nat.leb_le in Hn|apply Nat.leb_gt in Hn].
    + split; [intros _; exact Hn|]. split; [reflexivity|].
      split; [intros Hgt; lia|]. rewrite length_map. apply firstn_le_length.
    + split; [intros H; now elim H|]. split; [intros Hle; lia|].
      split; [reflexivity|]. simpl. lia.
Qed.

(** ** More on the availability evaluator *)

Section EvaluatorMore.

Lemma current_event_end_first (events : list event) (t : datetime) (e : event) :
  first_covering events t e ->
  RoomChecker.current_event_end events t = Some (end_ e).
Proof.
  intros (pre & post & -> & Hc & Hpre).
  induction pre as [|x pre IH]; simpl.
  - apply covers_iff in Hc. now rewrite Hc.
  - assert (Hx : covers x t = false)
      by (apply covers_false_iff, Hpre; now left).
    rewrite Hx. apply IH. intros y Hy. apply Hpre. now right.
Qed.

Lemma current_event_end_none_iff (events : list event) (t : datetime) :
  RoomChecker.current_event_end events t = None
  <-> RoomChecker.is_room_available_now events t = true.
Proof.
  rewrite cli_available_true_iff.
  pose proof (current_event_end_spec events t) as Hs.
  destruct (RoomChecker.current_event_end events t) as [E|].
  - split; [discriminate|]. intros Hav.
    destruct Hs as (e & (pre & post & -> & Hc & _) & _).
    exfalso. apply (Hav e); [|exact Hc].
    apply in_or_app. right. now left.
  - split; [intros _; exact Hs|reflexivity].
Qed.

(** What a [Some] answer of [get_next_availability] comes from. *)
Lemma cli_next_availability_some (events : list event) (t E : datetime)
    (d : pyfloat) :
  RoomChecker.get_next_availability events t = Some (E, d) ->
  (exists e, first_covering events t e /\ E = end_ e)
  /\ date E = date t
  /\ d = match filter (followsb t E) events with
         | [] => PosInf
         | e :: rest => total_minutes (start (min_from start e rest)) E
         end.
Proof.
  rewrite cli_next_availability_filter.
  pose proof (current_event_end_spec events t) as Hs.
  destruct (RoomChecker.current_event_end events t) as [E'|]; [|discriminate].
  destruct (date E' =? date t) eqn:Hd; [|discriminate].
  intros H. apply some_eq in H.
  assert (HE : E' = E) by congruence. subst E'.
  split; [exact Hs|]. split; [now apply Z.eqb_eq|congruence].
Qed.

Lemma flask_next_availability_none (events : list event) (t : datetime) :
  FlaskApp.get_next_availability events t = None
  <-> RoomChecker.get_next_availability events t = None.
Proof.
  rewrite <- flask_next_availability_eq.
  destruct (FlaskApp.get_next_availability events t); simpl;
    split; congruence.
Qed.

Lemma same_date_within_a_day (a b : datetime) :
  date a = date b -> a - b < us_per_day.
Proof.
  unfold date, us_per_day. intros H.
  pose proof (Z.div_mod a 86400000000 ltac:(lia)) as Ha.
  pose proof (Z.div_mod b 86400000000 ltac:(lia)) as Hb.
  pose proof (Z.mod_pos_bound a 86400000000 ltac:(lia)) as Ma.
  pose proof (Z.mod_pos_bound b 86400000000 ltac:(lia)) as Mb.
  rewrite H in Ha. lia.
Qed.

(** The first element of minimal key: every element in front of it has a
    strictly larger key. *)
Lemma min_from_first {A : Type} (key : A -> Z) (l : list A) :
  forall best,
    exists pre post,
      best :: l = pre ++ min_from key best l :: post
      /\ forall x, In x pre -> key (min_from key best l) < key x.
Proof.
  induction l as [|x l IH]; intros best; simpl.
  - exists [], []. split; [reflexivity|intros y []].
  - set (b := if key x <? key best then x else best).
    destruct (IH b) as (pre & post & Heq & Hpre).
    assert (Hb : key b <= key best /\ key b <= key x).
    { unfold b. destruct (key x <? key best) eqn:E;
        [apply Z.ltb_lt in E|apply Z.ltb_ge in E]; lia. }
    destruct pre as [|y pre]; simpl in Heq.
    + injection Heq as Hm Hl. rewrite <- Hm. clear Hm Hpre Hb.
      unfold b. destruct (key x <? key best) eqn:E.
      * exists [best], l. split; [reflexivity|].
        intros z [<-|[]]. now apply Z.ltb_lt.
      * exists [], (x :: l). split; [reflexivity|intros z []].
    + injection Heq as Hy Hl. subst y.
      exists (best :: x :: pre), post. split; [simpl; do 2 f_equal; exact Hl|].
      assert (Hlt : key (min_from key b l) < key b) by (apply Hpre; now left).
      intros z [<-|[<-|Hz]]; [lia|lia|]. apply Hpre. now right.
Qed.

Lemma filter_split {A : Type} (p : A -> bool) (l : list A) :
  forall l1 x l2,
    filter p l = l1 ++ x :: l2 ->
    exists a b, l = a ++ x :: b /\ filter p a = l1 /\ filter p b = l2.
Proof.
  induction l as [|y l IH]; intros l1 x l2 H; simpl in H.
  - destruct l1; discriminate.
  - destruct (p y) eqn:Hy.
    + destruct l1 as [|z l1]; simpl in H.
      * injection H as -> Hl. exists [], l. now split.
      * injection H as -> Hl. destruct (IH l1 x l2 Hl) as (a & b & -> & Ha & Hb).
        exists (z :: a), b. split; [reflexivity|]. simpl. rewrite Hy, Ha. now split.
    + destruct (IH l1 x l2 H) as (a & b & -> & Ha & Hb).
      exists (y :: a), b. split; [reflexivity|]. simpl. rewrite Hy. now split.
Qed.

(** Two lists with the same elements have the same least start. *)
Lemma min_start_same_elements (e1 e2 : event) (l1 l2 : list event) :
  (forall x, In x (e1 :: l1) <-> In x (e2 :: l2)) ->
  start (min_from start e1 l1) = start (min_from start e2 l2).
Proof.
  intros H.
  pose proof (min_from_In start l1 e1) as H1.
  pose proof (min_from_In start l2 e2) as H2.
  apply H in H1. apply H in H2.
  pose proof (min_from_le start l1 e1 _ H2).
  pose proof (min_from_le start l2 e2 _ H1).
  lia.
Qed.

End EvaluatorMore.

(** X1.  [get_next_availability] answers [None] in two cases only: the room
    is available at [t], or the first event that contains [t] ends on
    another date than [t].  Both programs agree on it. *)
Theorem next_availability_none_iff :
  forall (events : list event) (t : datetime),
    (RoomChecker.get_next_availability events t = None
     <-> RoomChecker.is_room_available_now events t = true
         \/ exists e, first_covering events t e /\ date (end_ e) <> date t)
    /\ (FlaskApp.get_next_availability events t = None
        <-> FlaskApp.is_room_available events t = true
            \/ exists e, first_covering events t e /\ date (end_ e) <> date t).
Proof.
  intros events t.
  rewrite flask_next_availability_none, (flask_available_eq events t).
  assert (H : RoomChecker.get_next_availability events t = None
              <-> RoomChecker.is_room_available_now events t = true
                  \/ exists e, first_covering events t e
                               /\ date (end_ e) <> date t).
  { rewrite cli_next_availability_filter. split.
    - pose proof (current_event_end_spec events t) as Hs.
      destruct (RoomChecker.current_event_end events t) as [E|] eqn:Hc.
      + destruct (date E =? date t) eqn:Hd; [discriminate|].
        intros _. right. destruct Hs as (e & Hfirst & ->).
        exists e. split; [exact Hfirst|now apply Z.eqb_neq].
      + intros _. left. now apply current_event_end_none_iff.
    - intros [Hav|(e & Hfirst & Hd)].
      + apply current_event_end_none_iff in Hav. now rewrite Hav.
      + rewrite (current_event_end_first events t e Hfirst).
        apply Z.eqb_neq in Hd. now rewrite Hd. }
  split; exact H.
Qed.

(** X2.  When [get_next_availability] answers a time, that time is the end
    of the first event that contains [t]; it is not before [t] and it is on
    the date of [t]. *)
Theorem next_availability_is_today_and_not_past :
  forall (events : list event) (t E : datetime) (d : pyfloat),
    RoomChecker.get_next_availability events t = Some (E, d) ->
    (exists e, first_covering events t e /\ E = end_ e)
    /\ t <= E
    /\ date E = date t.
Proof.
  intros events t E d H.
  destruct (cli_next_availability_some events t E d H) as (He & Hd & _).
  split; [exact He|]. split; [|exact Hd].
  destruct He as (e & (pre & post & _ & Hc & _) & ->). lia.
Qed.

Lemma next_availability_is_today_and_not_past_witness :
  (exists e,
      first_covering [lecture 9 0 11 0; lecture 14 0 15 0] (clock 10 0) e
      /\ clock 11 0 = end_ e)
  /\ clock 10 0 <= clock 11 0
  /\ date (clock 11 0) = date (clock 10 0).
Proof.
  apply (next_availability_is_today_and_not_past
           [lecture 9 0 11 0; lecture 14 0 15 0] (clock 10 0) (clock 11 0)
           (Fin (Qmake 10800000000 60000000))).
  reflexivity.
Defined.

(** X3.  At the very time that [get_next_availability] answers, the room
    still counts as occupied: the end of an event belongs to the event. *)
Theorem occupied_at_its_availability_time :
  forall (events : list event) (t E : datetime) (d : pyfloat),
    RoomChecker.get_next_availability events t = Some (E, d) ->
    RoomChecker.is_room_available_now events E = false
    /\ FlaskApp.is_room_available events E = false.
Proof.
  intros events t E d H. rewrite (flask_available_eq events E).
  destruct (cli_next_availability_some events t E d H)
    as ((e & (pre & post & -> & Hc & _) & ->) & _ & _).
  assert (Hocc : RoomChecker.is_room_available_now
                   (pre ++ e :: post) (end_ e) = false).
  { apply (cli_available_false _ _ e); [|lia].
    apply in_or_app. right. now left. }
  now rewrite Hocc.
Qed.

Lemma occupied_at_its_availability_time_witness :
  RoomChecker.is_room_available_now
    [lecture 9 0 11 0; lecture 14 0 15 0] (clock 11 0) = false
  /\ FlaskApp.is_room_available
       [lecture 9 0 11 0; lecture 14 0 15 0] (clock 11 0) = false.
Proof.
  apply (occupied_at_its_availability_time
           [lecture 9 0 11 0; lecture 14 0 15 0] (clock 10 0) (clock 11 0)
           (Fin (Qmake 10800000000 60000000))).
  reflexivity.
Defined.

(** X4.  A finite duration is shorter than a day: the free duration of an
    available room lies strictly between 0 and 1440 minutes, and the free
    window after an occupied room lies between 0, included, and 1440
    minutes. *)
Theorem finite_durations_below_a_day :
  forall (events : list event) (t : datetime) (q : Q),
    (RoomChecker.get_available_duration events t = Fin q ->
     (0 < q)%Q /\ (q < 1440)%Q)
    /\ (forall E, RoomChecker.get_next_availability events t = Some (E, Fin q) ->
                  (0 <= q)%Q /\ (q < 1440)%Q).
Proof.
  intros events t q. split.
  - unfold RoomChecker.get_available_duration.
    pose proof (cli_next_event_spec events t) as Hs.
    destruct (RoomChecker.get_next_event events t) as [e|]; [|discriminate].
    destruct Hs as (_ & [Hlt Hd] & _).
    intros Hq. injection Hq as <-.
    pose proof (same_date_within_a_day _ _ Hd) as Hday.
    unfold us_per_day in Hday. unfold Qlt. simpl. lia.
  - intros E H.
    destruct (cli_next_availability_some events t E (Fin q) H) as (_ & HdE & Hq).
    pose proof (free_window_filter events t E) as Hw.
    rewrite <- Hq in Hw.
    destruct Hw as [(n & _ & [Hge Hd] & _ & Hn)|[_ Hn]]; [|discriminate].
    injection Hn as ->.
    assert (Hday : start n - E < us_per_day)
      by (apply same_date_within_a_day; congruence).
    unfold us_per_day in Hday. unfold Qle, Qlt. simpl. lia.
Qed.

(** X5.  The event that [get_next_event] returns is the first of the
    earliest: every event in front of it in the list that starts after [t]
    on the date of [t] starts strictly later.  The web program returns the
    same event. *)
Theorem next_event_is_first_of_earliest :
  forall (events : list event) (t : datetime) (e : event),
    RoomChecker.get_next_event events t = Some e ->
    FlaskApp.get_next_event_today events t = Some e
    /\ exists pre post,
         events = pre ++ e :: post
         /\ forall x, In x pre -> upcoming_today t x -> start e < start x.
Proof.
  intros events t e H. split; [now rewrite flask_next_event_eq|].
  rewrite cli_next_event_filter in H.
  destruct (filter (upcomingb t) events) as [|e0 rest] eqn:Hf; [discriminate|].
  apply some_eq in H.
  destruct (min_from_first start rest e0) as (pre & post & Heq & Hpre).
  rewrite H in Heq, Hpre. rewrite <- Hf in Heq.
  destruct (filter_split _ _ _ _ _ Heq) as (a & b & -> & Ha & _).
  exists a, b. split; [reflexivity|].
  intros x Hx Hup. apply Hpre. rewrite <- Ha.
  apply filter_In. split; [exact Hx|now apply upcomingb_iff].
Qed.

(** Of two lectures at 12:00, the one listed first is the next event. *)
Lemma next_event_is_first_of_earliest_witness :
  FlaskApp.get_next_event_today
    [lecture 14 0 15 0; mkEvent (clock 12 0) (clock 13 0) "first";
     mkEvent (clock 12 0) (clock 13 30) "second"] (clock 10 0)
  = Some (mkEvent (clock 12 0) (clock 13 0) "first")
  /\ exists pre post,
       [lecture 14 0 15 0; mkEvent (clock 12 0) (clock 13 0) "first";
        mkEvent (clock 12 0) (clock 13 30) "second"]
       = pre ++ mkEvent (clock 12 0) (clock 13 0) "first" :: post
       /\ forall x, In x pre -> upcoming_today (clock 10 0) x ->
                    start (mkEvent (clock 12 0) (clock 13 0) "first") < start x.
Proof.
  apply (next_event_is_first_of_earliest
           [lecture 14 0 15 0; mkEvent (clock 12 0) (clock 13 0) "first";
            mkEvent (clock 12 0) (clock 13 30) "second"] (clock 10 0)).
  reflexivity.
Defined.

(** X6.  When an event of the list starts exactly at the time that
    [get_next_availability] answers, the free window is 0 minutes long. *)
Theorem back_to_back_gives_zero_window :
  forall (events : list event) (t E : datetime) (d : pyfloat) (n : event),
    RoomChecker.get_next_availability events t = Some (E, d) ->
    In n events ->
    start n = E ->
    d = Fin (Qmake 0 60000000).
Proof.
  intros events t E d n H Hn Hstart.
  destruct (cli_next_availability_some events t E d H) as (_ & HdE & ->).
  assert (Hfn : In n (filter (followsb t E) events)).
  { apply filter_In. split; [exact Hn|]. apply followsb_iff.
    split; [lia|congruence]. }
  destruct (filter (followsb t E) events) as [|e rest] eqn:Hf; [elim Hfn|].
  pose proof (min_from_le start rest e n Hfn) as Hle.
  pose proof (min_from_In start rest e) as Hin.
  rewrite <- Hf in Hin. apply filter_In in Hin. destruct Hin as [_ Hfo].
  apply followsb_iff in Hfo. destruct Hfo as [Hge _].
  unfold total_minutes.
  replace (start (min_from start e rest) - E) with 0 by lia.
  reflexivity.
Qed.

Lemma back_to_back_gives_zero_window_witness :
  Fin (Qmake 0 60000000) = Fin (Qmake 0 60000000)
  /\ RoomChecker.get_next_availability
       [lecture 9 0 10 30; lecture 10 30 12 0] (clock 10 0)
     = Some (clock 10 30, Fin (Qmake 0 60000000)).
Proof.
  split; [|reflexivity].
  apply (back_to_back_gives_zero_window
           [lecture 9 0 10 30; lecture 10 30 12 0] (clock 10 0) (clock 10 30)
           (Fin (Qmake 0 60000000)) (lecture 10 30 12 0)).
  - reflexivity.
  - simpl. auto.
  - reflexivity.
Defined.

Lemma finite_durations_below_a_day_witness :
  (0 < Qmake 1800000000 60000000)%Q /\ (Qmake 1800000000 60000000 < 1440)%Q.
Proof.
  apply (proj1 (finite_durations_below_a_day
                  [lecture 8 0 9 0; lecture 10 30 12 0] (clock 10 0)
                  (Qmake 1800000000 60000000))).
  reflexivity.
Defined.

Section EventOrder.

Variables events events' : list event.
Hypothesis same_events : Permutation events events'.

Lemma filter_same_elements (p : event -> bool) (x : event) :
  In x (filter p events) <-> In x (filter p events').
Proof.
  rewrite !filter_In. split; intros [Hin Hp]; split; try exact Hp.
  - eapply Permutation_in; eassumption.
  - eapply Permutation_in; [apply Permutation_sym|]; eassumption.
Qed.

(** The least start among the events that pass a test, as the programs
    take it, does not depend on the order. *)
Lemma window_same_elements (p : event -> bool) (E : datetime) :
  match filter p events with
  | [] => PosInf
  | e :: rest => total_minutes (start (min_from start e rest)) E
  end
  = match filter p events' with
    | [] => PosInf
    | e :: rest => total_minutes (start (min_from start e rest)) E
    end.
Proof.
  pose proof (filter_same_elements p) as Hsame.
  destruct (filter p events) as [|e rest], (filter p events') as [|e' rest'].
  - reflexivity.
  - exfalso. apply (Hsame e'). now left.
  - exfalso. apply (Hsame e). now left.
  - unfold total_minutes.
    now rewrite (min_start_same_elements e e' rest rest' Hsame).
Qed.

Lemma available_same_elements (t : datetime) :
  RoomChecker.is_room_available_now events t
  = RoomChecker.is_room_available_now events' t.
Proof.
  destruct (RoomChecker.is_room_available_now events t) eqn:H1,
           (RoomChecker.is_room_available_now events' t) eqn:H2;
    try reflexivity.
  - rewrite <- H2. symmetry. apply cli_available_true_iff.
    rewrite cli_available_true_iff in H1.
    intros e He. apply H1.
    eapply Permutation_in; [apply Permutation_sym|]; eassumption.
  - rewrite <- H1. apply cli_available_true_iff.
    rewrite cli_available_true_iff in H2.
    intros e He. apply H2. eapply Permutation_in; eassumption.
Qed.

Lemma duration_same_elements (t : datetime) :
  RoomChecker.get_available_duration events t
  = RoomChecker.get_available_duration events' t.
Proof.
  unfold RoomChecker.get_available_duration.
  rewrite !cli_next_event_filter.
  pose proof (window_same_elements (upcomingb t) t) as Hw.
  destruct (filter (upcomingb t) events), (filter (upcomingb t) events');
    exact Hw.
Qed.

Lemma current_end_same_elements (t : datetime) :
  one_current_end events t ->
  RoomChecker.current_event_end events t
  = RoomChecker.current_event_end events' t.
Proof.
  intros Hone.
  pose proof (current_event_end_spec events t) as H1.
  pose proof (current_event_end_spec events' t) as H2.
  destruct (RoomChecker.current_event_end events t) as [E|],
           (RoomChecker.current_event_end events' t) as [E'|].
  - destruct H1 as (e & (pre & post & -> & Hc & _) & ->).
    destruct H2 as (e' & (pre' & post' & -> & Hc' & _) & ->).
    f_equal. apply Hone; try assumption.
    + apply in_or_app. right. now left.
    + eapply Permutation_in; [apply Permutation_sym; exact same_events|].
      apply in_or_app. right. now left.
  - destruct H1 as (e & (pre & post & -> & Hc & _) & ->).
    exfalso. apply (H2 e); [|exact Hc].
    eapply Permutation_in; [exact same_events|].
    apply in_or_app. right. now left.
  - destruct H2 as (e' & (pre' & post' & -> & Hc' & _) & ->).
    exfalso. apply (H1 e'); [|exact Hc'].
    eapply Permutation_in; [apply Permutation_sym; exact same_events|].
    apply in_or_app. right. now left.
  - reflexivity.
Qed.

End EventOrder.

(** X7.  The order of the events in the list of a room does not matter to
    its availability nor to its free duration. *)
Theorem availability_ignores_event_order :
  forall (events events' : list event) (t : datetime),
    Permutation events events' ->
    RoomChecker.is_room_available_now events t
    = RoomChecker.is_room_available_now events' t
    /\ RoomChecker.get_available_duration events t
       = RoomChecker.get_available_duration events' t.
Proof.
  intros events events' t Hp. split.
  - now apply available_same_elements.
  - now apply duration_same_elements.
Qed.

Lemma availability_ignores_event_order_witness :
  RoomChecker.is_room_available_now
    [lecture 14 0 15 0; lecture 8 0 9 0; lecture 10 30 12 0] (clock 10 0)
  = RoomChecker.is_room_available_now
      [lecture 8 0 9 0; lecture 10 30 12 0; lecture 14 0 15 0] (clock 10 0)
  /\ RoomChecker.get_available_duration
       [lecture 14 0 15 0; lecture 8 0 9 0; lecture 10 30 12 0] (clock 10 0)
     = RoomChecker.get_available_duration
         [lecture 8 0 9 0; lecture 10 30 12 0; lecture 14 0 15 0] (clock 10 0).
Proof.
  apply (availability_ignores_event_order
           [lecture 14 0 15 0; lecture 8 0 9 0; lecture 10 30 12 0]
           [lecture 8 0 9 0; lecture 10 30 12 0; lecture 14 0 15 0]
           (clock 10 0)).
  apply (Permutation_cons_app [lecture 8 0 9 0; lecture 10 30 12 0] []).
  apply Permutation_refl.
Defined.

(** X8.  When all the events that contain [t] end at the same time, as
    they do when at most one event contains [t], the order of the events
    does not matter to the answer of [get_next_availability] either. *)
Theorem next_availability_ignores_event_order :
  forall (events events' : list event) (t : datetime),
    Permutation events events' ->
    one_current_end events t ->
    RoomChecker.get_next_availability events t
    = RoomChecker.get_next_availability events' t.
Proof.
  intros events events' t Hp Hone.
  rewrite !cli_next_availability_filter.
  rewrite <- (current_end_same_elements events events' Hp t Hone).
  destruct (RoomChecker.current_event_end events t) as [E|]; [|reflexivity].
  destruct (date E =? date t); [|reflexivity].
  now rewrite (window_same_elements events events' Hp (followsb t E) E).
Qed.

Lemma next_availability_ignores_event_order_witness :
  RoomChecker.get_next_availability
    [lecture 14 0 15 0; lecture 9 0 11 0] (clock 10 0)
  = RoomChecker.get_next_availability
      [lecture 9 0 11 0; lecture 14 0 15 0] (clock 10 0).
Proof.
  apply (next_availability_ignores_event_order
           [lecture 14 0 15 0; lecture 9 0 11 0]
           [lecture 9 0 11 0; lecture 14 0 15 0] (clock 10 0)).
  - apply perm_swap.
  - intros e e' [<-|[<-|[]]] [<-|[<-|[]]] H1 H2;
      try reflexivity; vm_compute in H1, H2; exfalso;
      solve [ apply (proj1 H1); reflexivity | apply (proj2 H1); reflexivity
            | apply (proj1 H2); reflexivity | apply (proj2 H2); reflexivity ].
Defined.

(** ** What is shown for an occupied room *)

Lemma round_half_even_integer (x : Q) (n : Z) :
  (x == inject_Z n)%Q -> round_half_even x = n.
Proof.
  intros H. unfold round_half_even.
  assert (Hf : Qfloor x = n) by (rewrite H; apply Qfloor_Z).
  rewrite Hf.
  assert (Hc : (x - inject_Z n ?= 1 # 2)%Q = Lt).
  { apply Qlt_alt. rewrite H.
    setoid_replace (inject_Z n - inject_Z n)%Q with 0%Q by ring.
    reflexivity. }
  now rewrite Hc.
Qed.

(** The minutes between two times, turned into a [timedelta] again, are
    the microseconds between them. *)
Lemma timedelta_of_total_minutes (n : Z) :
  timedelta_minutes (Qmake n 60000000) = n.
Proof.
  unfold timedelta_minutes. apply round_half_even_integer.
  unfold Qeq, Qmult, inject_Z. simpl. lia.
Qed.

(** X9.  The time up to which both programs show an occupied room as free
    again, the time of its availability plus the minutes of its free
    window, is the start of the earliest event that starts at or after
    that time on the same day; with no such event nothing is computed and
    "end of day" is shown.  The computation never fails. *)
Theorem until_time_is_next_start :
  forall (events : list event) (t E : datetime) (d : pyfloat),
    RoomChecker.get_next_availability events t = Some (E, d) ->
    match until_time E d with
    | Returns None => forall x, In x events -> ~ follows_same_day t E x
    | Returns (Some u) =>
        exists n,
          In n events /\ follows_same_day t E n
          /\ (forall x, In x events -> follows_same_day t E x ->
                        start n <= start x)
          /\ u = start n
    | Raises => False
    end.
Proof.
  intros events t E d H.
  destruct (cli_next_availability_some events t E d H) as (_ & _ & Hd).
  pose proof (free_window_filter events t E) as Hw. rewrite <- Hd in Hw.
  destruct Hw as [(n & Hin & Hfo & Hmin & ->)|[Hnone ->]]; simpl.
  - exists n. split; [exact Hin|]. split; [exact Hfo|]. split; [exact Hmin|].
    rewrite timedelta_of_total_minutes. lia.
  - exact Hnone.
Qed.

(** Occupied until 11:00, then free until the lecture of 14:00. *)
Lemma until_time_is_next_start_witness :
  until_time (clock 11 0) (Fin (Qmake 10800000000 60000000))
  = Returns (Some (clock 14 0))
  /\ exists n,
       In n [lecture 16 0 17 0; lecture 9 0 11 0; lecture 14 0 15 0]
       /\ clock 14 0 = start n.
Proof.
  split; [reflexivity|].
  pose proof (until_time_is_next_start
                [lecture 16 0 17 0; lecture 9 0 11 0; lecture 14 0 15 0]
                (clock 10 0) (clock 11 0)
                (Fin (Qmake 10800000000 60000000)) eq_refl) as H.
  change (until_time (clock 11 0) (Fin (Qmake 10800000000 60000000)))
    with (Returns (Some (clock 14 0))) in H.
  destruct H as (n & Hin & _ & _ & Hu).
  exists n. split; [exact Hin|exact Hu].
Defined.

(** ** More on the loop over the rooms *)

Section AssemblerMore.
Import RoomChecker.

Variable net : network.
Variable now : datetime.

Lemma schedule_of_outcome (room : string) (schedule : option (list event)) :
  get_room_schedule net room (date now) (date (now + us_per_day))
  = Returns schedule ->
  match schedule with
  | Some events => asked net now room = Payload events
  | None => fetch_fails net now room
  end.
Proof.
  unfold get_room_schedule, fetch_fails, is_failure, asked.
  destruct (net room (date now) (date (now + us_per_day))) as [e|  |events];
    intros H; try discriminate; apply some_result in H; subst schedule.
  - destruct e; auto.
  - reflexivity.
Qed.

Lemma schedule_raises_iff (room : string) :
  get_room_schedule net room (date now) (date (now + us_per_day)) = Raises
  <-> asked net now room = OtherException.
Proof.
  unfold get_room_schedule, asked.
  destruct (net room (date now) (date (now + us_per_day)));
    split; congruence.
Qed.

(** What one room adds to each of the three lists. *)
Lemma record_room_available (st : loop_state) (x : string)
    (schedule : option (list event)) (a : available_entry) :
  In a (available_rooms (record_room now st x schedule))
  <-> In a (available_rooms st)
      \/ exists events,
           schedule = Some events
           /\ is_room_available_now events now = true
           /\ a = (x, events, get_available_duration events now).
Proof.
  unfold record_room. destruct schedule as [events|]; simpl.
  - destruct (is_room_available_now events now) eqn:Hav; simpl.
    + rewrite in_app_iff. simpl. split.
      * intros [H|[<-|[]]]; [now left|right]. exists events. auto.
      * intros [H|(ev & Hev & _ & ->)]; [now left|right; left].
        apply some_eq in Hev. now subst.
    + destruct (get_next_availability events now); simpl;
        (split; [now left|]);
        (intros [H|(ev & Hev & Hav' & _)]; [exact H|]);
        apply some_eq in Hev; subst; congruence.
  - split; [now left|]. intros [H|(ev & Hev & _)]; [exact H|discriminate].
Qed.

Lemma record_room_occupied (st : loop_state) (x : string)
    (schedule : option (list event)) (a : occupied_entry) :
  In a (occupied_rooms (record_room now st x schedule))
  <-> In a (occupied_rooms st)
      \/ exists events E d,
           schedule = Some events
           /\ is_room_available_now events now = false
           /\ get_next_availability events now = Some (E, d)
           /\ a = (x, events, E, d).
Proof.
  unfold record_room. destruct schedule as [events|]; simpl.
  - destruct (is_room_available_now events now) eqn:Hav; simpl.
    + split; [now left|].
      intros [H|(ev & E & d & Hev & Hav' & _)]; [exact H|].
      apply some_eq in Hev. subst. congruence.
    + destruct (get_next_availability events now) as [[E d]|] eqn:Hn; simpl.
      * rewrite in_app_iff. simpl. split.
        -- intros [H|[<-|[]]]; [now left|right]. exists events, E, d. auto.
        -- intros [H|(ev & E' & d' & Hev & _ & Hn' & ->)]; [now left|right; left].
           apply some_eq in Hev. subst ev. rewrite Hn in Hn'.
           injection Hn' as <- <-. reflexivity.
      * split; [now left|].
        intros [H|(ev & E' & d' & Hev & _ & Hn' & _)]; [exact H|].
        apply some_eq in Hev. subst ev. congruence.
  - split; [now left|].
    intros [H|(ev & E & d & Hev & _)]; [exact H|discriminate].
Qed.

Lemma record_room_warned (st : loop_state) (x : string)
    (schedule : option (list event)) (room : string) :
  In room (could_not_fetch (record_room now st x schedule))
  <-> In room (could_not_fetch st) \/ (schedule = None /\ room = x).
Proof.
  pose proof (record_room_cases now st x schedule) as Hc. cbv zeta in Hc.
  destruct schedule as [events|].
  - destruct Hc as [-> _]. split; [now left|].
    intros [H|[H _]]; [exact H|discriminate].
  - destruct Hc as (_ & _ & ->). rewrite in_app_iff. simpl. split.
    + intros [H|[<-|[]]]; auto.
    + intros [H|[_ ->]]; auto.
Qed.

(** The three lists at the end of the loop, from those at its start. *)
Lemma visit_from_exact (rooms : list string) :
  forall st st',
    visit_from net now rooms st = Returns st' ->
    (forall room events d,
        In (room, events, d) (available_rooms st')
        <-> In (room, events, d) (available_rooms st)
            \/ (In room rooms
                /\ asked net now room = Payload events
                /\ is_room_available_now events now = true
                /\ d = get_available_duration events now))
    /\ (forall room events E d,
          In (room, events, E, d) (occupied_rooms st')
          <-> In (room, events, E, d) (occupied_rooms st)
              \/ (In room rooms
                  /\ asked net now room = Payload events
                  /\ is_room_available_now events now = false
                  /\ get_next_availability events now = Some (E, d)))
    /\ (forall room,
          In room (could_not_fetch st')
          <-> In room (could_not_fetch st)
              \/ (In room rooms /\ fetch_fails net now room)).
Proof.
  induction rooms as [|x rooms IH]; intros st st' H; simpl in H.
  - apply some_result in H. subst st'.
    split; [|split]; intros; (split; [now left|]); intros [H|[[] _]]; exact H.
  - unfold visit_room in H.
    destruct (get_room_schedule net x (date now) (date (now + us_per_day)))
      as [schedule|] eqn:Hx; [|discriminate].
    pose proof (schedule_of_outcome x schedule Hx) as Hout.
    destruct (IH _ _ H) as (IHa & IHo & IHw).
    split; [|split].
    + intros room events d. rewrite IHa, record_room_available. simpl. split.
      * intros [[Hin|(ev & -> & Hav & Heq)]|(Hin & Hrest)].
        -- now left.
        -- injection Heq as -> -> ->. right. auto.
        -- right. tauto.
      * intros [Hin|([<-|Hin] & Hp & Hav & ->)].
        -- left. now left.
        -- left. right. destruct schedule as [ev|].
           ++ exists ev. assert (ev = events) by congruence. subst ev. auto.
           ++ destruct Hout as [Hf|[Hf|Hf]]; unfold asked in Hp; congruence.
        -- right. auto.
    + intros room events E d. rewrite IHo, record_room_occupied. simpl. split.
      * intros [[Hin|(ev & E' & d' & -> & Hav & Hn & Heq)]|(Hin & Hrest)].
        -- now left.
        -- injection Heq as -> -> -> ->. right. auto.
        -- right. tauto.
      * intros [Hin|([<-|Hin] & Hp & Hav & Hn)].
        -- left. now left.
        -- left. right. destruct schedule as [ev|].
           ++ exists ev, E, d. assert (ev = events) by congruence. subst ev. auto.
           ++ destruct Hout as [Hf|[Hf|Hf]]; unfold asked in Hp; congruence.
        -- right. auto.
    + intros room. rewrite IHw, record_room_warned. simpl. split.
      * intros [[Hin|[-> ->]]|(Hin & Hf)].
        -- now left.
        -- right. auto.
        -- right. auto.
      * intros [Hin|([<-|Hin] & Hf)].
        -- left. now left.
        -- left. right. split; [|reflexivity].
           destruct schedule as [ev|]; [|reflexivity].
           unfold asked in Hout. destruct Hf as [Hf|[Hf|Hf]]; congruence.
        -- right. auto.
Qed.

(** The loop raises exactly when the fetch of one of its rooms raises an
    exception that is not a [RequestException]. *)
Lemma visit_from_raises_iff (rooms : list string) :
  forall st,
    visit_from net now rooms st = Raises
    <-> exists room, In room rooms /\ asked net now room = OtherException.
Proof.
  induction rooms as [|x rooms IH]; intros st; simpl.
  - split; [discriminate|intros (room & [] & _)].
  - unfold visit_room.
    destruct (get_room_schedule net x (date now) (date (now + us_per_day)))
      as [schedule|] eqn:Hx.
    + rewrite IH. split.
      * intros (room & Hin & Ho). exists room. auto.
      * intros (room & [<-|Hin] & Ho); [|exists room; auto].
        apply schedule_raises_iff in Ho. congruence.
    + split; [|reflexivity]. intros _. exists x.
      split; [now left|now apply schedule_raises_iff].
Qed.

End AssemblerMore.

(** X10.  When the loop of the command-line program ends, its three lists
    hold exactly this: the rooms fetched and available, each with its
    events and its free duration; the rooms fetched, occupied and free
    again today, each with its events and its next availability; and the
    rooms whose fetch failed.  A room that is occupied with no availability
    today is in none of them. *)
Theorem lists_hold_exactly_the_rooms :
  forall (net : network) (now : datetime) (rooms : list string)
         (st : RoomChecker.loop_state),
    RoomChecker.visit_rooms net now rooms = Returns st ->
    (forall room events d,
        In (room, events, d) (RoomChecker.available_rooms st)
        <-> In room rooms
            /\ asked net now room = Payload events
            /\ RoomChecker.is_room_available_now events now = true
            /\ d = RoomChecker.get_available_duration events now)
    /\ (forall room events E d,
          In (room, events, E, d) (RoomChecker.occupied_rooms st)
          <-> In room rooms
              /\ asked net now room = Payload events
              /\ RoomChecker.is_room_available_now events now = false
              /\ RoomChecker.get_next_availability events now = Some (E, d))
    /\ (forall room,
          In room (RoomChecker.could_not_fetch st)
          <-> In room rooms /\ fetch_fails net now room).
Proof.
  intros net now rooms st H.
  destruct (visit_from_exact net now rooms _ _ H) as (Ha & Ho & Hw).
  split; [|split].
  - intros room events d. rewrite Ha. simpl. tauto.
  - intros room events E d. rewrite Ho. simpl. tauto.
  - intros room. rewrite Hw. simpl. tauto.
Qed.

(** At 10:00 room A is available for 30 minutes, room D is warned about,
    and room E is free again at 11:00 for three hours. *)
Lemma lists_hold_exactly_the_rooms_witness :
  exists st,
    RoomChecker.visit_rooms example_service (clock 10 0)
      ["A"; "D"; "E"; "F"]%string = Returns st
    /\ In ("A"%string, [lecture 8 0 9 0; lecture 10 30 12 0],
           Fin (Qmake 1800000000 60000000))
          (RoomChecker.available_rooms st)
    /\ In "D"%string (RoomChecker.could_not_fetch st).
Proof.
  destruct (RoomChecker.visit_rooms example_service (clock 10 0)
              ["A"; "D"; "E"; "F"]%string) as [st|] eqn:Hst;
    [|vm_compute in Hst; discriminate].
  exists st. split; [reflexivity|].
  destruct (lists_hold_exactly_the_rooms example_service (clock 10 0)
              ["A"; "D"; "E"; "F"]%string st Hst) as (Ha & _ & Hw).
  split.
  - apply Ha. split; [simpl; auto|]. split; [reflexivity|].
    split; reflexivity.
  - apply Hw. split; [simpl; auto|]. left. reflexivity.
Defined.

(** X12.  The web program skips a room whose fetch yields no payload,
    whatever the exception: its answer is the answer for the list of rooms
    without that room. *)
Theorem web_skips_any_failed_room :
  forall (net : network) (check_time : datetime) (rooms : list string)
         (room : string),
    (forall events, asked net check_time room <> Payload events) ->
    FlaskApp.result_rooms net check_time rooms
    = FlaskApp.result_rooms net check_time (remove string_dec room rooms).
Proof.
  intros net check_time rooms room Hno.
  assert (Hskip : forall st,
             fold_left (FlaskApp.visit_room net check_time) rooms st
             = fold_left (FlaskApp.visit_room net check_time)
                 (remove string_dec room rooms) st).
  { induction rooms as [|x rooms IH]; intros st; simpl; [reflexivity|].
    destruct (string_dec room x) as [<-|Hne]; simpl; [|apply IH].
    rewrite <- IH. f_equal.
    unfold FlaskApp.visit_room, FlaskApp.get_room_schedule.
    unfold asked in Hno.
    destruct (net room (date check_time) (date (check_time + us_per_day)))
      as [e| |events]; try reflexivity.
    now elim (Hno events). }
  unfold FlaskApp.result_rooms, FlaskApp.sorted_rooms, FlaskApp.visit_rooms.
  now rewrite Hskip.
Qed.

(** Room D cannot be fetched, and asking for room Z raises an exception of
    another class. *)
Lemma web_skips_any_failed_room_witness :
  FlaskApp.result_rooms example_service (clock 10 0)
    ["A"; "D"; "E"]%string
  = FlaskApp.result_rooms example_service (clock 10 0) ["A"; "E"]%string
  /\ FlaskApp.result_rooms example_service (clock 10 0)
       ["A"; "Z"; "E"]%string
     = FlaskApp.result_rooms example_service (clock 10 0) ["A"; "E"]%string.
Proof.
  split.
  - apply (web_skips_any_failed_room example_service (clock 10 0)
             ["A"; "D"; "E"]%string "D"%string).
    intros events. vm_compute. discriminate.
  - apply (web_skips_any_failed_room example_service (clock 10 0)
             ["A"; "Z"; "E"]%string "Z"%string).
    intros events. vm_compute. discriminate.
Defined.

Section Listed.
Import RoomChecker.

Variable net : network.
Variable now : datetime.

Lemma perm_move_last {A : Type} (a r : list A) (x : A) :
  Permutation (a ++ [x] ++ r) ((a ++ r) ++ [x]).
Proof.
  rewrite <- app_assoc. apply Permutation_app_head.
  apply Permutation_app_comm.
Qed.

(** A room adds its name once, or not at all. *)
Lemma record_room_listed (st : loop_state) (x : string)
    (schedule : option (list event)) :
  exists lx,
    Permutation (listed_rooms (record_room now st x schedule))
                (listed_rooms st ++ lx)
    /\ (lx = [x] \/ lx = []).
Proof.
  pose proof (record_room_cases now st x schedule) as Hc. cbv zeta in Hc.
  unfold listed_rooms.
  destruct schedule as [events|].
  - destruct Hc as (-> & [(d & -> & ->)|[(E & d & -> & ->)|(-> & ->)]]).
    + exists [x]. split; [|now left].
      rewrite map_app. simpl. rewrite <- app_assoc.
      apply (perm_move_last _ _ x).
    + exists [x]. split; [|now left].
      rewrite map_app. simpl map.
      change (cli_occupied_room (x, events, E, d)) with x.
      rewrite <- (app_assoc (map cli_available_room (available_rooms st))).
      apply Permutation_app_head.
      rewrite <- (app_assoc _ [x] (could_not_fetch st)).
      apply (perm_move_last _ _ x).
    + exists []. split; [|now right]. now rewrite app_nil_r.
  - destruct Hc as (-> & -> & ->).
    exists [x]. split; [|now left]. now rewrite <- !app_assoc.
Qed.

Lemma visit_from_listed (rooms : list string) :
  forall st st',
    visit_from net now rooms st = Returns st' ->
    exists l,
      Permutation (listed_rooms st') (listed_rooms st ++ l)
      /\ incl l rooms
      /\ (List.length l <= List.length rooms)%nat
      /\ (NoDup rooms -> NoDup l).
Proof.
  induction rooms as [|x rooms IH]; intros st st' H; simpl in H.
  - apply some_result in H. subst st'. exists [].
    rewrite app_nil_r. split; [reflexivity|]. split; [intros y []|].
    split; [simpl; lia|intros _; constructor].
  - unfold visit_room in H.
    destruct (get_room_schedule net x (date now) (date (now + us_per_day)))
      as [schedule|]; [|discriminate].
    destruct (IH _ _ H) as (l & Hp & Hincl & Hlen & Hnd).
    destruct (record_room_listed st x schedule) as (lx & Hpx & Hlx).
    exists (lx ++ l). split; [|split; [|split]].
    + rewrite Hp, Hpx. now rewrite <- app_assoc.
    + intros y Hy. apply in_app_or in Hy. destruct Hy as [Hy|Hy].
      * destruct Hlx as [-> | ->]; [|elim Hy].
        destruct Hy as [<-|[]]. now left.
      * right. now apply Hincl.
    + rewrite length_app. destruct Hlx as [-> | ->]; simpl; lia.
    + intros Hno. inversion Hno as [|? ? Hx Hrest]; subst.
      destruct Hlx as [-> | ->]; simpl; [|now apply Hnd].
      constructor; [|now apply Hnd].
      intros Hin. apply Hx. now apply Hincl.
Qed.

End Listed.

Lemma A29_ROOMS_NoDup : NoDup RoomChecker.A29_ROOMS.
Proof.
  unfold RoomChecker.A29_ROOMS.
  repeat (constructor; [simpl; intuition discriminate|]).
  constructor.
Qed.

(** X13.  When the loop of the command-line program ends, the counts of
    the summary and the number of warnings add up to at most the number of
    rooms, and a list of rooms without repetition, as [A29_ROOMS] is one,
    gives lists in which no room is named twice: no room is both available
    and occupied, or listed and warned about. *)
Theorem each_room_accounted_for_once :
  forall (net : network) (now : datetime) (rooms : list string)
         (st : RoomChecker.loop_state),
    RoomChecker.visit_rooms net now rooms = Returns st ->
    (fst (RoomChecker.summary (RoomChecker.print_report st))
     + snd (RoomChecker.summary (RoomChecker.print_report st))
     + List.length (RoomChecker.warned (RoomChecker.print_report st))
     <= List.length rooms)%nat
    /\ ((NoDup rooms \/ rooms = RoomChecker.A29_ROOMS) ->
        NoDup (listed_rooms st)).
Proof.
  intros net now rooms st H.
  destruct (visit_from_listed net now rooms _ _ H) as (l & Hp & _ & Hlen & Hnd).
  simpl in Hp. split.
  - rewrite cli_report_summary, cli_report_warned. simpl.
    apply Permutation_length in Hp. unfold listed_rooms in Hp.
    rewrite !length_app, !length_map in Hp. lia.
  - intros Hno.
    assert (Hrooms : NoDup rooms)
      by (destruct Hno as [Hno| ->]; [exact Hno|apply A29_ROOMS_NoDup]).
    eapply Permutation_NoDup; [apply Permutation_sym; exact Hp|].
    now apply Hnd.
Qed.

Lemma each_room_accounted_for_once_witness :
  exists st,
    RoomChecker.visit_rooms example_service (clock 10 0)
      ["A"; "D"; "E"; "F"]%string = Returns st
    /\ (fst (RoomChecker.summary (RoomChecker.print_report st))
        + snd (RoomChecker.summary (RoomChecker.print_report st))
        + List.length (RoomChecker.warned (RoomChecker.print_report st))
        <= 4)%nat.
Proof.
  destruct (RoomChecker.visit_rooms example_service (clock 10 0)
              ["A"; "D"; "E"; "F"]%string) as [st|] eqn:Hst;
    [|vm_compute in Hst; discriminate].
  exists st. split; [reflexivity|].
  apply (each_room_accounted_for_once example_service (clock 10 0)
           ["A"; "D"; "E"; "F"]%string st Hst).
Defined.

(** ** The two programs on the same service *)

Section SortMap.
Context {A B K : Type} (f : A -> B) (key : A -> K) (key' : B -> K).
Variable klt : K -> K -> bool.
Hypothesis same_key : forall x, key' (f x) = key x.

Lemma insert_stable_map (x : A) (l : list A) :
  insert_stable key' klt (f x) (map f l) = map f (insert_stable key klt x l).
Proof.
  induction l as [|y l IH]; simpl; [reflexivity|].
  rewrite !same_key. destruct (klt (key y) (key x)); simpl; [|reflexivity].
  now rewrite IH.
Qed.

Lemma sort_by_key_map (l : list A) :
  sort_by_key key' klt (map f l) = map f (sort_by_key key klt l).
Proof.
  induction l as [|x l IH]; simpl; [reflexivity|].
  rewrite IH. apply insert_stable_map.
Qed.

End SortMap.

Section TwoPrograms.

Variable net : network.
Variable now : datetime.

Lemma available_key_same (x : RoomChecker.available_entry) :
  FlaskApp.available_key (as_available_item x) = RoomChecker.available_key x.
Proof. destruct x as [[room events] d]. reflexivity. Qed.

Lemma occupied_key_same (x : RoomChecker.occupied_entry) :
  FlaskApp.occupied_key (as_occupied_item x) = RoomChecker.occupied_key x.
Proof. destruct x as [[[room events] E] d]. reflexivity. Qed.

(** One room in the web program, from the same lists, when the fetch of the
    other program returns. *)
Lemma flask_visit_room_same (st : RoomChecker.loop_state) (x : string)
    (schedule : option (list event)) :
  RoomChecker.get_room_schedule net x (date now) (date (now + us_per_day))
  = Returns schedule ->
  FlaskApp.visit_room net now
    (map as_available_item (RoomChecker.available_rooms st),
     map as_occupied_item (RoomChecker.occupied_rooms st)) x
  = (map as_available_item
       (RoomChecker.available_rooms (RoomChecker.record_room now st x schedule)),
     map as_occupied_item
       (RoomChecker.occupied_rooms (RoomChecker.record_room now st x schedule))).
Proof.
  intros H.
  assert (Hs : FlaskApp.get_room_schedule net x (date now)
                 (date (now + us_per_day)) = schedule).
  { unfold RoomChecker.get_room_schedule in H.
    unfold FlaskApp.get_room_schedule.
    destruct (net x (date now) (date (now + us_per_day)));
      try discriminate; now apply some_result in H. }
  unfold FlaskApp.visit_room, RoomChecker.record_room. rewrite Hs.
  destruct schedule as [events|]; [|reflexivity].
  rewrite flask_available_eq, flask_duration_eq.
  destruct (RoomChecker.is_room_available_now events now); simpl.
  - now rewrite map_app.
  - rewrite <- (flask_next_availability_eq events now).
    destruct (FlaskApp.get_next_availability events now) as [na|]; simpl;
      [|reflexivity].
    now rewrite map_app.
Qed.

Lemma flask_visit_from_same (rooms : list string) :
  forall st st',
    RoomChecker.visit_from net now rooms st = Returns st' ->
    fold_left (FlaskApp.visit_room net now) rooms
      (map as_available_item (RoomChecker.available_rooms st),
       map as_occupied_item (RoomChecker.occupied_rooms st))
    = (map as_available_item (RoomChecker.available_rooms st'),
       map as_occupied_item (RoomChecker.occupied_rooms st')).
Proof.
  induction rooms as [|x rooms IH]; intros st st' H; simpl in H |- *.
  - apply some_result in H. now subst.
  - unfold RoomChecker.visit_room in H.
    destruct (RoomChecker.get_room_schedule net x (date now)
                (date (now + us_per_day))) as [schedule|] eqn:Hx;
      [|discriminate].
    rewrite (flask_visit_room_same st x schedule Hx). now apply IH.
Qed.

Lemma flask_available_row_same (x : RoomChecker.available_entry) :
  flask_available_row now (as_available_item x) = cli_available_row now x.
Proof.
  destruct x as [[room events] d]. unfold flask_available_row. simpl.
  now rewrite flask_next_event_eq.
Qed.

Lemma flask_next_row_same (x : RoomChecker.occupied_entry) :
  flask_next_row (as_occupied_item x) = cli_next_row x.
Proof. destruct x as [[[room events] E] d]. reflexivity. Qed.

End TwoPrograms.

(** X14.  On the same service and at the same time, when the run of the
    command-line program ends, the web program answers what the other
    prints: the same available rooms in the same order, each with the same
    start of its next event; the same rooms next to become available, with
    the same times and durations, and none where the other prints no such
    block; and the same two counts. *)
Theorem web_answer_is_printed_report :
  forall (net : network) (now : datetime) (rooms : list string)
         (r : RoomChecker.report),
    RoomChecker.report_rooms net now rooms = Returns r ->
    FlaskApp.available (FlaskApp.result_rooms net now rooms)
    = map (cli_available_row now) (RoomChecker.available r)
    /\ FlaskApp.next_available (FlaskApp.result_rooms net now rooms)
       = match RoomChecker.next_to_become_available r with
         | Some shown => map cli_next_row shown
         | None => []
         end
    /\ FlaskApp.summary (FlaskApp.result_rooms net now rooms)
       = RoomChecker.summary r.
Proof.
  intros net now rooms r H.
  unfold RoomChecker.report_rooms, RoomChecker.visit_rooms in H.
  destruct (RoomChecker.visit_from net now rooms (RoomChecker.mkState [] [] []))
    as [st|] eqn:Hst; [|discriminate].
  apply some_result in H. subst r.
  pose proof (flask_visit_from_same net now rooms _ _ Hst) as Hf.
  simpl in Hf.
  assert (Hsorted : FlaskApp.sorted_rooms net now rooms
                    = (map as_available_item
                         (sort_by_key RoomChecker.available_key tuple2_lt
                            (RoomChecker.available_rooms st)),
                       map as_occupied_item
                         (sort_by_key RoomChecker.occupied_key tuple3_lt
                            (RoomChecker.occupied_rooms st)))).
  { unfold FlaskApp.sorted_rooms, FlaskApp.visit_rooms. rewrite Hf. simpl.
    rewrite (sort_by_key_map as_available_item RoomChecker.available_key
               FlaskApp.available_key tuple2_lt available_key_same).
    rewrite (sort_by_key_map as_occupied_item RoomChecker.occupied_key
               FlaskApp.occupied_key tuple3_lt occupied_key_same).
    reflexivity. }
  split; [|split].
  - rewrite flask_result_available, Hsorted, cli_report_available. simpl.
    rewrite map_map. apply map_ext. apply flask_available_row_same.
  - rewrite flask_result_next, Hsorted, cli_report_next. cbn [fst snd].
    rewrite length_map, sort_by_key_length.
    destruct (List.length (RoomChecker.available_rooms st) <=? 2)%nat;
      [|reflexivity].
    cbn [andb]. rewrite firstn_map, map_map.
    destruct (RoomChecker.occupied_rooms st) as [|o l] eqn:Ho.
    + reflexivity.
    + cbn [negb]. apply map_ext. apply flask_next_row_same.
  - rewrite cli_report_summary.
    unfold FlaskApp.result_rooms. rewrite Hsorted. simpl.
    now rewrite !length_map, !sort_by_key_length.
Qed.

Lemma web_answer_is_printed_report_witness :
  exists r,
    RoomChecker.report_rooms example_service (clock 10 0)
      ["A"; "D"; "E"; "F"]%string = Returns r
    /\ FlaskApp.summary
         (FlaskApp.result_rooms example_service (clock 10 0)
            ["A"; "D"; "E"; "F"]%string)
       = RoomChecker.summary r.
Proof.
  destruct (RoomChecker.report_rooms example_service (clock 10 0)
              ["A"; "D"; "E"; "F"]%string) as [r|] eqn:Hr;
    [|vm_compute in Hr; discriminate].
  exists r. split; [reflexivity|].
  apply (web_answer_is_printed_report example_service (clock 10 0)
           ["A"; "D"; "E"; "F"]%string r Hr).
Defined.

(** ** The best rooms first *)

Lemma dur_lt_irrefl (x : pyfloat) : ~ dur_lt x x.
Proof. destruct x as [|q|]; simpl; auto. apply Qlt_irrefl. Qed.

Lemma StronglySorted_app_rel {A : Type} (R : A -> A -> Prop) (l1 l2 : list A) :
  StronglySorted R (l1 ++ l2) ->
  forall x y, In x l1 -> In y l2 -> R x y.
Proof.
  induction l1 as [|a l1 IH]; simpl; intros Hs x y Hx Hy; [elim Hx|].
  inversion Hs as [|? ? Hrest Hall]; subst.
  destruct Hx as [<-|Hx]; [|now apply IH].
  rewrite Forall_forall in Hall. apply Hall. apply in_or_app. now right.
Qed.

(** X15.  The first available room of the report is free for as long as
    any available room, and the occupied rooms that the report shows are
    those that become available soonest: none of the occupied rooms left
    out becomes available before one that is shown. *)
Theorem best_rooms_come_first :
  forall (st : RoomChecker.loop_state),
    (forall x rest,
        RoomChecker.available (RoomChecker.print_report st) = x :: rest ->
        forall y, In y (RoomChecker.available_rooms st) ->
                  ~ dur_lt (cli_available_duration x) (cli_available_duration y))
    /\ (forall shown,
          RoomChecker.next_to_become_available (RoomChecker.print_report st)
          = Some shown ->
          exists rest,
            Permutation (RoomChecker.occupied_rooms st) (shown ++ rest)
            /\ forall x y, In x shown -> In y rest ->
                           cli_occupied_time x <= cli_occupied_time y).
Proof.
  intros st. split.
  - intros x rest Hav y Hy.
    pose proof (cli_sort_available_sorted (RoomChecker.available_rooms st)) as Hs.
    pose proof (sort_by_key_perm RoomChecker.available_key tuple2_lt
                  (RoomChecker.available_rooms st)) as Hp.
    rewrite cli_report_available in Hav. rewrite Hav in Hs, Hp.
    apply (Permutation_in _ Hp) in Hy.
    destruct Hy as [<-|Hy]; [apply dur_lt_irrefl|].
    inversion Hs as [|? ? _ Hall]; subst.
    rewrite Forall_forall in Hall. specialize (Hall y Hy).
    destruct x as [[rx ex] dx], y as [[ry ey] dy].
    unfold cli_available_order, longest_then_name in Hall.
    unfold cli_available_duration. simpl.
    intros Hlt. destruct Hall as [Hgt|[Heq _]].
    + apply (dur_lt_irrefl dx). eapply dur_lt_trans; eassumption.
    + apply (dur_lt_irrefl dx). eapply dur_lt_eq_trans; [exact Hlt|].
      now apply dur_eq_sym.
  - intros shown. rewrite cli_report_next.
    destruct (_ && _); [|discriminate].
    intros H. apply some_eq in H. subst shown.
    set (sorted := sort_by_key RoomChecker.occupied_key tuple3_lt
                     (RoomChecker.occupied_rooms st)).
    exists (skipn 2 sorted). split.
    + rewrite firstn_skipn. apply sort_by_key_perm.
    + intros x y Hx Hy.
      pose proof (cli_sort_occupied_sorted (RoomChecker.occupied_rooms st)) as Hs.
      fold sorted in Hs. rewrite <- (firstn_skipn 2 sorted) in Hs.
      pose proof (StronglySorted_app_rel _ _ _ Hs x y Hx Hy) as Hxy.
      destruct x as [[[rx ex] tx] dx], y as [[[ry ey] ty] dy].
      unfold cli_occupied_order, soonest_then_longest_then_name in Hxy.
      unfold cli_occupied_time. simpl. lia.
Qed.

(** ** The free window and the free duration *)

(** X16.  The free window that [get_next_availability] gives after the
    time [E] is the free duration that [get_available_duration] gives at
    [E], as long as no event of the list starts exactly at [E]. *)
Theorem free_window_is_duration_at_availability :
  forall (events : list event) (t E : datetime) (d : pyfloat),
    RoomChecker.get_next_availability events t = Some (E, d) ->
    (forall n, In n events -> start n <> E) ->
    d = RoomChecker.get_available_duration events E.
Proof.
  intros events t E d H Hno.
  destruct (cli_next_availability_some events t E d H) as (_ & Hd & ->).
  unfold RoomChecker.get_available_duration.
  rewrite cli_next_event_filter.
  assert (Hsame : filter (followsb t E) events = filter (upcomingb E) events).
  { apply filter_ext_in. intros n Hn. unfold followsb, upcomingb.
    rewrite Hd. f_equal.
    destruct (E <=? start n) eqn:H1, (E <? start n) eqn:H2; try reflexivity.
    - apply Z.leb_le in H1. apply Z.ltb_ge in H2.
      exfalso. apply (Hno n Hn). lia.
    - apply Z.leb_gt in H1. apply Z.ltb_lt in H2. lia. }
  rewrite Hsame.
  destruct (filter (upcomingb E) events); reflexivity.
Qed.

Lemma free_window_is_duration_at_availability_witness :
  Fin (Qmake 10800000000 60000000)
  = RoomChecker.get_available_duration
      [lecture 9 0 11 0; lecture 14 0 15 0] (clock 11 0).
Proof.
  apply (free_window_is_duration_at_availability
           [lecture 9 0 11 0; lecture 14 0 15 0] (clock 10 0) (clock 11 0)).
  - reflexivity.
  - intros n [<-|[<-|[]]]; vm_compute; discriminate.
Defined.

(** ** The order of the rooms *)

Lemma sorted_perm_unique {A : Type} (R : A -> A -> Prop) (l : list A) :
  forall l',
    StronglySorted R l -> StronglySorted R l' -> Permutation l l' ->
    (forall x y, In x l -> In y l -> R x y -> R y x -> x = y) ->
    l = l'.
Proof.
  induction l as [|a l IH]; intros l' Hs Hs' Hp Hanti.
  - apply Permutation_nil in Hp. now subst.
  - destruct l' as [|b l'].
    + apply Permutation_sym, Permutation_nil in Hp. discriminate.
    + inversion Hs as [|? ? Hs1 Ha]; subst.
      inversion Hs' as [|? ? Hs1' Hb]; subst.
      rewrite Forall_forall in Ha, Hb.
      assert (Hab : a = b).
      { assert (Hin_a : In a (b :: l'))
          by (eapply Permutation_in; [exact Hp|now left]).
        assert (Hin_b : In b (a :: l))
          by (eapply Permutation_in; [apply Permutation_sym; exact Hp|now left]).
        destruct Hin_a as [Heq|Hin_a]; [now symmetry|].
        destruct Hin_b as [Heq|Hin_b]; [exact Heq|].
        apply Hanti; [now left|now right|now apply Ha|now apply Hb]. }
      subst b. f_equal. apply IH; try assumption.
      * eapply Permutation_cons_inv. exact Hp.
      * intros x y Hx Hy. apply Hanti; now right.
Qed.

Lemma tuple2_le_antisym (k1 k2 : pyfloat * string) :
  tuple2_le k1 k2 -> tuple2_le k2 k1 -> snd k1 = snd k2.
Proof.
  unfold tuple2_le. intros [H1|[H1 S1]] [H2|[H2 S2]].
  - exfalso. apply (dur_lt_irrefl (fst k1)). eapply dur_lt_trans; eassumption.
  - exfalso. apply (dur_lt_irrefl (fst k1)). eapply dur_lt_eq_trans; eassumption.
  - exfalso. apply (dur_lt_irrefl (fst k1)). eapply dur_eq_lt_trans; eassumption.
  - now apply String.leb_antisym.
Qed.

Lemma tuple3_le_antisym (k1 k2 : datetime * pyfloat * string) :
  tuple3_le k1 k2 -> tuple3_le k2 k1 -> snd k1 = snd k2.
Proof.
  unfold tuple3_le. intros [H1|[H1 S1]] [H2|[H2 S2]]; try lia.
  apply (tuple2_le_antisym _ _ S1 S2).
Qed.

Section RoomOrder.
Import RoomChecker.

Variable net : network.
Variable now : datetime.
Variables rooms rooms' : list string.
Hypothesis rooms_NoDup : NoDup rooms.
Hypothesis same_rooms : Permutation rooms rooms'.
Variables st st' : loop_state.
Hypothesis run : visit_rooms net now rooms = Returns st.
Hypothesis run' : visit_rooms net now rooms' = Returns st'.

Lemma in_rooms_iff (room : string) : In room rooms <-> In room rooms'.
Proof.
  split; intros H.
  - eapply Permutation_in; eassumption.
  - eapply Permutation_in; [apply Permutation_sym|]; eassumption.
Qed.

Lemma listed_NoDup : NoDup (listed_rooms st) /\ NoDup (listed_rooms st').
Proof.
  split.
  - destruct (visit_from_listed net now rooms _ _ run) as (l & Hp & _ & _ & Hnd).
    simpl in Hp. eapply Permutation_NoDup; [apply Permutation_sym; exact Hp|].
    now apply Hnd.
  - destruct (visit_from_listed net now rooms' _ _ run') as (l & Hp & _ & _ & Hnd).
    simpl in Hp. eapply Permutation_NoDup; [apply Permutation_sym; exact Hp|].
    apply Hnd. eapply Permutation_NoDup; eassumption.
Qed.

Lemma available_same_rooms :
  Permutation (available_rooms st) (available_rooms st').
Proof.
  destruct listed_NoDup as [Hn Hn'].
  destruct (visit_from_exact net now rooms _ _ run) as (Ha & _ & _).
  destruct (visit_from_exact net now rooms' _ _ run') as (Ha' & _ & _).
  apply NoDup_Permutation.
  - apply NoDup_app_remove_r in Hn. now apply NoDup_map_inv in Hn.
  - apply NoDup_app_remove_r in Hn'. now apply NoDup_map_inv in Hn'.
  - intros [[room events] d]. rewrite Ha, Ha'. simpl.
    rewrite (in_rooms_iff room). tauto.
Qed.

Lemma occupied_same_rooms :
  Permutation (occupied_rooms st) (occupied_rooms st').
Proof.
  destruct listed_NoDup as [Hn Hn'].
  destruct (visit_from_exact net now rooms _ _ run) as (_ & Ho & _).
  destruct (visit_from_exact net now rooms' _ _ run') as (_ & Ho' & _).
  apply NoDup_Permutation.
  - apply NoDup_app_remove_l, NoDup_app_remove_r in Hn.
    now apply NoDup_map_inv in Hn.
  - apply NoDup_app_remove_l, NoDup_app_remove_r in Hn'.
    now apply NoDup_map_inv in Hn'.
  - intros [[[room events] E] d]. rewrite Ho, Ho'. simpl.
    rewrite (in_rooms_iff room). tauto.
Qed.

Lemma warned_same_rooms :
  Permutation (could_not_fetch st) (could_not_fetch st').
Proof.
  destruct listed_NoDup as [Hn Hn'].
  destruct (visit_from_exact net now rooms _ _ run) as (_ & _ & Hw).
  destruct (visit_from_exact net now rooms' _ _ run') as (_ & _ & Hw').
  apply NoDup_Permutation.
  - now apply NoDup_app_remove_l, NoDup_app_remove_l in Hn.
  - now apply NoDup_app_remove_l, NoDup_app_remove_l in Hn'.
  - intros room. rewrite Hw, Hw'. simpl.
    rewrite (in_rooms_iff room). tauto.
Qed.

(** Two entries of a list for the same room are the same entry. *)
Lemma available_entry_of_room (x y : available_entry) :
  In x (available_rooms st) -> In y (available_rooms st) ->
  cli_available_room x = cli_available_room y -> x = y.
Proof.
  destruct (visit_from_exact net now rooms _ _ run) as (Ha & _ & _).
  destruct x as [[r1 e1] d1], y as [[r2 e2] d2].
  unfold cli_available_room. simpl. intros Hx Hy <-.
  apply Ha in Hx. apply Ha in Hy. simpl in Hx, Hy.
  destruct Hx as [[]|(_ & Hp1 & _ & ->)], Hy as [[]|(_ & Hp2 & _ & ->)].
  assert (e1 = e2) by congruence. now subst.
Qed.

Lemma occupied_entry_of_room (x y : occupied_entry) :
  In x (occupied_rooms st) -> In y (occupied_rooms st) ->
  cli_occupied_room x = cli_occupied_room y -> x = y.
Proof.
  destruct (visit_from_exact net now rooms _ _ run) as (_ & Ho & _).
  destruct x as [[[r1 e1] E1] d1], y as [[[r2 e2] E2] d2].
  unfold cli_occupied_room. simpl. intros Hx Hy <-.
  apply Ho in Hx. apply Ho in Hy. simpl in Hx, Hy.
  destruct Hx as [[]|(_ & Hp1 & _ & Hn1)], Hy as [[]|(_ & Hp2 & _ & Hn2)].
  assert (e1 = e2) by congruence. subst e2.
  rewrite Hn1 in Hn2. now injection Hn2 as -> ->.
Qed.

Lemma sorted_available_same_rooms :
  sort_by_key available_key tuple2_lt (available_rooms st)
  = sort_by_key available_key tuple2_lt (available_rooms st').
Proof.
  apply (sorted_perm_unique (by_key available_key tuple2_le)).
  - apply (sort_by_key_sorted available_key tuple2_lt tuple2_le
             tuple2_lt_le tuple2_nlt_le tuple2_le_trans).
  - apply (sort_by_key_sorted available_key tuple2_lt tuple2_le
             tuple2_lt_le tuple2_nlt_le tuple2_le_trans).
  - rewrite <- !sort_by_key_perm. apply available_same_rooms.
  - intros x y Hx Hy Hxy Hyx.
    apply (Permutation_in _ (Permutation_sym (sort_by_key_perm _ _ _))) in Hx.
    apply (Permutation_in _ (Permutation_sym (sort_by_key_perm _ _ _))) in Hy.
    apply available_entry_of_room; try assumption.
    pose proof (tuple2_le_antisym _ _ Hxy Hyx) as Hr.
    destruct x as [[r1 e1] d1], y as [[r2 e2] d2]. exact Hr.
Qed.

Lemma sorted_occupied_same_rooms :
  sort_by_key occupied_key tuple3_lt (occupied_rooms st)
  = sort_by_key occupied_key tuple3_lt (occupied_rooms st').
Proof.
  apply (sorted_perm_unique (by_key occupied_key tuple3_le)).
  - apply (sort_by_key_sorted occupied_key tuple3_lt tuple3_le
             tuple3_lt_le tuple3_nlt_le tuple3_le_trans).
  - apply (sort_by_key_sorted occupied_key tuple3_lt tuple3_le
             tuple3_lt_le tuple3_nlt_le tuple3_le_trans).
  - rewrite <- !sort_by_key_perm. apply occupied_same_rooms.
  - intros x y Hx Hy Hxy Hyx.
    apply (Permutation_in _ (Permutation_sym (sort_by_key_perm _ _ _))) in Hx.
    apply (Permutation_in _ (Permutation_sym (sort_by_key_perm _ _ _))) in Hy.
    apply occupied_entry_of_room; try assumption.
    pose proof (tuple3_le_antisym _ _ Hxy Hyx) as Hr.
    destruct x as [[[r1 e1] E1] d1], y as [[[r2 e2] E2] d2]. exact Hr.
Qed.

End RoomOrder.

(** X17.  The report does not depend on the order in which the rooms are
    visited: for a list of rooms without repetition, a run over the same
    rooms in another order ends as well, with the same available rooms in
    the same order, the same rooms shown as next, the same counts, and
    warnings for the same rooms. *)
Theorem report_ignores_room_order :
  forall (net : network) (now : datetime) (rooms rooms' : list string)
         (r : RoomChecker.report),
    NoDup rooms ->
    Permutation rooms rooms' ->
    RoomChecker.report_rooms net now rooms = Returns r ->
    exists r',
      RoomChecker.report_rooms net now rooms' = Returns r'
      /\ RoomChecker.available r' = RoomChecker.available r
      /\ RoomChecker.next_to_become_available r'
         = RoomChecker.next_to_become_available r
      /\ RoomChecker.summary r' = RoomChecker.summary r
      /\ Permutation (RoomChecker.warned r) (RoomChecker.warned r').
Proof.
  intros net now rooms rooms' r Hnd Hp Hr.
  unfold RoomChecker.report_rooms in Hr |- *.
  destruct (RoomChecker.visit_rooms net now rooms) as [st|] eqn:Hst;
    [|discriminate].
  apply some_result in Hr. subst r.
  destruct (RoomChecker.visit_rooms net now rooms') as [st'|] eqn:Hst'.
  - exists (RoomChecker.print_report st'). split; [reflexivity|].
    pose proof (sorted_available_same_rooms net now rooms rooms' Hnd Hp
                  st st' Hst Hst') as Ea.
    pose proof (sorted_occupied_same_rooms net now rooms rooms' Hnd Hp
                  st st' Hst Hst') as Eo.
    pose proof (available_same_rooms net now rooms rooms' Hnd Hp
                  st st' Hst Hst') as Pa.
    pose proof (occupied_same_rooms net now rooms rooms' Hnd Hp
                  st st' Hst Hst') as Po.
    apply Permutation_length in Pa. apply Permutation_length in Po.
    split; [now rewrite !cli_report_available, Ea|].
    split.
    { rewrite !cli_report_next, Eo, Pa. clear Ea Eo Pa.
      destruct (RoomChecker.occupied_rooms st),
               (RoomChecker.occupied_rooms st');
        try (simpl in Po; discriminate Po); reflexivity. }
    split; [now rewrite !cli_report_summary, Pa, Po|].
    rewrite !cli_report_warned.
    apply (warned_same_rooms net now rooms rooms' Hnd Hp st st' Hst Hst').
  - exfalso. unfold RoomChecker.visit_rooms in Hst, Hst'.
    apply visit_from_raises_iff in Hst'.
    destruct Hst' as (room & Hin & Ho).
    assert (Hraise : RoomChecker.visit_from net now rooms
                       (RoomChecker.mkState [] [] []) = Raises).
    { apply visit_from_raises_iff. exists room. split; [|exact Ho].
      eapply Permutation_in; [apply Permutation_sym|]; eassumption. }
    congruence.
Qed.

Lemma report_ignores_room_order_witness :
  exists r r',
    RoomChecker.report_rooms example_service (clock 10 0)
      ["A"; "D"; "E"; "F"]%string = Returns r
    /\ RoomChecker.report_rooms example_service (clock 10 0)
         ["D"; "A"; "E"; "F"]%string = Returns r'
    /\ RoomChecker.available r' = RoomChecker.available r.
Proof.
  destruct (RoomChecker.report_rooms example_service (clock 10 0)
              ["A"; "D"; "E"; "F"]%string) as [r|] eqn:Hr;
    [|vm_compute in Hr; discriminate].
  destruct (report_ignores_room_order example_service (clock 10 0)
              ["A"; "D"; "E"; "F"]%string ["D"; "A"; "E"; "F"]%string r)
    as (r' & Hr' & Ha & _).
  - repeat (constructor; [simpl; intuition discriminate|]). constructor.
  - apply perm_swap.
  - exact Hr.
  - exists r, r'. split; [reflexivity|]. split; [exact Hr'|exact Ha].
Defined.

(** ** The loop over the rooms, on the bodies as they arrive *)

Section RawLoop.
Import RawChecker.

Variable net : wire.
Variable now : datetime.

Lemma raw_visit_failed_room (st : loop_state) (room : string) :
  raw_fetch_fails net now room ->
  visit_room net now st room
  = Returns (mkState (available_rooms st) (occupied_rooms st)
                     (could_not_fetch st ++ [room])).
Proof.
  unfold raw_fetch_fails, raw_asked, visit_room, get_room_schedule.
  intros [[e H]|H]; rewrite H; reflexivity.
Qed.

Lemma raw_failure_not_raise (room : string) :
  raw_fetch_fails net now room -> ~ room_raises net now room.
Proof.
  unfold raw_fetch_fails, room_raises.
  intros [[e H]|H] [H'|(events & H' & Hnn & _)]; rewrite H in H';
    try discriminate.
  injection H' as <-. now apply Hnn.
Qed.

(** The schedule that the loop works on, from the answer of the service. *)
Lemma raw_schedule_cases (room : string) :
  match raw_asked net now room with
  | WireRequestException _ | WireBody JsonNull =>
      get_room_schedule net room (date now) (date (now + us_per_day))
      = Returns None
  | WireOtherException =>
      get_room_schedule net room (date now) (date (now + us_per_day)) = Raises
  | WireBody events =>
      get_room_schedule net room (date now) (date (now + us_per_day))
      = Returns (Some events)
  end.
Proof.
  unfold raw_asked, get_room_schedule.
  destruct (net room (date now) (date (now + us_per_day))) as [e| |[| | | |l]];
    reflexivity.
Qed.

(** A turn of the loop raises exactly for a room that raises. *)
Lemma raw_visit_room_raises_iff (st : loop_state) (room : string) :
  visit_room net now st room = Raises <-> room_raises net now room.
Proof.
  unfold visit_room, room_raises, evaluation_raises.
  pose proof (raw_schedule_cases room) as Hs.
  destruct (raw_asked net now room) as [e| |events] eqn:Ha.
  - rewrite Hs. simpl. split; [discriminate|].
    intros [H|(ev & H & _)]; discriminate.
  - rewrite Hs. split; [now left|reflexivity].
  - assert (Hev : events = JsonNull
                  \/ (events <> JsonNull
                      /\ get_room_schedule net room (date now)
                           (date (now + us_per_day)) = Returns (Some events))).
    { destruct events; [now left|right; split; [discriminate|exact Hs]..]. }
    destruct Hev as [->|[Hnn Hsome]].
    + rewrite Hs. simpl. split; [discriminate|].
      intros [H|(ev & H & Hne & _)]; [discriminate|].
      injection H as <-. now elim Hne.
    + rewrite Hsome. unfold record_room.
      destruct (is_room_available_now events now) as [[|]|] eqn:Hav.
      * destruct (get_available_duration events now) as [d|] eqn:Hd.
        -- split; [discriminate|].
           intros [H|(ev & H & _ & Hr)]; [discriminate|].
           injection H as <-. rewrite Hav, Hd in Hr.
           destruct Hr as [H|[[_ H]|[H _]]]; discriminate.
        -- split; [|reflexivity]. intros _. right. exists events.
           split; [reflexivity|]. split; [exact Hnn|]. right. left. now split.
      * destruct (get_next_availability events now) as [[na|]|] eqn:Hn.
        -- split; [discriminate|].
           intros [H|(ev & H & _ & Hr)]; [discriminate|].
           injection H as <-. rewrite Hav, Hn in Hr.
           destruct Hr as [H|[[H _]|[_ H]]]; discriminate.
        -- split; [discriminate|].
           intros [H|(ev & H & _ & Hr)]; [discriminate|].
           injection H as <-. rewrite Hav, Hn in Hr.
           destruct Hr as [H|[[H _]|[_ H]]]; discriminate.
        -- split; [|reflexivity]. intros _. right. exists events.
           split; [reflexivity|]. split; [exact Hnn|]. right. right. now split.
      * split; [|reflexivity]. intros _. right. exists events.
        split; [reflexivity|]. split; [exact Hnn|]. now left.
Qed.

(** What a turn of the loop that ends adds to each of the three lists. *)
Lemma raw_visit_room_exact (st st' : loop_state) (x : string) :
  visit_room net now st x = Returns st' ->
  (forall a, In a (available_rooms st')
             <-> In a (available_rooms st)
                 \/ exists events d,
                      a = (x, events, d) /\ evaluates_free net now x events d)
  /\ (forall a, In a (occupied_rooms st')
                <-> In a (occupied_rooms st)
                    \/ exists events E d,
                         a = (x, events, E, d)
                         /\ evaluates_busy net now x events E d)
  /\ (forall room, In room (could_not_fetch st')
                   <-> In room (could_not_fetch st)
                       \/ (room = x /\ raw_fetch_fails net now x)).
Proof.
  unfold visit_room, evaluates_free, evaluates_busy, raw_fetch_fails.
  pose proof (raw_schedule_cases x) as Hs.
  destruct (raw_asked net now x) as [e| |events] eqn:Ha.
  - rewrite Hs. simpl. intros H. apply some_result in H. subst st'. simpl.
    split; [|split].
    + intros a. split; [now left|].
      intros [H|(ev & d & _ & H & _)]; [exact H|discriminate].
    + intros a. split; [now left|].
      intros [H|(ev & E & d & _ & H & _)]; [exact H|discriminate].
    + intros room. rewrite in_app_iff. simpl. split.
      * intros [H|[<-|[]]]; [now left|right]. split; [reflexivity|].
        left. now exists e.
      * intros [H|[-> _]]; auto.
  - rewrite Hs. discriminate.
  - assert (Hev : events = JsonNull
                  \/ (events <> JsonNull
                      /\ get_room_schedule net x (date now)
                           (date (now + us_per_day)) = Returns (Some events))).
    { destruct events; [now left|right; split; [discriminate|exact Hs]..]. }
    destruct Hev as [->|[Hnn Hsome]].
    + rewrite Hs. simpl. intros H. apply some_result in H. subst st'. simpl.
      split; [|split].
      * intros a. split; [now left|].
        intros [H|(ev & d & _ & H & Hne & _)]; [exact H|].
        injection H as <-. now elim Hne.
      * intros a. split; [now left|].
        intros [H|(ev & E & d & _ & H & Hne & _)]; [exact H|].
        injection H as <-. now elim Hne.
      * intros room. rewrite in_app_iff. simpl. split.
        -- intros [H|[<-|[]]]; [now left|right]. split; [reflexivity|].
           now right.
        -- intros [H|[-> _]]; auto.
    + rewrite Hsome. unfold record_room.
      assert (Hnf : ~ ((exists e, WireBody events = WireRequestException e)
                       \/ WireBody events = WireBody JsonNull)).
      { intros [[e H]|H]; [discriminate|]. injection H as ->. now apply Hnn. }
      destruct (is_room_available_now events now) as [[|]|] eqn:Hav;
        [| |discriminate].
      * destruct (get_available_duration events now) as [d|] eqn:Hd;
          [|discriminate].
        intros H. apply some_result in H. subst st'. simpl.
        split; [|split].
        -- intros a. rewrite in_app_iff. simpl. split.
           ++ intros [H|[<-|[]]]; [now left|right].
              exists events, d. repeat split; auto.
           ++ intros [H|(ev & d' & -> & H & _ & _ & Hd')]; [now left|right; left].
              injection H as <-. rewrite Hd in Hd'.
              apply some_result in Hd'. now subst.
        -- intros a. split; [now left|].
           intros [H|(ev & E & d' & _ & H & _ & Hav' & _)]; [exact H|].
           injection H as <-. congruence.
        -- intros room. split; [now left|]. intros [H|[_ H]]; [exact H|].
           now elim Hnf.
      * destruct (get_next_availability events now) as [[[E d]|]|] eqn:Hn;
          [| |discriminate].
        -- intros H. apply some_result in H. subst st'. simpl.
           split; [|split].
           ++ intros a. split; [now left|].
              intros [H|(ev & d' & _ & H & _ & Hav' & _)]; [exact H|].
              injection H as <-. congruence.
           ++ intros a. rewrite in_app_iff. simpl. split.
              ** intros [H|[<-|[]]]; [now left|right].
                 exists events, E, d. repeat split; auto.
              ** intros [H|(ev & E' & d' & -> & H & _ & _ & Hn')];
                   [now left|right; left].
                 injection H as <-. rewrite Hn in Hn'.
                 apply some_result in Hn'. injection Hn' as <- <-. reflexivity.
           ++ intros room. split; [now left|]. intros [H|[_ H]]; [exact H|].
              now elim Hnf.
        -- intros H. apply some_result in H. subst st'.
           split; [|split].
           ++ intros a. split; [now left|].
              intros [H|(ev & d' & _ & H & _ & Hav' & _)]; [exact H|].
              injection H as <-. congruence.
           ++ intros a. split; [now left|].
              intros [H|(ev & E' & d' & _ & H & _ & _ & Hn')]; [exact H|].
              injection H as <-. congruence.
           ++ intros room. split; [now left|]. intros [H|[_ H]]; [exact H|].
              now elim Hnf.
Qed.

End RawLoop.

Section RawRun.
Import RawChecker.

Variable net : wire.
Variable now : datetime.

Lemma raw_visit_from_raises_iff (rooms : list string) :
  forall st,
    visit_from net now rooms st = Raises
    <-> exists room, In room rooms /\ room_raises net now room.
Proof.
  induction rooms as [|x rooms IH]; intros st; simpl.
  - split; [discriminate|intros (room & [] & _)].
  - destruct (visit_room net now st x) as [st1|] eqn:Hx.
    + rewrite IH. split.
      * intros (room & Hin & Hr). exists room. auto.
      * intros (room & [<-|Hin] & Hr); [|exists room; auto].
        apply (raw_visit_room_raises_iff net now st) in Hr. congruence.
    + split; [|reflexivity]. intros _. exists x.
      split; [now left|]. now apply (raw_visit_room_raises_iff net now st).
Qed.

(** The three lists at the end of the loop, from those at its start. *)
Lemma raw_visit_from_exact (rooms : list string) :
  forall st st',
    visit_from net now rooms st = Returns st' ->
    (forall room events d,
        In (room, events, d) (available_rooms st')
        <-> In (room, events, d) (available_rooms st)
            \/ (In room rooms /\ evaluates_free net now room events d))
    /\ (forall room events E d,
          In (room, events, E, d) (occupied_rooms st')
          <-> In (room, events, E, d) (occupied_rooms st)
              \/ (In room rooms /\ evaluates_busy net now room events E d))
    /\ (forall room,
          In room (could_not_fetch st')
          <-> In room (could_not_fetch st)
              \/ (In room rooms /\ raw_fetch_fails net now room)).
Proof.
  induction rooms as [|x rooms IH]; intros st st' H; simpl in H.
  - apply some_result in H. subst st'.
    split; [|split]; intros; (split; [now left|]); intros [H|[[] _]]; exact H.
  - destruct (visit_room net now st x) as [st1|] eqn:Hx; [|discriminate].
    destruct (raw_visit_room_exact net now st st1 x Hx) as (Xa & Xo & Xw).
    destruct (IH _ _ H) as (IHa & IHo & IHw).
    split; [|split].
    + intros room events d. rewrite IHa, Xa. simpl. split.
      * intros [[Hin|(ev & d' & Heq & Hf)]|(Hin & Hf)].
        -- now left.
        -- injection Heq as -> -> ->. right. auto.
        -- right. auto.
      * intros [Hin|([<-|Hin] & Hf)].
        -- left. now left.
        -- left. right. exists events, d. auto.
        -- right. auto.
    + intros room events E d. rewrite IHo, Xo. simpl. split.
      * intros [[Hin|(ev & E' & d' & Heq & Hf)]|(Hin & Hf)].
        -- now left.
        -- injection Heq as -> -> -> ->. right. auto.
        -- right. auto.
      * intros [Hin|([<-|Hin] & Hf)].
        -- left. now left.
        -- left. right. exists events, E, d. auto.
        -- right. auto.
    + intros room. rewrite IHw, Xw. simpl. split.
      * intros [[Hin|[-> Hf]]|(Hin & Hf)]; auto.
      * intros [Hin|([<-|Hin] & Hf)]; auto.
Qed.

(** The two lists after a turn depend on the two lists before it only, and
    so does whether the turn ends. *)
Lemma raw_visit_room_lists (st1 st2 : loop_state) (x : string) :
  raw_same_lists st1 st2 ->
  alike raw_same_lists (visit_room net now st1 x) (visit_room net now st2 x).
Proof.
  intros [Ha Ho]. unfold visit_room, raw_same_lists.
  destruct (get_room_schedule net x (date now) (date (now + us_per_day)))
    as [[events|]|]; simpl; [| |exact I].
  - destruct (is_room_available_now events now) as [[|]|]; simpl; [| |exact I].
    + destruct (get_available_duration events now); simpl; [|exact I].
      now rewrite Ha.
    + destruct (get_next_availability events now) as [[na|]|]; simpl;
        [| |exact I]; [now rewrite Ho|auto].
  - auto.
Qed.

Lemma raw_visit_from_lists (rooms : list string) :
  forall st1 st2,
    raw_same_lists st1 st2 ->
    alike raw_same_lists (visit_from net now rooms st1)
          (visit_from net now rooms st2).
Proof.
  induction rooms as [|x rooms IH]; intros st1 st2 Hs; simpl; [exact Hs|].
  pose proof (raw_visit_room_lists st1 st2 x Hs) as Hx.
  destruct (visit_room net now st1 x) as [a|],
           (visit_room net now st2 x) as [b|]; simpl in Hx;
    try contradiction; [now apply IH|exact I].
Qed.

(** Leaving the failed room out of the list changes neither list, nor
    whether the loop ends. *)
Lemma raw_visit_from_remove (room : string) (rooms : list string) :
  raw_fetch_fails net now room ->
  forall st,
    alike raw_same_lists (visit_from net now rooms st)
          (visit_from net now (remove string_dec room rooms) st).
Proof.
  intros Hf. induction rooms as [|x rooms IH]; intros st; simpl.
  - split; reflexivity.
  - destruct (string_dec room x) as [<-|Hne].
    + rewrite (raw_visit_failed_room net now st room Hf).
      pose proof (IH st) as Hst.
      pose proof (raw_visit_from_lists rooms
                    (mkState (available_rooms st) (occupied_rooms st)
                             (could_not_fetch st ++ [room])) st
                    (conj eq_refl eq_refl)) as Hl.
      destruct (visit_from net now rooms
                  (mkState (available_rooms st) (occupied_rooms st)
                           (could_not_fetch st ++ [room]))) as [a|],
               (visit_from net now rooms st) as [b|],
               (visit_from net now (remove string_dec room rooms) st) as [c|];
        simpl in *; try tauto.
      destruct Hl as [H1 H2], Hst as [H3 H4]. split; congruence.
    + simpl. destruct (visit_room net now st x) as [st'|]; [apply IH|exact I].
Qed.

End RawRun.

(** The fields of the printed report, from the state the loop ends in. *)
Lemma raw_report_available (st : RawChecker.loop_state) :
  RawChecker.available (RawChecker.print_report st)
  = sort_by_key RawChecker.available_key tuple2_lt
      (RawChecker.available_rooms st).
Proof.
  unfold RawChecker.print_report.
  destruct (_ && _); reflexivity.
Qed.

Lemma raw_report_summary (st : RawChecker.loop_state) :
  RawChecker.summary (RawChecker.print_report st)
  = (List.length (RawChecker.available_rooms st),
     List.length (RawChecker.occupied_rooms st)).
Proof.
  unfold RawChecker.print_report.
  destruct (_ && _); simpl; now rewrite !sort_by_key_length.
Qed.

Lemma raw_report_next (st : RawChecker.loop_state) :
  RawChecker.next_to_become_available (RawChecker.print_report st)
  = if (List.length (RawChecker.available_rooms st) <=? 2)%nat
       && negb (match RawChecker.occupied_rooms st with
                | [] => true
                | _ => false
                end)
    then Some (firstn 2
                 (sort_by_key RawChecker.occupied_key tuple3_lt
                    (RawChecker.occupied_rooms st)))
    else None.
Proof.
  unfold RawChecker.print_report. rewrite sort_by_key_length.
  destruct (_ && _); reflexivity.
Qed.

Lemma raw_report_warned (st : RawChecker.loop_state) :
  RawChecker.warned (RawChecker.print_report st)
  = RawChecker.could_not_fetch st.
Proof.
  unfold RawChecker.print_report.
  destruct (_ && _); reflexivity.
Qed.

(** ** Lists of events whose times are read and naive *)

(** On such lists nothing raises after the fetch, and the program does
    what [RoomChecker] says. *)
Section ReadLists.

Lemma min_from_map {A B : Type} (f : A -> B) (key : A -> Z) (key' : B -> Z) :
  (forall x, key' (f x) = key x) ->
  forall l best,
    min_from key' (f best) (map f l) = f (min_from key best l).
Proof.
  intros Hk. induction l as [|x l IH]; intros best; simpl; [reflexivity|].
  rewrite !Hk. destruct (key x <? key best); apply IH.
Qed.

Lemma raw_covering_end (e : event) (t : datetime) :
  RawChecker.covering_end (raw e) t
  = Returns (if covers e t then Some (end_ e) else None).
Proof. reflexivity. Qed.

Lemma raw_available_loop (l : list event) (t : datetime) :
  RawChecker.is_room_available_loop (map raw l) t
  = Returns (RoomChecker.is_room_available_loop l t).
Proof.
  induction l as [|e l IH]; [reflexivity|].
  cbn [map RawChecker.is_room_available_loop RoomChecker.is_room_available_loop].
  rewrite raw_covering_end. destruct (covers e t); [reflexivity|exact IH].
Qed.

Lemma raw_available_now (l : list event) (t : datetime) :
  RawChecker.is_room_available_now (JsonList (map raw l)) t
  = Returns (RoomChecker.is_room_available_now l t).
Proof.
  destruct l as [|e l]; [reflexivity|].
  apply (raw_available_loop (e :: l)).
Qed.

Lemma raw_future_events (l : list event) (t : datetime) :
  forall acc,
    RawChecker.future_events (map raw l) t (map raw acc)
    = Returns
        (map raw
           (fold_left
              (fun acc e =>
                 if (t <? start e) && (date (start e) =? date t)
                 then acc ++ [e] else acc) l acc)).
Proof.
  induction l as [|e l IH]; intros acc; simpl; [reflexivity|].
  rewrite <- IH. destruct ((t <? start e) && (date (start e) =? date t));
    [|reflexivity].
  now rewrite map_app.
Qed.

Lemma raw_next_event (l : list event) (t : datetime) :
  RawChecker.get_next_event (JsonList (map raw l)) t
  = Returns (option_map raw (RoomChecker.get_next_event l t)).
Proof.
  destruct l as [|e0 l]; [reflexivity|].
  pose proof (raw_future_events (e0 :: l) t []) as Hf. cbn [map] in Hf.
  unfold RawChecker.get_next_event, RoomChecker.get_next_event.
  cbn [RawChecker.falsy RawChecker.iterate map]. rewrite Hf. cbv zeta.
  destruct (fold_left _ (e0 :: l) []) as [|e rest]; [reflexivity|].
  cbn [map option_map].
  now rewrite (min_from_map raw start RawChecker.naive_start).
Qed.

Lemma raw_available_duration (l : list event) (t : datetime) :
  RawChecker.get_available_duration (JsonList (map raw l)) t
  = Returns (RoomChecker.get_available_duration l t).
Proof.
  unfold RawChecker.get_available_duration, RoomChecker.get_available_duration.
  rewrite raw_next_event.
  destruct (RoomChecker.get_next_event l t); reflexivity.
Qed.

Lemma raw_current_event_end (l : list event) (t : datetime) :
  RawChecker.current_event_end (map raw l) t
  = Returns (RoomChecker.current_event_end l t).
Proof.
  induction l as [|e l IH]; [reflexivity|].
  cbn [map RawChecker.current_event_end RoomChecker.current_event_end].
  rewrite raw_covering_end. destruct (covers e t); [reflexivity|exact IH].
Qed.

Lemma raw_next_event_after (l : list event) (E : datetime) (cd : Z) :
  forall acc,
    RawChecker.next_event_after (map raw l) E cd (option_map raw acc)
    = Returns
        (option_map raw
           (fold_left
              (fun (acc : option event) e =>
                 if (E <=? start e) && (date (start e) =? cd)
                 then match acc with
                      | None => Some e
                      | Some n => if start e <? start n then Some e else acc
                      end
                 else acc) l acc)).
Proof.
  induction l as [|e l IH]; intros acc; simpl; [reflexivity|].
  rewrite <- IH. f_equal.
  destruct ((E <=? start e) && (date (start e) =? cd)); [|reflexivity].
  destruct acc as [n|]; simpl; [|reflexivity].
  change (RawChecker.naive_start (raw n)) with (start n).
  destruct (start e <? start n); reflexivity.
Qed.

Lemma raw_next_availability (l : list event) (t : datetime) :
  RawChecker.get_next_availability (JsonList (map raw l)) t
  = Returns (RoomChecker.get_next_availability l t).
Proof.
  unfold RawChecker.get_next_availability, RoomChecker.get_next_availability.
  cbn [RawChecker.iterate]. rewrite raw_current_event_end.
  destruct (RoomChecker.current_event_end l t) as [E|]; [|reflexivity].
  destruct (negb (date E =? date t)); [reflexivity|].
  pose proof (raw_next_event_after l E (date t) None) as Hn.
  cbn [option_map] in Hn. rewrite Hn.
  destruct (fold_left _ l None); reflexivity.
Qed.

Variable net : network.
Variable now : datetime.

Lemma raw_visit_room_of_lists (st : RoomChecker.loop_state) (room : string) :
  RawChecker.visit_room (raw_service net) now (raw_state st) room
  = match RoomChecker.visit_room net now st room with
    | Returns st1 => Returns (raw_state st1)
    | Raises => Raises
    end.
Proof.
  unfold RawChecker.visit_room, RawChecker.get_room_schedule, raw_service,
    RoomChecker.visit_room, RoomChecker.get_room_schedule.
  destruct (net room (date now) (date (now + us_per_day))) as [e| |events];
    simpl; try reflexivity.
  rewrite raw_available_now.
  destruct (RoomChecker.is_room_available_now events now).
  - rewrite raw_available_duration. unfold raw_state. simpl.
    now rewrite map_app.
  - rewrite raw_next_availability.
    destruct (RoomChecker.get_next_availability events now) as [[E d]|];
      [|reflexivity].
    unfold raw_state. simpl. now rewrite map_app.
Qed.

Lemma raw_visit_from_of_lists (rooms : list string) :
  forall st,
    RawChecker.visit_from (raw_service net) now rooms (raw_state st)
    = match RoomChecker.visit_from net now rooms st with
      | Returns st' => Returns (raw_state st')
      | Raises => Raises
      end.
Proof.
  induction rooms as [|x rooms IH]; intros st; simpl; [reflexivity|].
  rewrite raw_visit_room_of_lists.
  destruct (RoomChecker.visit_room net now st x) as [st1|]; [apply IH|reflexivity].
Qed.

Lemma raw_visit_rooms_of_lists (rooms : list string) :
  RawChecker.visit_rooms (raw_service net) now rooms
  = match RoomChecker.visit_rooms net now rooms with
    | Returns st => Returns (raw_state st)
    | Raises => Raises
    end.
Proof. apply (raw_visit_from_of_lists rooms (RoomChecker.mkState [] [] [])). Qed.

End ReadLists.

(** ** A failed fetch, and a body that is no list of events *)

(** A body that decodes is taken as it is.  The empty object of room M
    makes the room available for the rest of the day, with no warning; the
    null end in the list of room N and the object of room P end the loop
    by an exception, and with it the run over all the rooms, which ends
    well without them. *)
Lemma decoded_body_is_not_a_failure :
  match RawChecker.report_rooms raw_example_service (clock 10 0)
          ["A"; "M"]%string with
  | Returns r =>
      ~ In "M"%string (RawChecker.warned r)
      /\ In ("M"%string, JsonEmpty, PosInf) (RawChecker.available r)
      /\ RawChecker.summary r = (2%nat, 0%nat)
  | Raises => False
  end
  /\ RawChecker.report_rooms raw_example_service (clock 10 0)
       ["A"; "N"; "E"]%string = Raises
  /\ RawChecker.report_rooms raw_example_service (clock 10 0)
       ["A"; "P"; "E"]%string = Raises
  /\ RawChecker.report_rooms raw_example_service (clock 10 0)
       ["A"; "E"]%string <> Raises.
Proof.
  split; [|split; [|split]].
  - vm_compute. split; [|split].
    + intros [].
    + left. reflexivity.
    + reflexivity.
  - vm_compute. reflexivity.
  - vm_compute. reflexivity.
  - vm_compute. discriminate.
Qed.

(** C8.  A room whose fetch fails, by an exception that
    [get_room_schedule] catches (a transport error, a non-success status, a
    body that does not decode) or by a body that decodes to [None], gets
    its warning and nothing else.  The loop over the rooms ends exactly
    when the loop over the other rooms ends, which is when none of the
    other rooms raises; and then no entry of the available rooms or of the
    occupied rooms bears the name of the failed room, the available rooms,
    the rooms shown as next and the counts of the summary are those of the
    run over the other rooms, and the lists hold every room that was
    fetched, as its evaluation found it. *)
Theorem failed_room_is_skipped :
  forall (net : wire) (now : datetime) (rooms : list string) (room : string),
    In room rooms ->
    raw_fetch_fails net now room ->
    match RawChecker.visit_rooms net now rooms,
          RawChecker.visit_rooms net now (remove string_dec room rooms) with
    | Returns st, Returns st' =>
        let r := RawChecker.print_report st in
        let r' := RawChecker.print_report st' in
        In room (RawChecker.warned r)
        /\ (forall x, In x (RawChecker.available r) ->
                      raw_available_room x <> room)
        /\ (forall x, In x (RawChecker.occupied_rooms st) ->
                      raw_occupied_room x <> room)
        /\ (forall shown,
              RawChecker.next_to_become_available r = Some shown ->
              forall x, In x shown -> raw_occupied_room x <> room)
        /\ RawChecker.available r = RawChecker.available r'
        /\ RawChecker.next_to_become_available r
           = RawChecker.next_to_become_available r'
        /\ RawChecker.summary r = RawChecker.summary r'
        /\ RawChecker.summary r
           = (List.length (RawChecker.available_rooms st),
              List.length (RawChecker.occupied_rooms st))
        /\ (forall other events d,
              In (other, events, d) (RawChecker.available r)
              <-> In other rooms /\ evaluates_free net now other events d)
        /\ (forall other events E d,
              In (other, events, E, d) (RawChecker.occupied_rooms st)
              <-> In other rooms /\ evaluates_busy net now other events E d)
    | Raises, Raises => True
    | _, _ => False
    end
    /\ (RawChecker.visit_rooms net now rooms = Raises
        <-> exists other,
              In other rooms /\ other <> room /\ room_raises net now other).
Proof.
  intros net now rooms room Hin Hf. split.
  - pose proof (raw_visit_from_remove net now room rooms Hf
                  (RawChecker.mkState [] [] [])) as Hrm.
    unfold RawChecker.visit_rooms.
    destruct (RawChecker.visit_from net now rooms (RawChecker.mkState [] [] []))
      as [st|] eqn:Hst;
      destruct (RawChecker.visit_from net now (remove string_dec room rooms)
                  (RawChecker.mkState [] [] [])) as [st'|];
      simpl in Hrm; try exact Hrm.
    destruct Hrm as [Ea Eo].
    destruct (raw_visit_from_exact net now rooms _ _ Hst) as (Xa & Xo & Xw).
    simpl in Xa, Xo, Xw.
    assert (Hav : forall x, In x (RawChecker.available_rooms st) ->
                            raw_available_room x <> room).
    { intros [[other events] d] Hx. apply Xa in Hx.
      destruct Hx as [[]|(_ & Hask & Hnn & _)].
      unfold raw_available_room. simpl. intros ->.
      destruct Hf as [[e He]|He]; rewrite He in Hask; [discriminate|].
      injection Hask as <-. now apply Hnn. }
    assert (Hocc : forall x, In x (RawChecker.occupied_rooms st) ->
                             raw_occupied_room x <> room).
    { intros [[[other events] E] d] Hx. apply Xo in Hx.
      destruct Hx as [[]|(_ & Hask & Hnn & _)].
      unfold raw_occupied_room. simpl. intros ->.
      destruct Hf as [[e He]|He]; rewrite He in Hask; [discriminate|].
      injection Hask as <-. now apply Hnn. }
    assert (Hsorted : forall x, In x (RawChecker.available
                                         (RawChecker.print_report st))
                                <-> In x (RawChecker.available_rooms st)).
    { intros x. rewrite raw_report_available. split; intros Hx.
      - eapply Permutation_in; [|exact Hx].
        apply Permutation_sym, sort_by_key_perm.
      - eapply Permutation_in; [|exact Hx]. apply sort_by_key_perm. }
    cbv zeta.
    split.
    { rewrite raw_report_warned. apply Xw. right. now split. }
    split.
    { intros x Hx. apply Hav. now apply Hsorted. }
    split; [exact Hocc|].
    split.
    { intros shown. rewrite raw_report_next.
      destruct (_ && _); [|discriminate].
      intros H x Hx. apply some_eq in H. subst shown. apply Hocc.
      apply firstn_In in Hx.
      eapply Permutation_in; [|exact Hx].
      apply Permutation_sym, sort_by_key_perm. }
    split; [now rewrite !raw_report_available, Ea|].
    split; [now rewrite !raw_report_next, Ea, Eo|].
    split; [now rewrite !raw_report_summary, Ea, Eo|].
    split; [apply raw_report_summary|].
    split.
    { intros other events d. rewrite Hsorted, Xa. tauto. }
    { intros other events E d. rewrite Xo. tauto. }
  - unfold RawChecker.visit_rooms. rewrite raw_visit_from_raises_iff. split.
    + intros (other & Ho & Hr). exists other. split; [exact Ho|].
      split; [|exact Hr]. intros ->.
      now apply (raw_failure_not_raise net now room Hf).
    + intros (other & Ho & _ & Hr). exists other. now split.
Qed.

(** The fetch of room D fails, among A, D, E and F at 10:00. *)
Lemma failed_room_is_skipped_witness :
  match RawChecker.visit_rooms raw_example_service (clock 10 0)
          ["A"; "D"; "E"; "F"]%string,
        RawChecker.visit_rooms raw_example_service (clock 10 0)
          ["A"; "E"; "F"]%string with
  | Returns st, Returns st' =>
      In "D"%string (RawChecker.warned (RawChecker.print_report st))
      /\ RawChecker.available (RawChecker.print_report st)
         = RawChecker.available (RawChecker.print_report st')
      /\ RawChecker.summary (RawChecker.print_report st)
         = RawChecker.summary (RawChecker.print_report st')
  | _, _ => False
  end.
Proof.
  pose proof (failed_room_is_skipped raw_example_service (clock 10 0)
                ["A"; "D"; "E"; "F"]%string "D"%string) as H.
  assert (Hin : In "D"%string ["A"; "D"; "E"; "F"]%string)
    by (simpl; auto).
  assert (Hf : raw_fetch_fails raw_example_service (clock 10 0) "D"%string)
    by (left; exists TransportError; reflexivity).
  destruct (H Hin Hf) as [Hrun _].
  change (remove string_dec "D"%string ["A"; "D"; "E"; "F"]%string)
    with ["A"; "E"; "F"]%string in Hrun.
  destruct (RawChecker.visit_rooms raw_example_service (clock 10 0)
              ["A"; "D"; "E"; "F"]%string) as [st|] eqn:E1;
    [|vm_compute in E1; discriminate].
  destruct (RawChecker.visit_rooms raw_example_service (clock 10 0)
              ["A"; "E"; "F"]%string) as [st'|];
    [|exact Hrun].
  cbv zeta in Hrun.
  destruct Hrun as (Hw & _ & _ & _ & Ha & _ & Hs & _).
  split; [exact Hw|]. split; [exact Ha|exact Hs].
Defined.

(** X11.  The loop over the rooms is left by an exception, and the run
    ends without a report, exactly when one of the rooms raises: its fetch
    raises an exception that [get_room_schedule] does not catch, or one of
    the calls that evaluate its body raises.  The evaluation of a list of
    events whose times are read and naive never raises, nor does that of an
    empty object or string, of a zero or of [False]; that of any other
    value that is no list always does. *)
Theorem loop_raises_iff_a_room_raises :
  forall (net : wire) (now : datetime) (rooms : list string),
    (RawChecker.visit_rooms net now rooms = Raises
     <-> exists room, In room rooms /\ room_raises net now room)
    /\ (RawChecker.report_rooms net now rooms = Raises
        <-> exists room, In room rooms /\ room_raises net now room)
    /\ (forall events, ~ evaluation_raises (JsonList (map raw events)) now)
    /\ ~ evaluation_raises JsonEmpty now
    /\ ~ evaluation_raises JsonZero now
    /\ evaluation_raises JsonTruthy now.
Proof.
  intros net now rooms.
  assert (H : RawChecker.visit_rooms net now rooms = Raises
              <-> exists room, In room rooms /\ room_raises net now room)
    by apply raw_visit_from_raises_iff.
  split; [exact H|]. split.
  { rewrite <- H. unfold RawChecker.report_rooms.
    destruct (RawChecker.visit_rooms net now rooms); split; congruence. }
  split.
  { intros events. unfold evaluation_raises.
    rewrite raw_available_now, raw_available_duration, raw_next_availability.
    intros [Hr|[[_ Hr]|[_ Hr]]]; discriminate. }
  split; [|split].
  - unfold evaluation_raises. simpl.
    intros [Hr|[[_ Hr]|[Hr _]]]; discriminate.
  - unfold evaluation_raises. simpl.
    intros [Hr|[[_ Hr]|[Hr _]]]; discriminate.
  - left. reflexivity.
Qed.
